(** * WhatsApp / assistant relay: conversation store, webhook ingestion and
    assistant orchestration.

    A shallow embedding of
      - src/models/Conversation.js and src/models/Message.js,
      - src/services/database.js, src/services/whatsapp.js,
        src/services/openai.js,
      - src/api/controllers/whatsapp.js (verifyWebhook, processMessageWithAI).

    Asynchronous code is written in a state-and-exception monad.  The remote
    services (assistant API, messaging API, SQL driver, timers) are answered
    by an oracle that sees the trace of calls issued so far; the two tables
    are part of the state.  Logging is left out: the [try/catch] blocks of
    the services and handlers only log and rethrow; those of the models
    wrap the message of the error, which [execute] does. *)

From stdpp Require Import gmap strings list pretty.
From Stdlib Require Import ZArith Sorted.

(** ** JavaScript values and exceptions *)

(** JSON values as they occur as values of [conversation.config]; nested
    objects and arrays are carried as their JSON text, a shallow merge never
    looks inside them. *)
Inductive JsVal : Type :=
| JNull
| JBool (b : bool)
| JNum (n : Z)
| JStr (s : string)
| JObject (json : string).

(** JavaScript truthiness. *)
Definition truthy (v : JsVal) : bool :=
  match v with
  | JNull => false
  | JBool b => b
  | JNum n => negb (n =? 0)%Z
  | JStr s => negb (String.eqb s "")
  | JObject _ => true
  end.

(** [a || b] on possibly-undefined values: [None] is [undefined]. *)
Definition js_or (a b : option JsVal) : option JsVal :=
  match a with
  | Some v => if truthy v then a else b
  | None => b
  end.

(** [s || d] for a possibly-undefined string. *)
Definition str_or (s : option string) (d : string) : string :=
  match s with
  | Some x => if String.eqb x "" then d else x
  | None => d
  end.

(** [s || null] for a possibly-undefined string. *)
Definition str_or_null (s : option string) : option string :=
  match s with
  | Some x => if String.eqb x "" then None else Some x
  | None => None
  end.

(** Truthiness of a possibly-undefined string. *)
Definition str_truthy (s : option string) : bool :=
  match s with
  | Some x => negb (String.eqb x "")
  | None => false
  end.

(** How a template literal renders a possibly-undefined string. *)
Definition render (s : option string) : string :=
  match s with Some x => x | None => "undefined" end.

Inductive Exn : Type :=
| Error (message : string)
| TypeError (message : string)
| RangeError (message : string)
| ApiError (statusCode : Z) (message : string).

Definition exn_message (e : Exn) : string :=
  match e with
  | Error m | TypeError m | RangeError m | ApiError _ m => m
  end.

(** ** Outcomes and the monad *)

(** [OutOfFuel] is the outcome of a loop whose iteration bound is used up;
    [waitForRun_never_out_of_fuel] shows that the bound of the one loop of
    the program is never reached. *)
Inductive Outcome (A : Type) : Type :=
| Ok (a : A)
| Throw (e : Exn)
| OutOfFuel.
Arguments Ok {A} a.
Arguments Throw {A} e.
Arguments OutOfFuel {A}.

Definition M (S A : Type) : Type := S -> Outcome A * S.

Definition ret {S A} (a : A) : M S A := fun s => (Ok a, s).

Definition bind {S A B} (m : M S A) (k : A -> M S B) : M S B :=
  fun s =>
    match m s with
    | (Ok a, s') => k a s'
    | (Throw e, s') => (Throw e, s')
    | (OutOfFuel, s') => (OutOfFuel, s')
    end.

Definition throw {S A} (e : Exn) : M S A := fun s => (Throw e, s).

Definition get {S} : M S S := fun s => (Ok s, s).
Definition modify {S} (f : S -> S) : M S unit := fun s => (Ok tt, f s).

Declare Scope js_scope.
Delimit Scope js_scope with js.
Notation "'let*' x := m 'in' k" := (bind m (fun x => k))
  (at level 10, x pattern, m at level 100, k at level 200) : js_scope.
Notation "m >> k" := (bind m (fun _ => k))
  (at level 65, right associativity) : js_scope.
Open Scope js_scope.

(** [for (const x of l) await body(x)] *)
Fixpoint for_of {S A} (l : list A) (body : A -> M S unit) : M S unit :=
  match l with
  | [] => ret tt
  | x :: l' => body x >> for_of l' body
  end.

(** ** Data model *)

(** In-memory [Conversation] object; the same fields make up a row of the
    [conversations] table (the [config] column holds the JSON text of the
    map, modelled by the map it encodes). *)
Record Conversation : Type := {
  conv_id : string;
  conv_wa_id : option string;
  conv_user_id : option string;
  conv_patient_id : option string;
  conv_type : string;
  conv_status : string;
  conv_config : gmap string JsVal;
  conv_created_at : Z;
  conv_updated_at : Z
}.

Record ConversationData : Type := {
  cd_id : option string;
  cd_wa_id : option string;
  cd_user_id : option string;
  cd_patient_id : option string;
  cd_type : option string;
  cd_status : option string;
  cd_config : option (gmap string JsVal);
  cd_created_at : option Z;
  cd_updated_at : option Z
}.

(** Media record stored with a message. *)
Record MediaData : Type := {
  media_url : option string;
  media_mime_type : option string;
  media_filename : option string;
  media_sha256 : option string;
  media_filesize : option Z;
  media_caption : option string
}.

(** *** Webhook envelope *)

Record TextBody : Type := { body : option string }.
Record MediaRef : Type := { media_ref_id : option string }.

(** One element of [value.messages].  [wa_timestamp] is the value of
    [parseInt(message.timestamp)], [None] standing for [NaN]; [wa_media]
    holds the media sub-objects by property name ([message[message.type]]);
    location and contacts are carried as their JSON text. *)
Record WaMessage : Type := {
  wa_from : option string;
  wa_msg_id : option string;
  wa_timestamp : option Z;
  wa_msg_type : option string;
  wa_context_id : option string;
  wa_text : option TextBody;
  wa_media : gmap string MediaRef;
  wa_location : option string;
  wa_contacts : option string
}.

Record Metadata : Type := { phone_number_id : option string }.

Record MessageEvent : Type := {
  ev_messages : option (list WaMessage);
  ev_metadata : option Metadata
}.

Record Change : Type := {
  field : option string;
  value : option MessageEvent
}.

Record Entry : Type := { changes : option (list Change) }.

Record Webhook : Type := { entry : option (list Entry) }.

(** *** Messages *)

(** In-memory [Message] object and row of the [messages] table.
    [msg_timestamp] is the instant (ms since the epoch) whose ISO string the
    source stores; [msg_webhook_data] is the event whose JSON text is
    stored. *)
Record Message : Type := {
  msg_id : string;
  msg_conversation_id : option string;
  msg_type : string;
  msg_wa_id : string;
  msg_timestamp : Z;
  msg_replying_to_mesage_id : option string;
  msg_business_phone_number_id : option string;
  msg_webhook_data : option MessageEvent;
  msg_text : option string;
  msg_media : option MediaData;
  msg_location : option string;
  msg_contact : option string;
  msg_emoji : option string;
  msg_status : string;
  msg_created_at : Z;
  msg_updated_at : Z
}.

Record MessageData : Type := {
  md_id : option string;
  md_conversation_id : option string;
  md_type : option string;
  md_wa_id : option string;
  md_timestamp : option Z;
  md_replying_to_mesage_id : option string;
  md_business_phone_number_id : option string;
  md_webhook_data : option MessageEvent;
  md_text : option string;
  md_media : option MediaData;
  md_location : option string;
  md_contact : option string;
  md_emoji : option string;
  md_status : option string;
  md_created_at : option Z;
  md_updated_at : option Z
}.

(** The empty object literal [{}] as message data. *)
Definition no_data : MessageData :=
  {| md_id := None; md_conversation_id := None; md_type := None;
     md_wa_id := None; md_timestamp := None;
     md_replying_to_mesage_id := None;
     md_business_phone_number_id := None; md_webhook_data := None;
     md_text := None; md_media := None; md_location := None;
     md_contact := None; md_emoji := None; md_status := None;
     md_created_at := None; md_updated_at := None |}.

(** *** Assistant API shapes *)

Record Thread : Type := { thread_id : string }.
Record Run : Type := { run_id : string; run_status : string }.

(** [part_text] is [contentPart.text.value], [None] when [text] is missing. *)
Record ContentPart : Type := {
  part_type : string;
  part_text : option string
}.

Record ThreadMessage : Type := {
  tm_id : string;
  tm_role : string;
  tm_created_at : Z;
  tm_content : option (list ContentPart)
}.

(** *** Messaging API shapes *)

(** Body of a POST to [/<phoneNumberId>/messages]. *)
Inductive Payload : Type :=
| TextPayload (to : option string) (text_body : string)
| MediaPayload (to : option string) (type : string) (link : option string)
    (caption : string)
| ReadPayload (message_id : string).

(** [response.data.messages]: the ids of its elements, [None] when the
    property is missing. *)
Record PostResponse : Type := { resp_message_ids : option (list string) }.

(** [response.data] of the media lookup. *)
Record MediaInfo : Type := {
  info_url : option string;
  info_mime_type : option string;
  info_filename : option string;
  info_sha256 : option string;
  info_filesize : option Z
}.

(** ** The outside world *)

(** Statements sent to the SQL driver. *)
Inductive Sql : Type :=
| InsertConversation (row : Conversation)
| SelectConversationById (id : string)
| SelectConversationByWaId (wa_id : option string)
| UpdateConversationConfig (config : gmap string JsVal) (updated_at : Z)
    (id : string)
| InsertMessage (row : Message)
| SelectMessageById (id : string).

(** Calls that leave the process.  [RunsCancel] belongs to the interface of
    the assistant client; no function of the services issues it. *)
Inductive Call : Type :=
| ThreadsCreate
| ThreadMessagesCreate (threadId : JsVal) (content : option string)
| RunsCreate (threadId : JsVal) (assistant_id : option JsVal)
| RunsRetrieve (threadId : JsVal) (runId : string)
| RunsCancel (threadId : JsVal) (runId : string)
| ThreadMessagesList (threadId : JsVal)
| SetTimeout (ms : Z)
| AxiosGet (url : string)
| AxiosPost (url : string) (payload : Payload)
| GetConnection
| Execute (sql : Sql).

Inductive Reply (A : Type) : Type :=
| Answer (a : A)
| Fail (e : Exn).
Arguments Answer {A} a.
Arguments Fail {A} e.

Definition of_reply {A} (r : Reply A) : Outcome A :=
  match r with Answer a => Ok a | Fail e => Throw e end.

(** The behaviour of everything outside the process.  Each oracle is given
    the trace of calls issued so far, the call being answered last.
    [latency] is the time a call takes on top of a timer's delay. *)
Record Remote : Type := {
  threads_create : list Call -> Reply Thread;
  thread_messages_create : list Call -> Reply unit;
  runs_create : list Call -> Reply Run;
  runs_retrieve : list Call -> Reply Run;
  thread_messages_list : list Call -> Reply (list ThreadMessage);
  axios_get : list Call -> Reply MediaInfo;
  axios_post : list Call -> Reply PostResponse;
  get_connection : list Call -> Reply unit;
  connection_execute : list Call -> Reply unit;
  latency : list Call -> N;
  uuidv4 : nat -> string
}.

(** [process.env] *)
Record Env : Type := {
  WHATSAPP_API_URL : option string;
  WHATSAPP_API_VERSION : option string;
  WHATSAPP_ACCESS_TOKEN : option string;
  WHATSAPP_VERIFY_TOKEN : option string;
  OPENAI_ASSISTANT_ID : option string
}.

(** State of a request: the clock ([Date.now()], ms), the calls issued so
    far (oldest first), the number of identifiers drawn, and the two
    tables (rows in insertion order). *)
Record World : Type := {
  now : Z;
  trace : list Call;
  drawn : nat;
  conversations : list Conversation;
  messages : list Message
}.

(** Delay of a Node.js timer: a delay outside [1 .. 2^31-1] is set to 1. *)
Definition timer_delay (ms : Z) : Z :=
  if ((1 <=? ms) && (ms <=? 2147483647))%Z then ms else 1%Z.

Definition delay_of (c : Call) : Z :=
  match c with SetTimeout ms => timer_delay ms | _ => 0%Z end.

Definition set_config (c : Conversation) (cfg : gmap string JsVal)
    (t : Z) : Conversation :=
  {| conv_id := conv_id c; conv_wa_id := conv_wa_id c;
     conv_user_id := conv_user_id c; conv_patient_id := conv_patient_id c;
     conv_type := conv_type c; conv_status := conv_status c;
     conv_config := cfg; conv_created_at := conv_created_at c;
     conv_updated_at := t |}.

(** The table after [UPDATE conversations SET config = ?, updated_at = ?
    WHERE id = ?]. *)
Definition update_rows (id : string) (cfg : gmap string JsVal) (t : Z)
    (rows : list Conversation) : list Conversation :=
  map (fun r => if String.eqb (conv_id r) id then set_config r cfg t else r)
      rows.

(** What a statement does to the tables. *)
Definition apply_sql (sql : Sql) (w : World) : World :=
  match sql with
  | InsertConversation row =>
      {| now := now w; trace := trace w; drawn := drawn w;
         conversations := conversations w ++ [row];
         messages := messages w |}
  | UpdateConversationConfig cfg t id =>
      {| now := now w; trace := trace w; drawn := drawn w;
         conversations := update_rows id cfg t (conversations w);
         messages := messages w |}
  | InsertMessage row =>
      {| now := now w; trace := trace w; drawn := drawn w;
         conversations := conversations w;
         messages := messages w ++ [row] |}
  | SelectConversationById _ | SelectConversationByWaId _
  | SelectMessageById _ => w
  end.

Section Services.

Context (R : Remote) (env : Env).

(** Issue a call: it is appended to the trace, the clock advances, and the
    oracle answers.  The clock never goes back, and a timer takes at least
    its delay. *)
Definition perform {A} (c : Call) (answer : list Call -> Reply A)
    : M World A :=
  fun w =>
    let h := trace w ++ [c] in
    (of_reply (answer h),
     {| now := now w + delay_of c + Z.of_N (latency R h);
        trace := h; drawn := drawn w;
        conversations := conversations w; messages := messages w |}).

(** [uuidv4()] *)
Definition uuid : M World string :=
  fun w =>
    (Ok (uuidv4 R (drawn w)),
     {| now := now w; trace := trace w; drawn := S (drawn w);
        conversations := conversations w; messages := messages w |}).

(** [Date.now()], also [new Date()] *)
Definition Date_now : M World Z := fun w => (Ok (now w), w).

(** [await getConnection()] *)
Definition getConnection : M World unit :=
  perform GetConnection (get_connection R).

(** [await connection.execute(sql)] inside
    [try { ... } catch (error) { throw new Error(`${what}: ${error.message}`) }] *)
Definition execute (what : string) (sql : Sql) : M World unit :=
  fun w =>
    match perform (Execute sql) (connection_execute R) w with
    | (Ok _, w') => (Ok tt, apply_sql sql w')
    | (Throw e, w') => (Throw (Error (what +:+ ": " +:+ exn_message e)), w')
    | (OutOfFuel, w') => (OutOfFuel, w')
    end.

(** *** src/models/Conversation.js *)

(** [{ ...a, ...b }] *)
Definition spread (a b : gmap string JsVal) : gmap string JsVal := b ∪ a.

Definition conversation_row_data (r : Conversation) : ConversationData :=
  {| cd_id := Some (conv_id r); cd_wa_id := conv_wa_id r;
     cd_user_id := conv_user_id r; cd_patient_id := conv_patient_id r;
     cd_type := Some (conv_type r); cd_status := Some (conv_status r);
     cd_config := Some (conv_config r);
     cd_created_at := Some (conv_created_at r);
     cd_updated_at := Some (conv_updated_at r) |}.

(** [new Conversation(data)] *)
Definition new_Conversation (data : ConversationData) : M World Conversation :=
  let* id := match str_or_null (cd_id data) with
             | Some i => ret i
             | None => uuid
             end in
  let* t := Date_now in
  ret {| conv_id := id;
         conv_wa_id := cd_wa_id data;
         conv_user_id := str_or_null (cd_user_id data);
         conv_patient_id := str_or_null (cd_patient_id data);
         conv_type := str_or (cd_type data) "user_initiated";
         conv_status := str_or (cd_status data) "new";
         conv_config := default ∅ (cd_config data);
         conv_created_at := default t (cd_created_at data);
         conv_updated_at := default t (cd_updated_at data) |}.

(** [Conversation.prototype.create] *)
Definition Conversation_create (this : Conversation) : M World Conversation :=
  getConnection >>
  execute "Failed to create conversation" (InsertConversation this) >>
  ret this.

(** [rows[0]] of [SELECT * FROM conversations WHERE id = ?]; identifiers
    are compared as strings, character by character. *)
Definition select_conversation_by_id (id : string) (w : World)
    : option Conversation :=
  head (filter (fun r => conv_id r = id) (conversations w)).

(** [Conversation.findById] *)
Definition Conversation_findById (id : string)
    : M World (option Conversation) :=
  getConnection >>
  execute "Failed to find conversation" (SelectConversationById id) >>
  let* w := get in
  match select_conversation_by_id id w with
  | None => ret None
  | Some row =>
      let* c := new_Conversation (conversation_row_data row) in
      ret (Some c)
  end.

(** The row [ORDER BY created_at DESC LIMIT 1] keeps.  Among rows of equal
    [created_at] the database may keep any; the first inserted is kept
    here. *)
Fixpoint latest (rows : list Conversation) : option Conversation :=
  match rows with
  | [] => None
  | r :: rows' =>
      match latest rows' with
      | Some r' =>
          if (conv_created_at r <? conv_created_at r')%Z
          then Some r' else Some r
      | None => Some r
      end
  end.

(** The row of
    [SELECT * FROM conversations WHERE wa_id = ? ORDER BY created_at DESC LIMIT 1];
    a comparison with [NULL] selects nothing. *)
Definition select_conversation_by_wa_id (waId : option string) (w : World)
    : option Conversation :=
  match waId with
  | None => None
  | Some i => latest (filter (fun r => conv_wa_id r = Some i) (conversations w))
  end.

(** [Conversation.findByWaId] *)
Definition Conversation_findByWaId (waId : option string)
    : M World (option Conversation) :=
  getConnection >>
  execute "Failed to find conversation by wa_id"
    (SelectConversationByWaId waId) >>
  let* w := get in
  match select_conversation_by_wa_id waId w with
  | None => ret None
  | Some row =>
      let* c := new_Conversation (conversation_row_data row) in
      ret (Some c)
  end.

(** Methods that mutate [this] run on the pair of the object and the
    world, so that the object a caller holds is the one the method left
    behind, also when the method throws. *)
Definition Obj : Type := Conversation * World.

Definition lift {A} (m : M World A) : M Obj A :=
  fun s => let '(r, w') := m (snd s) in (r, (fst s, w')).

Definition this : M Obj Conversation := fun s => (Ok (fst s), s).

Definition set_this (c : Conversation) : M Obj unit :=
  fun s => (Ok tt, (c, snd s)).

(** [Conversation.prototype.updateConfig] *)
Definition updateConfig (configData : gmap string JsVal)
    : M Obj Conversation :=
  lift getConnection >>
  let* c := this in
  let* t := lift Date_now in
  let cfg := spread (conv_config c) configData in
  set_this (set_config c cfg t) >>
  lift (execute "Failed to update conversation config"
          (UpdateConversationConfig cfg t (conv_id c))) >>
  this.

(** *** src/models/Message.js *)

(** [new Message(data)] *)
Definition new_Message (data : MessageData) : M World Message :=
  let* id := match str_or_null (md_id data) with
             | Some i => ret i
             | None => uuid
             end in
  let* t := Date_now in
  ret {| msg_id := id;
         msg_conversation_id := md_conversation_id data;
         msg_type := str_or (md_type data) "text";
         msg_wa_id := str_or (md_wa_id data) "";
         msg_timestamp := default t (md_timestamp data);
         msg_replying_to_mesage_id :=
           str_or_null (md_replying_to_mesage_id data);
         msg_business_phone_number_id :=
           str_or_null (md_business_phone_number_id data);
         msg_webhook_data := md_webhook_data data;
         msg_text := str_or_null (md_text data);
         msg_media := md_media data;
         msg_location := md_location data;
         msg_contact := md_contact data;
         msg_emoji := md_emoji data;
         msg_status := str_or (md_status data) "pending";
         msg_created_at := default t (md_created_at data);
         msg_updated_at := default t (md_updated_at data) |}.

(** [Message.prototype.create] *)
Definition Message_create (this : Message) : M World Message :=
  getConnection >>
  execute "Failed to create message" (InsertMessage this) >>
  ret this.

Definition message_row_data (r : Message) : MessageData :=
  {| md_id := Some (msg_id r);
     md_conversation_id := msg_conversation_id r;
     md_type := Some (msg_type r); md_wa_id := Some (msg_wa_id r);
     md_timestamp := Some (msg_timestamp r);
     md_replying_to_mesage_id := msg_replying_to_mesage_id r;
     md_business_phone_number_id := msg_business_phone_number_id r;
     md_webhook_data := msg_webhook_data r; md_text := msg_text r;
     md_media := msg_media r; md_location := msg_location r;
     md_contact := msg_contact r; md_emoji := msg_emoji r;
     md_status := Some (msg_status r);
     md_created_at := Some (msg_created_at r);
     md_updated_at := Some (msg_updated_at r) |}.

(** [Message.findById] *)
Definition Message_findById (id : string) : M World (option Message) :=
  getConnection >>
  execute "Failed to find message" (SelectMessageById id) >>
  let* w := get in
  match head (filter (fun r => msg_id r = id) (messages w)) with
  | None => ret None
  | Some row =>
      let* m := new_Message (message_row_data row) in
      ret (Some m)
  end.

(** [{ ...data, type: ty }] *)
Definition with_type (data : MessageData) (ty : string) : MessageData :=
  {| md_id := md_id data; md_conversation_id := md_conversation_id data;
     md_type := Some ty; md_wa_id := md_wa_id data;
     md_timestamp := md_timestamp data;
     md_replying_to_mesage_id := md_replying_to_mesage_id data;
     md_business_phone_number_id := md_business_phone_number_id data;
     md_webhook_data := md_webhook_data data; md_text := md_text data;
     md_media := md_media data; md_location := md_location data;
     md_contact := md_contact data; md_emoji := md_emoji data;
     md_status := md_status data; md_created_at := md_created_at data;
     md_updated_at := md_updated_at data |}.

(** [{ ...data, media: mediaData }] *)
Definition with_media (data : MessageData) (mediaData : MediaData)
    : MessageData :=
  {| md_id := md_id data; md_conversation_id := md_conversation_id data;
     md_type := md_type data; md_wa_id := md_wa_id data;
     md_timestamp := md_timestamp data;
     md_replying_to_mesage_id := md_replying_to_mesage_id data;
     md_business_phone_number_id := md_business_phone_number_id data;
     md_webhook_data := md_webhook_data data; md_text := md_text data;
     md_media := Some mediaData; md_location := md_location data;
     md_contact := md_contact data; md_emoji := md_emoji data;
     md_status := md_status data; md_created_at := md_created_at data;
     md_updated_at := md_updated_at data |}.

(** [{ ...data, status: st }] *)
Definition with_status (data : MessageData) (st : string) : MessageData :=
  {| md_id := md_id data; md_conversation_id := md_conversation_id data;
     md_type := md_type data; md_wa_id := md_wa_id data;
     md_timestamp := md_timestamp data;
     md_replying_to_mesage_id := md_replying_to_mesage_id data;
     md_business_phone_number_id := md_business_phone_number_id data;
     md_webhook_data := md_webhook_data data; md_text := md_text data;
     md_media := md_media data; md_location := md_location data;
     md_contact := md_contact data; md_emoji := md_emoji data;
     md_status := Some st; md_created_at := md_created_at data;
     md_updated_at := md_updated_at data |}.

(** [Message.createMediaMessage] *)
Definition Message_createMediaMessage (data : MessageData)
    (mediaData : MediaData) : M World Message :=
  let* message := new_Message (with_media (with_type data "media") mediaData) in
  Message_create message.

(** [Message.createBotMessage] *)
Definition Message_createBotMessage (data : MessageData) : M World Message :=
  let* message := new_Message (with_status (with_type data "bot_answer") "sent") in
  Message_create message.

(** *** src/services/database.js *)

Definition findConversationByWaId := Conversation_findByWaId.
Definition findConversationById := Conversation_findById.
Definition findMessageById := Message_findById.
Definition createMediaMessage := Message_createMediaMessage.
Definition createBotMessage := Message_createBotMessage.

Definition createConversation (data : ConversationData)
    : M World Conversation :=
  let* conversation := new_Conversation data in
  Conversation_create conversation.

Definition createMessage (data : MessageData) : M World Message :=
  let* message := new_Message data in
  Message_create message.

(** *** src/services/whatsapp.js *)

Definition apiVersion : string := str_or (WHATSAPP_API_VERSION env) "v18.0".

Definition api_url (path : string) : string :=
  render (WHATSAPP_API_URL env) +:+ "/" +:+ apiVersion +:+ "/" +:+ path.

(** [new Date(seconds * 1000).toISOString()]; the instant is kept in ms.
    An invalid date (from [NaN] or out of the range of [Date]) throws. *)
Definition toISOString (seconds : option Z) : M World Z :=
  match seconds with
  | Some t =>
      if (Z.abs (t * 1000) <=? 8640000000000000)%Z
      then ret (t * 1000)%Z
      else throw (RangeError "Invalid time value")
  | None => throw (RangeError "Invalid time value")
  end.

(** [n || null] for a possibly-undefined number. *)
Definition num_or_null (n : option Z) : option Z :=
  match n with
  | Some x => if (x =? 0)%Z then None else Some x
  | None => None
  end.

Definition getMediaInfo (media : option MediaRef) : M World MediaInfo :=
  match media with
  | Some {| media_ref_id := Some id |} =>
      if String.eqb id "" then throw (Error "Invalid media data")
      else perform (AxiosGet (api_url id)) (axios_get R)
  | _ => throw (Error "Invalid media data")
  end.

Definition processTextMessage (conversation : Conversation)
    (message : WaMessage) (businessPhoneNumberId : option string)
    (rawData : MessageEvent) : M World Message :=
  let* timestamp := toISOString (wa_timestamp message) in
  let* text :=
    match wa_text message with
    | Some t => ret (body t)
    | None =>
        throw (TypeError "Cannot read properties of undefined (reading 'body')")
    end in
  createMessage
    {| md_id := None;
       md_conversation_id := Some (conv_id conversation);
       md_type := Some "text";
       md_wa_id := wa_msg_id message;
       md_timestamp := Some timestamp;
       md_replying_to_mesage_id := str_or_null (wa_context_id message);
       md_business_phone_number_id := businessPhoneNumberId;
       md_webhook_data := Some rawData;
       md_text := text;
       md_media := None; md_location := None; md_contact := None;
       md_emoji := None;
       md_status := Some "received";
       md_created_at := None; md_updated_at := None |}.

Definition processMediaMessage (conversation : Conversation)
    (message : WaMessage) (businessPhoneNumberId : option string)
    (rawData : MessageEvent) : M World Message :=
  let* mediaInfo :=
    getMediaInfo (wa_media message !! default "" (wa_msg_type message)) in
  let mediaData :=
    {| media_url := info_url mediaInfo;
       media_mime_type := info_mime_type mediaInfo;
       media_filename := str_or_null (info_filename mediaInfo);
       media_sha256 := str_or_null (info_sha256 mediaInfo);
       media_filesize := num_or_null (info_filesize mediaInfo);
       media_caption := None |} in
  let* timestamp := toISOString (wa_timestamp message) in
  createMessage
    {| md_id := None;
       md_conversation_id := Some (conv_id conversation);
       md_type := wa_msg_type message;
       md_wa_id := wa_msg_id message;
       md_timestamp := Some timestamp;
       md_replying_to_mesage_id := str_or_null (wa_context_id message);
       md_business_phone_number_id := businessPhoneNumberId;
       md_webhook_data := Some rawData;
       md_text := None;
       md_media := Some mediaData;
       md_location := None; md_contact := None; md_emoji := None;
       md_status := Some "received";
       md_created_at := None; md_updated_at := None |}.

Definition processLocationMessage (conversation : Conversation)
    (message : WaMessage) (businessPhoneNumberId : option string)
    (rawData : MessageEvent) : M World Message :=
  let* timestamp := toISOString (wa_timestamp message) in
  createMessage
    {| md_id := None;
       md_conversation_id := Some (conv_id conversation);
       md_type := Some "location";
       md_wa_id := wa_msg_id message;
       md_timestamp := Some timestamp;
       md_replying_to_mesage_id := str_or_null (wa_context_id message);
       md_business_phone_number_id := businessPhoneNumberId;
       md_webhook_data := Some rawData;
       md_text := None; md_media := None;
       md_location := wa_location message;
       md_contact := None; md_emoji := None;
       md_status := Some "received";
       md_created_at := None; md_updated_at := None |}.

Definition processContactMessage (conversation : Conversation)
    (message : WaMessage) (businessPhoneNumberId : option string)
    (rawData : MessageEvent) : M World Message :=
  let* timestamp := toISOString (wa_timestamp message) in
  createMessage
    {| md_id := None;
       md_conversation_id := Some (conv_id conversation);
       md_type := Some "contact";
       md_wa_id := wa_msg_id message;
       md_timestamp := Some timestamp;
       md_replying_to_mesage_id := str_or_null (wa_context_id message);
       md_business_phone_number_id := businessPhoneNumberId;
       md_webhook_data := Some rawData;
       md_text := None; md_media := None; md_location := None;
       md_contact := wa_contacts message;
       md_emoji := None;
       md_status := Some "received";
       md_created_at := None; md_updated_at := None |}.

(** The four kinds of the second branch of [handleMessageEvent]. *)
Definition is_media_type (ty : string) : bool :=
  String.eqb ty "image" || String.eqb ty "document" ||
  String.eqb ty "audio" || String.eqb ty "video".

(** The types that [handleMessageEvent] stores a row for. *)
Definition supported (ty : option string) : bool :=
  match ty with
  | Some t =>
      String.eqb t "text" || is_media_type t ||
      String.eqb t "location" || String.eqb t "contacts"
  | None => false
  end.

Definition handleMessageEvent (messageEvent : option MessageEvent)
    : M World unit :=
  match messageEvent with
  | None => ret tt
  | Some ev =>
      match ev_messages ev with
      | None | Some [] => ret tt
      | Some (message :: _) =>
          let metadata := ev_metadata ev in
          let waId := wa_from message in
          let businessPhoneNumberId :=
            match metadata with
            | Some md => phone_number_id md
            | None => None
            end in
          let* found := findConversationByWaId waId in
          let* conversation :=
            match found with
            | Some c => ret c
            | None =>
                createConversation
                  {| cd_id := None; cd_wa_id := waId; cd_user_id := None;
                     cd_patient_id := None;
                     cd_type := Some "user_initiated";
                     cd_status := Some "new"; cd_config := None;
                     cd_created_at := None; cd_updated_at := None |}
            end in
          match wa_msg_type message with
          | Some ty =>
              if String.eqb ty "text" then
                processTextMessage conversation message
                  businessPhoneNumberId ev >> ret tt
              else if is_media_type ty then
                processMediaMessage conversation message
                  businessPhoneNumberId ev >> ret tt
              else if String.eqb ty "location" then
                processLocationMessage conversation message
                  businessPhoneNumberId ev >> ret tt
              else if String.eqb ty "contacts" then
                processContactMessage conversation message
                  businessPhoneNumberId ev >> ret tt
              else ret tt
          | None => ret tt
          end
      end
  end.

(** Value returned by [processWebhook]. *)
Record WebhookResult : Type := {
  success : bool;
  error : option string
}.

(** Body of the inner loop of [processWebhook]. *)
Definition handleChange (change : Change) : M World unit :=
  if bool_decide (field change = Some "messages")
  then handleMessageEvent (value change)
  else ret tt.

(** Body of the outer loop of [processWebhook]; a missing [changes] is not
    iterable. *)
Definition handleEntry (e : Entry) : M World unit :=
  match changes e with
  | Some cs => for_of cs handleChange
  | None => throw (TypeError "entry.changes is not iterable")
  end.

Definition processWebhook (webhookData : option Webhook)
    : M World WebhookResult :=
  match webhookData with
  | None => ret {| success := false; error := Some "Invalid webhook data" |}
  | Some data =>
      match entry data with
      | None =>
          ret {| success := false; error := Some "Invalid webhook data" |}
      | Some entries =>
          for_of entries handleEntry >>
          ret {| success := true; error := None |}
      end
  end.

(** [response.data.messages[0].id] *)
Definition first_message_id (response : PostResponse) : M World string :=
  match resp_message_ids response with
  | Some (id :: _) => ret id
  | Some [] =>
      throw (TypeError "Cannot read properties of undefined (reading 'id')")
  | None =>
      throw (TypeError "Cannot read properties of undefined (reading '0')")
  end.

Definition sendTextMessage (to : option string) (text : string)
    (phoneNumberId conversationId : option string) : M World Message :=
  let payload := TextPayload to text in
  let* response :=
    perform (AxiosPost (api_url (render phoneNumberId +:+ "/messages")) payload)
            (axios_post R) in
  let* wa_id := first_message_id response in
  let* t := Date_now in
  createBotMessage
    {| md_id := None;
       md_conversation_id := conversationId;
       md_type := Some "bot_answer";
       md_wa_id := Some wa_id;
       md_timestamp := Some t;
       md_replying_to_mesage_id := None;
       md_business_phone_number_id := None;
       md_webhook_data := None;
       md_text := Some text;
       md_media := None; md_location := None; md_contact := None;
       md_emoji := None;
       md_status := Some "sent";
       md_created_at := None; md_updated_at := None |}.

(** The argument [mediaData] of [sendMediaMessage]. *)
Record OutboundMedia : Type := {
  om_type : string;
  om_url : option string;
  om_caption : option string
}.

Definition sendMediaMessage (to : option string) (mediaData : OutboundMedia)
    (phoneNumberId conversationId : option string) : M World Message :=
  let type := om_type mediaData in
  let url := om_url mediaData in
  let caption := om_caption mediaData in
  let payload := MediaPayload to type url (str_or caption "") in
  let* response :=
    perform (AxiosPost (api_url (render phoneNumberId +:+ "/messages")) payload)
            (axios_post R) in
  let* wa_id := first_message_id response in
  let* t := Date_now in
  createMediaMessage
    {| md_id := None;
       md_conversation_id := conversationId;
       md_type := Some "bot_answer";
       md_wa_id := Some wa_id;
       md_timestamp := Some t;
       md_replying_to_mesage_id := None;
       md_business_phone_number_id := None;
       md_webhook_data := None;
       md_text := None;
       md_media := None; md_location := None; md_contact := None;
       md_emoji := None;
       md_status := Some "sent";
       md_created_at := None; md_updated_at := None |}
    {| media_url := url;
       media_mime_type :=
         Some (type +:+ "/" +:+
               (if String.eqb type "document" then "pdf" else "jpeg"));
       media_filename := None; media_sha256 := None;
       media_filesize := None;
       media_caption := Some (str_or caption "") |}.

(** *** src/services/openai.js *)

(** [this.assistantId] *)
Definition assistantId : option JsVal := JStr <$> OPENAI_ASSISTANT_ID env.

Definition createThread : M World Thread :=
  perform ThreadsCreate (threads_create R).

Definition OpenAI_createMessage (threadId : JsVal) (content : option string)
    : M World unit :=
  perform (ThreadMessagesCreate threadId content) (thread_messages_create R).

(** [runAssistant(threadId, { assistantId: a })] *)
Definition runAssistant (threadId : JsVal) (options_assistantId : option JsVal)
    : M World Run :=
  perform (RunsCreate threadId (js_or options_assistantId assistantId))
          (runs_create R).

Definition getRunStatus (threadId : JsVal) (runId : string) : M World Run :=
  perform (RunsRetrieve threadId runId) (runs_retrieve R).

(** [['queued', 'in_progress', 'cancelling'].includes(status)] *)
Definition in_progress (status : string) : bool :=
  String.eqb status "queued" || String.eqb status "in_progress" ||
  String.eqb status "cancelling".

(** [await new Promise(resolve => setTimeout(resolve, interval))] *)
Definition sleep (interval : Z) : M World unit :=
  perform (SetTimeout interval) (fun _ => Answer tt).

(** The [while] loop of [waitForRun], entered with the latest [run];
    [fuel] bounds the number of times its body is run. *)
Fixpoint waitForRun_loop (fuel : nat) (threadId : JsVal) (runId : string)
    (interval timeout startTime : Z) (run : Run) : M World Run :=
  if in_progress (run_status run) then
    match fuel with
    | O => fun w => (OutOfFuel, w)
    | S fuel' =>
        let* t := Date_now in
        if (t - startTime >? timeout)%Z then
          throw (Error ("Run " +:+ runId +:+ " timeout after " +:+
                        pretty timeout +:+ "ms"))
        else
          sleep interval >>
          let* run' := getRunStatus threadId runId in
          waitForRun_loop fuel' threadId runId interval timeout startTime run'
    end
  else ret run.

(** A timer takes at least 1 ms, so the body of the loop runs at most
    [timeout + 2] times before the elapsed time exceeds [timeout]. *)
Definition poll_bound (timeout : Z) : nat := Z.to_nat timeout + 2.

Definition waitForRun (threadId : JsVal) (runId : string)
    (interval timeout : Z) : M World Run :=
  let* startTime := Date_now in
  let* run := getRunStatus threadId runId in
  waitForRun_loop (poll_bound timeout) threadId runId interval timeout
    startTime run.

Definition getMessages (threadId : JsVal) : M World (list ThreadMessage) :=
  perform (ThreadMessagesList threadId) (thread_messages_list R).

End Services.

(** [Array.prototype.sort(cmp)] is a stable sort; insertion from the right
    places an element before the first one it does not compare greater
    than, which keeps equal elements in their original order. *)
Fixpoint insert_by {A} (cmp : A -> A -> Z) (x : A) (l : list A) : list A :=
  match l with
  | [] => [x]
  | y :: l' =>
      if (cmp x y <=? 0)%Z then x :: y :: l' else y :: insert_by cmp x l'
  end.

Definition sort_by {A} (cmp : A -> A -> Z) (l : list A) : list A :=
  foldr (insert_by cmp) [] l.

(** [(a, b) => new Date(b.created_at) - new Date(a.created_at)] *)
Definition newest_first (a b : ThreadMessage) : Z :=
  (tm_created_at b - tm_created_at a)%Z.

Definition is_assistant (msg : ThreadMessage) : bool :=
  String.eqb (tm_role msg) "assistant".

(** The pure part of [getLastAssistantMessage]. *)
Definition lastAssistant (messages : list ThreadMessage)
    : option ThreadMessage :=
  let assistantMessages :=
    sort_by newest_first (List.filter is_assistant messages) in
  match assistantMessages with
  | m :: _ => Some m
  | [] => None
  end.

Section Orchestration.

Context (R : Remote) (env : Env).

Definition getLastAssistantMessage (threadId : JsVal)
    : M World (option ThreadMessage) :=
  let* messages := getMessages R threadId in
  ret (lastAssistant messages).

(** [config.thread_id = threadId], where [config] is [conversation.config]
    itself. *)
Definition assign_config (c : Conversation) (key : string) (v : JsVal)
    : Conversation :=
  set_config c (<[key := v]> (conv_config c)) (conv_updated_at c).

Definition processConversation (message : option string)
    : M Obj (option ThreadMessage) :=
  let* conversation := this in
  let config := conv_config conversation in
  let* threadId :=
    match js_or (config !! "thread_id") None with
    | Some threadId => ret threadId
    | None =>
        let* thread := lift (createThread R) in
        let threadId := JStr (thread_id thread) in
        set_this (assign_config conversation "thread_id" threadId) >>
        updateConfig R {[ "thread_id" := threadId ]} >>
        ret threadId
    end in
  lift (OpenAI_createMessage R threadId message) >>
  let* run :=
    lift (runAssistant R env threadId
            (js_or (config !! "assistant_openai_id") (assistantId env))) in
  updateConfig R {[ "run_id" := JStr (run_id run) ]} >>
  lift (waitForRun R threadId (run_id run) 1000 120000) >>
  lift (getLastAssistantMessage threadId).

(** *** src/api/controllers/whatsapp.js *)

(** What a handler sent: [res.status(s).send(b)]; [res.sendStatus(s)] sends
    the status text. *)
Record HttpResponse : Type := {
  status : Z;
  sent : option string
}.

Definition verifyWebhook (mode token challenge : option string)
    : HttpResponse :=
  if str_truthy mode && str_truthy token then
    if bool_decide (mode = Some "subscribe") &&
       bool_decide (token = WHATSAPP_VERIFY_TOKEN env)
    then {| status := 200; sent := challenge |}
    else {| status := 403; sent := Some "Forbidden" |}
  else {| status := 400; sent := Some "Bad Request" |}.

(** Run a method on the object [c]; the caller keeps the object. *)
Definition on_object {A} (c : Conversation) (m : M Obj A)
    : M World (A * Conversation) :=
  fun w =>
    match m (c, w) with
    | (Ok a, (c', w')) => (Ok (a, c'), w')
    | (Throw e, (_, w')) => (Throw e, w')
    | (OutOfFuel, (_, w')) => (OutOfFuel, w')
    end.

(** The loop that builds [responseText]. *)
Fixpoint responseText (parts : list ContentPart) (acc : string)
    : M World string :=
  match parts with
  | [] => ret acc
  | contentPart :: parts' =>
      if String.eqb (part_type contentPart) "text" then
        match part_text contentPart with
        | Some v => responseText parts' (acc +:+ v)
        | None =>
            throw (TypeError
                     "Cannot read properties of undefined (reading 'value')")
        end
      else responseText parts' acc
  end.

(** The handler returns the [messageId] of its 200 response; a thrown
    exception is what it hands to [next]. *)
Definition processMessageWithAI (messageId conversationId
    phoneNumberId : option string) : M World string :=
  if negb (str_truthy messageId) || negb (str_truthy conversationId) ||
     negb (str_truthy phoneNumberId)
  then throw (ApiError 400 "Missing required parameters")
  else
    let* found := findConversationById R (default "" conversationId) in
    match found with
    | None => throw (ApiError 404 "Conversation not found")
    | Some conversation =>
        let* found := findMessageById R (default "" messageId) in
        match found with
        | None => throw (ApiError 404 "Message not found")
        | Some message =>
            let* answered :=
              on_object conversation
                (processConversation (msg_text message)) in
            let aiResponse := fst answered in
            let conversation := snd answered in
            match aiResponse with
            | Some {| tm_content := Some (part :: parts) |} =>
                let* text := responseText (part :: parts) "" in
                let* result :=
                  sendTextMessage R env (conv_wa_id conversation) text
                    phoneNumberId conversationId in
                ret (msg_id result)
            | _ => throw (ApiError 500 "No response from AI")
            end
        end
    end.

End Orchestration.

(** * Vocabulary of the properties *)

(** A query parameter is missing when it is absent or empty: the test
    [mode && token] of the handler. *)
Definition missing (p : option string) : Prop := p = None \/ p = Some "".

(** The message kinds that the data model of the specification lists; the
    code has no such list. *)
Definition message_kinds : list string :=
  ["text"; "image"; "document"; "audio"; "video"; "location"; "contact";
   "bot_answer"].


(** The calls of [n] further rounds of the polling loop. *)
Fixpoint polls (threadId : JsVal) (runId : string) (interval : Z) (n : nat)
    : list Call :=
  match n with
  | O => []
  | S n' =>
      polls threadId runId interval n' ++
      [SetTimeout interval; RunsRetrieve threadId runId]
  end.

(** The trace when the retrieval number [n] (from 0) of a poll that began
    at trace [h] is answered. *)
Definition poll_trace (h : list Call) (threadId : JsVal) (runId : string)
    (interval : Z) (n : nat) : list Call :=
  h ++ RunsRetrieve threadId runId :: polls threadId runId interval n.

Definition is_thread_create (c : Call) : bool :=
  match c with ThreadsCreate => true | _ => false end.
Definition is_message_append (c : Call) : bool :=
  match c with ThreadMessagesCreate _ _ => true | _ => false end.
Definition is_run_create (c : Call) : bool :=
  match c with RunsCreate _ _ => true | _ => false end.
Definition is_run_retrieve (c : Call) : bool :=
  match c with RunsRetrieve _ _ => true | _ => false end.
Definition is_run_cancel (c : Call) : bool :=
  match c with RunsCancel _ _ => true | _ => false end.
Definition is_post (c : Call) : bool :=
  match c with AxiosPost _ _ => true | _ => false end.
Definition is_config_update (c : Call) : bool :=
  match c with
  | Execute (UpdateConversationConfig _ _ _) => true
  | _ => false
  end.
Definition is_message_insert (c : Call) : bool :=
  match c with Execute (InsertMessage _) => true | _ => false end.

(** Number of calls of a kind. *)
Definition count (kind : Call -> bool) (calls : list Call) : nat :=
  length (List.filter kind calls).

(** *** A sample deployment

    The remote services answer every call; a run is reported in progress
    by its first two retrievals and completed by the third. *)

Definition sample_thread_messages : list ThreadMessage :=
  [ {| tm_id := "msg_1"; tm_role := "user"; tm_created_at := 5;
       tm_content := None |};
    {| tm_id := "msg_2"; tm_role := "assistant"; tm_created_at := 7;
       tm_content :=
         Some [ {| part_type := "text"; part_text := Some "hello" |} ] |};
    {| tm_id := "msg_0"; tm_role := "assistant"; tm_created_at := 3;
       tm_content :=
         Some [ {| part_type := "text"; part_text := Some "old" |} ] |} ].

Definition sample_remote : Remote :=
  {| threads_create := fun _ => Answer {| thread_id := "thread_1" |};
     thread_messages_create := fun _ => Answer tt;
     runs_create :=
       fun _ => Answer {| run_id := "run_1"; run_status := "queued" |};
     runs_retrieve :=
       fun h =>
         Answer {| run_id := "run_1";
                   run_status :=
                     if (count is_run_retrieve h <? 3)%nat
                     then "in_progress" else "completed" |};
     thread_messages_list := fun _ => Answer sample_thread_messages;
     axios_get :=
       fun _ =>
         Answer {| info_url := Some "https://cdn/x";
                   info_mime_type := Some "image/png";
                   info_filename := None; info_sha256 := None;
                   info_filesize := None |};
     axios_post := fun _ => Answer {| resp_message_ids := Some ["wamid.1"] |};
     get_connection := fun _ => Answer tt;
     connection_execute := fun _ => Answer tt;
     latency := fun _ => 3%N;
     uuidv4 := fun n => "uuid-" +:+ pretty n |}.

(** The same services with a run that never leaves [in_progress]. *)
Definition stuck_remote : Remote :=
  {| threads_create := threads_create sample_remote;
     thread_messages_create := thread_messages_create sample_remote;
     runs_create := runs_create sample_remote;
     runs_retrieve :=
       fun _ => Answer {| run_id := "run_1"; run_status := "in_progress" |};
     thread_messages_list := thread_messages_list sample_remote;
     axios_get := axios_get sample_remote;
     axios_post := axios_post sample_remote;
     get_connection := get_connection sample_remote;
     connection_execute := connection_execute sample_remote;
     latency := latency sample_remote;
     uuidv4 := uuidv4 sample_remote |}.

Definition sample_env : Env :=
  {| WHATSAPP_API_URL := Some "https://graph.example";
     WHATSAPP_API_VERSION := None;
     WHATSAPP_ACCESS_TOKEN := Some "token";
     WHATSAPP_VERIFY_TOKEN := Some "s3cret";
     OPENAI_ASSISTANT_ID := Some "asst_1" |}.

Definition sample_conversation : Conversation :=
  {| conv_id := "c1"; conv_wa_id := Some "5511"; conv_user_id := None;
     conv_patient_id := None; conv_type := "user_initiated";
     conv_status := "new"; conv_config := {[ "lang" := JStr "pt" ]};
     conv_created_at := 0; conv_updated_at := 0 |}.

Definition sample_message : Message :=
  {| msg_id := "m1"; msg_conversation_id := Some "c1"; msg_type := "text";
     msg_wa_id := "wamid.0"; msg_timestamp := 0;
     msg_replying_to_mesage_id := None;
     msg_business_phone_number_id := Some "p1";
     msg_webhook_data := None; msg_text := Some "hi"; msg_media := None;
     msg_location := None; msg_contact := None; msg_emoji := None;
     msg_status := "received"; msg_created_at := 0; msg_updated_at := 0 |}.

Definition sample_world : World :=
  {| now := 1000; trace := []; drawn := 0;
     conversations := [sample_conversation];
     messages := [sample_message] |}.

(** A video sent without caption. *)
Definition sample_video : OutboundMedia :=
  {| om_type := "video"; om_url := Some "https://cdn.example/v.mp4";
     om_caption := None |}.

(** The MIME type of the media record of a message. *)
Definition mime_of (m : Message) : option string :=
  match msg_media m with
  | Some media => media_mime_type media
  | None => None
  end.

(** What each of the four [process...Message] functions has done when it
    returns: one row of status "received" appended, in the conversation. *)
Definition stores_received (c : Conversation) (w : World) (m : Message)
    (w' : World) : Prop :=
  conversations w' = conversations w /\ messages w' = messages w ++ [m] /\
  msg_status m = "received" /\ msg_conversation_id m = Some (conv_id c).

(** The rows a message event is stored as: one for its first message when
    that is of a supported type, none otherwise. *)
Definition units_of_event (messageEvent : option MessageEvent) : nat :=
  match messageEvent with
  | Some ev =>
      match ev_messages ev with
      | Some (message :: _) =>
          if supported (wa_msg_type message) then 1 else 0
      | _ => 0
      end
  | None => 0
  end.

Definition units_of_change (c : Change) : nat :=
  if bool_decide (field c = Some "messages")
  then units_of_event (value c) else 0.

Definition units_of_entry (e : Entry) : nat :=
  sum_list (map units_of_change (default [] (changes e))).

Definition units_of_envelope (entries : list Entry) : nat :=
  sum_list (map units_of_entry entries).

(** The supported message units an envelope carries. *)
Definition supported_units (entries : list Entry) : nat :=
  sum_list
    (map (fun e =>
       sum_list
         (map (fun c =>
            if bool_decide (field c = Some "messages") then
              match value c with
              | Some ev =>
                  length (List.filter (fun m => supported (wa_msg_type m))
                            (default [] (ev_messages ev)))
              | None => 0
              end
            else 0)
            (default [] (changes e))))
       entries).

(** *** Sample webhook events *)

Definition sample_text (id text : string) : WaMessage :=
  {| wa_from := Some "5511"; wa_msg_id := Some id;
     wa_timestamp := Some 1700000000%Z; wa_msg_type := Some "text";
     wa_context_id := None; wa_text := Some {| body := Some text |};
     wa_media := ∅; wa_location := None; wa_contacts := None |}.

(** An image message without its [image] sub-object. *)
Definition sample_broken_image : WaMessage :=
  {| wa_from := Some "5511"; wa_msg_id := Some "wamid.img";
     wa_timestamp := Some 1700000001%Z; wa_msg_type := Some "image";
     wa_context_id := None; wa_text := None;
     wa_media := ∅; wa_location := None; wa_contacts := None |}.

Definition sample_change (msgs : option (list WaMessage)) : Change :=
  {| field := Some "messages";
     value :=
       Some {| ev_messages := msgs;
               ev_metadata := Some {| phone_number_id := Some "p1" |} |} |}.

(** One change carrying two text messages. *)
Definition two_message_envelope : Webhook :=
  {| entry :=
       Some [ {| changes :=
                   Some [ sample_change
                            (Some [ sample_text "wamid.a" "first";
                                    sample_text "wamid.b" "second" ]) ] |} ] |}.

(** Two entries; the second change of the first entry cannot be
    processed. *)
Definition failing_entry : Entry :=
  {| changes :=
       Some [ sample_change (Some [sample_text "wamid.a" "first"]);
              sample_change (Some [sample_broken_image]);
              sample_change (Some [sample_text "wamid.c" "third"]) ] |}.

Definition later_entry : Entry :=
  {| changes :=
       Some [ sample_change (Some [sample_text "wamid.d" "fourth"]) ] |}.

Definition failing_envelope : Webhook :=
  {| entry := Some [failing_entry; later_entry] |}.

(** *** The phases of [processConversation]

    [beginRun] is [processConversation] up to and including the merge of
    the run id; the poll and the reading of the reply follow it
    ([processConversation_phases]). *)
Definition beginRun (R : Remote) (env : Env) (message : option string)
    : M Obj (JsVal * Run) :=
  let* conversation := this in
  let config := conv_config conversation in
  let* threadId :=
    match js_or (config !! "thread_id") None with
    | Some threadId => ret threadId
    | None =>
        let* thread := lift (createThread R) in
        let threadId := JStr (thread_id thread) in
        set_this (assign_config conversation "thread_id" threadId) >>
        updateConfig R {[ "thread_id" := threadId ]} >>
        ret threadId
    end in
  lift (OpenAI_createMessage R threadId message) >>
  let* run :=
    lift (runAssistant R env threadId
            (js_or (config !! "assistant_openai_id") (assistantId env))) in
  updateConfig R {[ "run_id" := JStr (run_id run) ]} >>
  ret (threadId, run).


(** The calls issued between two worlds. *)
Definition calls_since (w w' : World) : list Call :=
  drop (length (trace w)) (trace w').

(** Retrieval number [i] of the poll that began at trace [h] is answered
    with a status in {queued, in_progress, cancelling}. *)
Definition in_progress_at (R : Remote) (threadId : JsVal) (runId : string)
    (interval : Z) (h : list Call) (i : nat) : Prop :=
  exists r, runs_retrieve R (poll_trace h threadId runId interval i)
              = Answer r /\ in_progress (run_status r) = true.

(** The assistant a run of the conversation [c] is created for. *)
Definition run_assistant (env : Env) (c : Conversation) : option JsVal :=
  js_or (js_or (conv_config c !! "assistant_openai_id") (assistantId env))
        (assistantId env).

(** The calls of [beginRun] from the message append on, for the object
    [c0] that holds the thread id. *)
Definition run_calls (env : Env) (c c0 : Conversation) (threadId : JsVal)
    (message : option string) (run : Run) (t : Z) : list Call :=
  [ThreadMessagesCreate threadId message;
   RunsCreate threadId (run_assistant env c);
   GetConnection;
   Execute (UpdateConversationConfig
              (<[ "run_id" := JStr (run_id run) ]> (conv_config c0)) t
              (conv_id c))].

(** The calls with which [beginRun] creates a thread and merges its id. *)
Definition thread_calls (c : Conversation) (threadId : JsVal) (t : Z)
    : list Call :=
  [ThreadsCreate;
   GetConnection;
   Execute (UpdateConversationConfig
              (<[ "thread_id" := threadId ]> (conv_config c)) t (conv_id c))].

(** An action that never uses up a loop bound. *)
Definition returns {S A} (m : M S A) : Prop :=
  forall s, fst (m s) <> OutOfFuel.

(** * The rest of the services, the handlers and the middleware *)

(** *** src/services/database.js and src/models/Message.js, continued *)

(** [DatabaseService.updateConversationConfig] *)
Definition updateConversationConfig (R : Remote) (id : string)
    (configData : gmap string JsVal) : M World Conversation :=
  let* found := findConversationById R id in
  match found with
  | None => throw (Error ("Conversation with ID " +:+ id +:+ " not found"))
  | Some conversation =>
      let* updated := on_object conversation (updateConfig R configData) in
      ret (fst updated)
  end.

(** [Message.createTextMessage] *)
Definition Message_createTextMessage (R : Remote) (data : MessageData)
    : M World Message :=
  let* message := new_Message R (with_type data "text") in
  Message_create R message.

Definition createTextMessage := Message_createTextMessage.

(** *** src/api/controllers/whatsapp.js, continued

    As for [processMessageWithAI], a handler returns what it puts in its
    200 response, and throws what it hands to [next]. *)
Module WhatsAppController.

(** The body of the response is [{ success: true }] whatever
    [processWebhook] returned. *)
Definition handleWebhook (R : Remote) (env : Env) (data : option Webhook)
    : M World WebhookResult :=
  let* result := processWebhook R env data in
  ret {| success := true; error := None |}.

Definition sendMessage (R : Remote) (env : Env)
    (to message conversationId phoneNumberId : option string)
    : M World string :=
  if negb (str_truthy to) || negb (str_truthy message) ||
     negb (str_truthy conversationId) || negb (str_truthy phoneNumberId)
  then throw (ApiError 400 "Missing required parameters")
  else
    let* found := findConversationById R (default "" conversationId) in
    match found with
    | None => throw (ApiError 404 "Conversation not found")
    | Some conversation =>
        let* result :=
          sendTextMessage R env to (default "" message) phoneNumberId
            conversationId in
        ret (msg_id result)
    end.

Definition sendMediaMessage (R : Remote) (env : Env) (to : option string)
    (mediaData : option OutboundMedia)
    (conversationId phoneNumberId : option string) : M World string :=
  match mediaData with
  | Some media =>
      if negb (str_truthy to) || negb (str_truthy conversationId) ||
         negb (str_truthy phoneNumberId)
      then throw (ApiError 400 "Missing required parameters")
      else
        let* found := findConversationById R (default "" conversationId) in
        match found with
        | None => throw (ApiError 404 "Conversation not found")
        | Some conversation =>
            let* result :=
              sendMediaMessage R env to media phoneNumberId
                conversationId in
            ret (msg_id result)
        end
  | None => throw (ApiError 400 "Missing required parameters")
  end.

End WhatsAppController.

(** *** src/api/controllers/openai.js *)
Module OpenAIController.

(** The handler returns the [threadId] of its response. *)
Definition createThread (R : Remote) (conversationId : option string)
    : M World string :=
  if negb (str_truthy conversationId)
  then throw (ApiError 400 "Missing conversation ID")
  else
    let* found := findConversationById R (default "" conversationId) in
    match found with
    | None => throw (ApiError 404 "Conversation not found")
    | Some conversation =>
        let* thread := createThread R in
        let* updated :=
          on_object conversation
            (updateConfig R {[ "thread_id" := JStr (thread_id thread) ]}) in
        ret (thread_id thread)
    end.

(** The handler returns the status of its response and the message it
    carries: 404 without a message is a response of the handler itself,
    not an error for [next]. *)
Definition getLastAssistantMessage (R : Remote) (threadId : option string)
    : M World (Z * option ThreadMessage) :=
  if negb (str_truthy threadId)
  then throw (ApiError 400 "Missing thread ID")
  else
    let* message :=
      getLastAssistantMessage R (JStr (default "" threadId)) in
    match message with
    | None => ret (404%Z, None)
    | Some m => ret (200%Z, Some m)
    end.

End OpenAIController.

(** *** src/utils/errors.js and src/middleware/errorHandler.js *)
Module Errors.

(** The stack of an error: the one passed to the constructor of
    [ApiError], or the one captured where the error was made. *)
Inductive Stack : Type :=
| Given (stack : string)
| Captured.

(** An instance of [ApiError]. *)
Record ApiErr : Type := {
  statusCode : Z;
  message : string;
  isOperational : bool;
  stack : Stack
}.

(** What can reach the error handler, by the [instanceof] tests of
    [convertToApiError].  [OfError] is any other instance of [Error];
    [OfValue] a thrown value that is no [Error], with its [stack] property
    if it has one; [OfNullish] is [null] or [undefined]. *)
Inductive Thrown : Type :=
| OfApiError (error : ApiErr)
| OfDatabaseError (message : string) (stack : string)
| OfWhatsAppError (message : string) (stack : string)
| OfOpenAIError (message : string) (stack : string)
| OfError (message : string) (stack : string)
| OfValue (stack : option string)
| OfNullish.

(** [new ApiError(statusCode, message, isOperational, stack)]: an empty
    or missing [stack] makes the constructor capture one. *)
Definition new_ApiError (statusCode : Z) (message : string)
    (isOperational : bool) (stack : option string) : ApiErr :=
  {| statusCode := statusCode; message := message;
     isOperational := isOperational;
     stack := match str_or_null stack with
              | Some s => Given s
              | None => Captured
              end |}.

(** [convertToApiError]; reading [error.stack] of [null] throws. *)
Definition convertToApiError (error : Thrown) : Reply ApiErr :=
  match error with
  | OfApiError e => Answer e
  | OfDatabaseError _ stack =>
      Answer (new_ApiError 500 "Database error occurred" true (Some stack))
  | OfWhatsAppError message stack =>
      Answer (new_ApiError 503 ("WhatsApp API error: " +:+ message) true
                (Some stack))
  | OfOpenAIError message stack =>
      Answer (new_ApiError 503 ("OpenAI API error: " +:+ message) true
                (Some stack))
  | OfError message stack =>
      Answer (new_ApiError 500 message true (Some stack))
  | OfValue stack =>
      Answer (new_ApiError 500 "Internal server error" false stack)
  | OfNullish =>
      Fail (TypeError "Cannot read properties of null (reading 'stack')")
  end.

(** The response of [errorHandler]: its status, the [message] and [stack]
    of its body, and whether [handleError] was called. *)
Record ErrorResponse : Type := {
  response_status : Z;
  response_message : string;
  response_stack : option Stack;
  handled_globally : bool
}.

(** [errorHandler(err, req, res, next)] *)
Definition errorHandler (NODE_ENV : option string) (err : Thrown)
    : Reply ErrorResponse :=
  match convertToApiError err with
  | Answer error =>
      Answer {| response_status := statusCode error;
                response_message := message error;
                response_stack :=
                  if bool_decide (NODE_ENV = Some "development")
                  then Some (stack error) else None;
                handled_globally := negb (isOperational error) |}
  | Fail e => Fail e
  end.

(** An exception of the services and handlers as the error handler sees
    it: [TypeError] and [RangeError] are instances of [Error]; an
    [ApiError] made with two arguments is operational and captures its
    stack. *)
Definition thrown_of (e : Exn) (stack : string) : Thrown :=
  match e with
  | Error message | TypeError message | RangeError message =>
      OfError message stack
  | ApiError statusCode message =>
      OfApiError (new_ApiError statusCode message true None)
  end.

End Errors.

(** *** src/middleware/internalAccess.js *)
Module InternalAccess.

(** What a middleware does: [next()], [next(error)], or throw. *)
Inductive Verdict : Type :=
| Next
| NextError (e : Exn)
| Throws (e : Exn).

(** The prefixes tested with [startsWith], in the order of the source. *)
Definition internal_prefixes : list string :=
  ["10."; "172.16."; "172.17."; "172.18."; "172.19."; "172.20.";
   "172.21."; "172.22."; "172.23."; "172.24."; "172.25."; "172.26.";
   "172.27."; "172.28."; "172.29."; "172.30."; "172.31."; "192.168."].

(** [internalNetworkOnly], on the value [clientIp] of the chain
    [req.ip || req.connection.remoteAddress || ...]; [undefined] has no
    [startsWith]. *)
Definition internalNetworkOnly (clientIp : option string) : Verdict :=
  match clientIp with
  | Some ip =>
      if String.eqb ip "127.0.0.1" || String.eqb ip "::1" ||
         existsb (fun p => String.prefix p ip) internal_prefixes
      then Next
      else NextError (ApiError 403 "Access denied: Internal API")
  | None =>
      Throws (TypeError
                "Cannot read properties of undefined (reading 'startsWith')")
  end.

(** [apiKeyAuth], on the header [x-api-key] and
    [process.env.INTERNAL_API_KEY]. *)
Definition apiKeyAuth (INTERNAL_API_KEY apiKey : option string) : Verdict :=
  if negb (str_truthy apiKey) || negb (bool_decide (apiKey = INTERNAL_API_KEY))
  then NextError (ApiError 401 "Invalid API key")
  else Next.

End InternalAccess.

(** *** src/middleware/validator.js *)


(** *** Further samples *)

(** An envelope whose only change reports delivery statuses. *)
Definition status_envelope : Webhook :=
  {| entry :=
       Some [ {| changes :=
                   Some [ {| field := Some "statuses"; value := None |} ] |} ] |}.

(** The configuration without verify token. *)
Definition unconfigured_env : Env :=
  {| WHATSAPP_API_URL := Some "https://graph.example";
     WHATSAPP_API_VERSION := None;
     WHATSAPP_ACCESS_TOKEN := Some "token";
     WHATSAPP_VERIFY_TOKEN := None;
     OPENAI_ASSISTANT_ID := Some "asst_1" |}.

(** *** Tests on the beginning of a string

    [prefix_decided p s] is whether [p] is a prefix of the strings that
    begin with [s], when [s] decides it; [eqb_decided s t] likewise whether
    such a string is [t]. *)
Fixpoint prefix_decided (p s : string) : option bool :=
  match p with
  | EmptyString => Some true
  | String a p' =>
      match s with
      | EmptyString => None
      | String b s' =>
          if Ascii.eqb a b then prefix_decided p' s' else Some false
      end
  end.

Fixpoint eqb_decided (s t : string) : option bool :=
  match s with
  | EmptyString => None
  | String a s' =>
      match t with
      | EmptyString => Some false
      | String b t' =>
          if Ascii.eqb a b then eqb_decided s' t' else Some false
      end
  end.

(** Whether [internalNetworkOnly] lets pass the addresses that begin with
    [s], when [s] decides it. *)
Definition passes_decided (s : string) : option bool :=
  match eqb_decided s "127.0.0.1", eqb_decided s "::1" with
  | Some a, Some b =>
      foldr
        (fun p acc =>
           match prefix_decided p s, acc with
           | Some x, Some y => Some (x || y)
           | _, _ => None
           end)
        (Some false) InternalAccess.internal_prefixes
      ≫= fun c => Some (a || b || c)
  | _, _ => None
  end.

(** *** Relations between the worlds before and after an action *)

(** Every outcome of the action [m], also a thrown one, is related to its
    start by [P]. *)
Definition always {A} (P : World -> World -> Prop) (m : M World A) : Prop :=
  forall w r w', m w = (r, w') -> P w w'.

(** The tables have only grown, by conversations at the end of the one and
    by rows of status "received" at the end of the other. *)
Definition appended (w w' : World) : Prop :=
  (exists cs, conversations w' = conversations w ++ cs) /\
  exists rows, messages w' = messages w ++ rows /\
    Forall (fun r => msg_status r = "received") rows.

(** [new Date(seconds * 1000)] is a valid date. *)
Definition valid_timestamp (seconds : option Z) : bool :=
  match seconds with
  | Some t => (Z.abs (t * 1000) <=? 8640000000000000)%Z
  | None => false
  end.

(** The media sub-object has a non-empty [id]. *)
Definition has_media_id (media : option MediaRef) : bool :=
  match media with
  | Some {| media_ref_id := Some id |} => negb (String.eqb id "")
  | _ => false
  end.

(** The message has what the branch of its type reads: a timestamp that
    parses, and for a text message its [text] object, for a media message
    a media object with an [id]. *)
Definition well_formed (message : WaMessage) : bool :=
  match wa_msg_type message with
  | Some ty =>
      valid_timestamp (wa_timestamp message) &&
      (if String.eqb ty "text" then bool_decide (is_Some (wa_text message))
       else if is_media_type ty then has_media_id (wa_media message !! ty)
       else true)
  | None => true
  end.

(** An event of the business number "p1", and the world of a first
    request. *)
Definition sample_event (msgs : option (list WaMessage)) : MessageEvent :=
  {| ev_messages := msgs;
     ev_metadata := Some {| phone_number_id := Some "p1" |} |}.

Definition empty_world : World :=
  {| now := 0; trace := []; drawn := 0; conversations := []; messages := [] |}.

(** The type a message of WhatsApp type [ty] is stored with. *)
Definition stored_type (ty : string) : string :=
  if String.eqb ty "contacts" then "contact" else ty.

(** A message that shares contact cards. *)
Definition sample_contacts : WaMessage :=
  {| wa_from := Some "5511"; wa_msg_id := Some "wamid.ct";
     wa_timestamp := Some 1700000000%Z; wa_msg_type := Some "contacts";
     wa_context_id := None; wa_text := None;
     wa_media := ∅; wa_location := None; wa_contacts := None |}.

(** The sample services with a database that refuses every UPDATE of a
    config. *)
Definition readonly_remote : Remote :=
  {| threads_create := threads_create sample_remote;
     thread_messages_create := thread_messages_create sample_remote;
     runs_create := runs_create sample_remote;
     runs_retrieve := runs_retrieve sample_remote;
     thread_messages_list := thread_messages_list sample_remote;
     axios_get := axios_get sample_remote;
     axios_post := axios_post sample_remote;
     get_connection := get_connection sample_remote;
     connection_execute :=
       fun h =>
         match last h with
         | Some (Execute (UpdateConversationConfig _ _ _)) =>
             Fail (Error "read only")
         | _ => Answer tt
         end;
     latency := latency sample_remote;
     uuidv4 := uuidv4 sample_remote |}.

(** The sample services with a WhatsApp API that refuses every POST. *)
Definition offline_remote : Remote :=
  {| threads_create := threads_create sample_remote;
     thread_messages_create := thread_messages_create sample_remote;
     runs_create := runs_create sample_remote;
     runs_retrieve := runs_retrieve sample_remote;
     thread_messages_list := thread_messages_list sample_remote;
     axios_get := axios_get sample_remote;
     axios_post := fun _ => Fail (Error "Request failed with status code 401");
     get_connection := get_connection sample_remote;
     connection_execute := connection_execute sample_remote;
     latency := latency sample_remote;
     uuidv4 := uuidv4 sample_remote |}.


(** The sample services with a thread that holds no answer. *)
Definition silent_remote : Remote :=
  {| threads_create := threads_create sample_remote;
     thread_messages_create := thread_messages_create sample_remote;
     runs_create := runs_create sample_remote;
     runs_retrieve := runs_retrieve sample_remote;
     thread_messages_list :=
       fun _ => Answer [ {| tm_id := "msg_1"; tm_role := "user";
                            tm_created_at := 5; tm_content := None |} ];
     axios_get := axios_get sample_remote;
     axios_post := axios_post sample_remote;
     get_connection := get_connection sample_remote;
     connection_execute := connection_execute sample_remote;
     latency := latency sample_remote;
     uuidv4 := uuidv4 sample_remote |}.

(** A conversation that has a thread already. *)
Definition threaded_conversation : Conversation :=
  set_config sample_conversation
    {[ "thread_id" := JStr "thread_0"; "lang" := JStr "pt" ]} 0.

(** The reply has no content to send. *)
Definition no_reply (resp : option ThreadMessage) : Prop :=
  match resp with
  | Some {| tm_content := Some (_ :: _) |} => False
  | _ => True
  end.

(** Calls that read the database. *)
Definition is_lookup (c : Call) : bool :=
  match c with
  | GetConnection
  | Execute (SelectConversationById _)
  | Execute (SelectConversationByWaId _)
  | Execute (SelectMessageById _) => true
  | _ => false
  end.

(** * Properties *)

(** ** The monad *)

Lemma bind_Ok {S A B} (m : M S A) (k : A -> M S B) s b s' :
  bind m k s = (Ok b, s') ->
  exists a s1, m s = (Ok a, s1) /\ k a s1 = (Ok b, s').
Proof.
  unfold bind. destruct (m s) as [[a | e |] s1]; intros H;
    try discriminate. eauto.
Qed.

Lemma bind_step {S A B} (m : M S A) (k : A -> M S B) s a s1 :
  m s = (Ok a, s1) -> bind m k s = k a s1.
Proof. unfold bind. intros ->. reflexivity. Qed.

Lemma bind_Throw {S A B} (m : M S A) (k : A -> M S B) s e s1 :
  m s = (Throw e, s1) -> bind m k s = (Throw e, s1).
Proof. unfold bind. intros ->. reflexivity. Qed.

Lemma bind_assoc {S A B C} (m : M S A) (f : A -> M S B) (g : B -> M S C) s :
  bind (bind m f) g s = bind m (fun a => bind (f a) g) s.
Proof. unfold bind. by destruct (m s) as [[a | e |] s1]. Qed.

Lemma bind_ext {S A B} (m : M S A) (k1 k2 : A -> M S B) s :
  (forall a s1, k1 a s1 = k2 a s1) -> bind m k1 s = bind m k2 s.
Proof. intros H. unfold bind. by destruct (m s) as [[a | e |] s1]. Qed.

Lemma for_of_app {S A} (body : A -> M S unit) l1 l2 s s1 :
  for_of l1 body s = (Ok tt, s1) ->
  for_of (l1 ++ l2) body s = for_of l2 body s1.
Proof.
  revert s. induction l1 as [| x l1 IH]; intros s H; simpl in *.
  - unfold ret in H. congruence.
  - apply bind_Ok in H as (u & s0 & Hx & Hrest).
    rewrite (bind_step _ _ _ _ _ Hx). apply IH, Hrest.
Qed.

(** The first iteration that throws ends the loop: the elements after it
    are not visited. *)
Lemma for_of_first_throw {S A} (body : A -> M S unit) l1 x l2 s s1 e s2 :
  for_of l1 body s = (Ok tt, s1) ->
  body x s1 = (Throw e, s2) ->
  for_of (l1 ++ x :: l2) body s = (Throw e, s2).
Proof.
  intros H1 Hx. rewrite (for_of_app _ _ _ _ _ H1). simpl.
  apply bind_Throw, Hx.
Qed.

(** ** Webhook verification *)

Lemma str_truthy_false p : str_truthy p = false <-> missing p.
Proof.
  unfold missing. destruct p as [s |]; simpl.
  - destruct (String.eqb_spec s ""); simpl; split; intros H;
      try discriminate; subst; auto.
    destruct H as [H | H]; congruence.
  - split; auto.
Qed.

Lemma str_truthy_true p : str_truthy p = true <-> ~ missing p.
Proof.
  rewrite <- str_truthy_false. destruct (str_truthy p); split; congruence.
Qed.

(** C6.  With a non-empty configured secret, for all query parameters: the
    handshake answers 200 with the challenge as body exactly when mode is
    "subscribe" and the token is the secret; 400 exactly when mode or token
    is missing; 403 exactly when both are supplied and one of them does not
    match. *)
Theorem verifyWebhook_handshake (env : Env) (secret : string)
    (mode token challenge : option string) :
  WHATSAPP_VERIFY_TOKEN env = Some secret ->
  secret <> "" ->
  let res := verifyWebhook env mode token challenge in
  (status res = 200%Z /\ sent res = challenge <->
     mode = Some "subscribe" /\ token = Some secret) /\
  (status res = 400%Z <-> missing mode \/ missing token) /\
  (status res = 403%Z <->
     ~ missing mode /\ ~ missing token /\
     (mode <> Some "subscribe" \/ token <> Some secret)).
Proof.
  intros Hsecret Hne. unfold verifyWebhook. rewrite Hsecret.
  destruct (str_truthy mode) eqn:Hm; destruct (str_truthy token) eqn:Ht;
    simpl.
  1: apply str_truthy_true in Hm, Ht;
     destruct (bool_decide_reflect (mode = Some "subscribe")) as [Em | Em];
     destruct (bool_decide_reflect (token = Some secret)) as [Et | Et];
     simpl; (repeat split); intros; try tauto; try discriminate;
     try (destruct_and?; congruence); try (intuition congruence).
  all: assert (Hmiss : missing mode \/ missing token)
         by (first [ left; apply str_truthy_false; assumption
                   | right; apply str_truthy_false; assumption ]);
       (repeat split); intros; try tauto; try discriminate.
  all: destruct_and?; try tauto.
  all: subst; simpl in *;
       try (destruct (String.eqb_spec secret ""); simpl in *; congruence);
       try discriminate.
Qed.

Lemma verifyWebhook_handshake_witness :
  let res :=
    verifyWebhook sample_env (Some "subscribe") (Some "s3cret") (Some "XYZ") in
  (status res = 200%Z /\ sent res = Some "XYZ" <->
     Some "subscribe" = Some "subscribe" /\ Some "s3cret" = Some "s3cret") /\
  (status res = 400%Z <-> missing (Some "subscribe") \/ missing (Some "s3cret")) /\
  (status res = 403%Z <->
     ~ missing (Some "subscribe") /\ ~ missing (Some "s3cret") /\
     (Some "subscribe" <> Some "subscribe" \/ Some "s3cret" <> Some "s3cret")).
Proof.
  apply (verifyWebhook_handshake sample_env "s3cret");
    [reflexivity | discriminate].
Defined.

(** ** The newest assistant message *)







(** ** Effects of the primitives *)

(** Case analysis on the answer of the next oracle in a hypothesis. *)
Ltac answer H :=
  match type of H with
  | context [of_reply ?x] =>
      let E := fresh "Ans" in
      destruct x eqn:E; simpl in H; try discriminate H
  end.

Section Effects.

Context (R : Remote) (env : Env).

Lemma perform_eq {A} (c : Call) (answer : list Call -> Reply A) w :
  perform R c answer w =
  (of_reply (answer (trace w ++ [c])),
   {| now := now w + delay_of c + Z.of_N (latency R (trace w ++ [c]));
      trace := trace w ++ [c]; drawn := drawn w;
      conversations := conversations w; messages := messages w |}).
Proof. reflexivity. Qed.

Lemma perform_ok {A} (c : Call) (answer : list Call -> Reply A) w a w' :
  perform R c answer w = (Ok a, w') ->
  trace w' = trace w ++ [c] /\ conversations w' = conversations w /\
  messages w' = messages w /\ answer (trace w ++ [c]) = Answer a.
Proof.
  unfold perform. intros H. answer H. injection H as <- <-. by simpl.
Qed.

Lemma perform_run {A} (c : Call) (answer : list Call -> Reply A) w :
  exists w',
    perform R c answer w = (of_reply (answer (trace w ++ [c])), w') /\
    trace w' = trace w ++ [c] /\ conversations w' = conversations w /\
    messages w' = messages w /\
    now w' = (now w + delay_of c + Z.of_N (latency R (trace w ++ [c])))%Z.
Proof. eexists. unfold perform. by repeat split. Qed.

Lemma Date_now_ok w t w' : Date_now w = (Ok t, w') -> w' = w /\ t = now w.
Proof. unfold Date_now. by intros [= <- <-]. Qed.

Lemma first_message_id_ok resp w id w' :
  first_message_id resp w = (Ok id, w') -> w' = w.
Proof.
  unfold first_message_id, ret, throw.
  destruct (resp_message_ids resp) as [[| ? ?] |]; congruence.
Qed.

Lemma new_Message_ok data w m w' :
  new_Message R data w = (Ok m, w') ->
  trace w' = trace w /\ conversations w' = conversations w /\
  messages w' = messages w /\ now w' = now w /\
  msg_conversation_id m = md_conversation_id data /\
  msg_type m = str_or (md_type data) "text" /\
  msg_status m = str_or (md_status data) "pending" /\
  msg_text m = str_or_null (md_text data) /\
  msg_media m = md_media data.
Proof.
  unfold new_Message, bind, uuid, Date_now, ret.
  destruct (str_or_null (md_id data)); simpl; intros [= <- <-]; simpl;
    repeat split; reflexivity.
Qed.

Lemma Message_create_ok m0 w m w' :
  Message_create R m0 w = (Ok m, w') ->
  m = m0 /\
  trace w' = trace w ++ [GetConnection; Execute (InsertMessage m0)] /\
  conversations w' = conversations w /\
  messages w' = messages w ++ [m0].
Proof.
  unfold Message_create, bind, getConnection, execute, perform, ret.
  intros H. do 2 answer H.
  injection H as <- <-. simpl. rewrite <- app_assoc. repeat split.
Qed.

(** A stored message: the row is the object the constructor built. *)
Lemma createMessage_ok data w m w' :
  createMessage R data w = (Ok m, w') ->
  trace w' = trace w ++ [GetConnection; Execute (InsertMessage m)] /\
  conversations w' = conversations w /\
  messages w' = messages w ++ [m] /\
  msg_conversation_id m = md_conversation_id data /\
  msg_type m = str_or (md_type data) "text" /\
  msg_status m = str_or (md_status data) "pending" /\
  msg_text m = str_or_null (md_text data) /\
  msg_media m = md_media data.
Proof.
  unfold createMessage. intros H.
  apply bind_Ok in H as (m0 & w0 & Hnew & Hcreate).
  apply new_Message_ok in Hnew as (Ht & Hc & Hm & _ & Hfields).
  apply Message_create_ok in Hcreate as (-> & Ht' & Hc' & Hm').
  rewrite Ht', Hc', Hm', Ht, Hc, Hm. repeat split; apply Hfields.
Qed.

End Effects.

(** ** Outbound media *)

Section Media.

Context (R : Remote) (env : Env).

Lemma createMediaMessage_ok data mediaData w m w' :
  createMediaMessage R data mediaData w = (Ok m, w') ->
  trace w' = trace w ++ [GetConnection; Execute (InsertMessage m)] /\
  messages w' = messages w ++ [m] /\
  msg_type m = "media" /\
  msg_status m = str_or (md_status data) "pending" /\
  msg_media m = Some mediaData.
Proof.
  unfold createMediaMessage, Message_createMediaMessage. intros H.
  apply bind_Ok in H as (m0 & w0 & Hnew & Hcreate).
  apply new_Message_ok in Hnew as (Ht & _ & Hm & _ & _ & Hty & Hst & _ & Hmedia).
  apply Message_create_ok in Hcreate as (-> & Ht' & _ & Hm').
  rewrite Ht', Hm', Ht, Hm. repeat split; assumption.
Qed.

Lemma sendMediaMessage_ok to mediaData phoneNumberId conversationId w m w' :
  sendMediaMessage R env to mediaData phoneNumberId conversationId w
    = (Ok m, w') ->
  trace w' = trace w ++
    [AxiosPost (api_url env (render phoneNumberId +:+ "/messages"))
       (MediaPayload to (om_type mediaData) (om_url mediaData)
          (str_or (om_caption mediaData) ""));
     GetConnection; Execute (InsertMessage m)] /\
  messages w' = messages w ++ [m] /\
  msg_type m = "media" /\
  msg_status m = "sent" /\
  msg_media m =
    Some {| media_url := om_url mediaData;
            media_mime_type :=
              Some (om_type mediaData +:+ "/" +:+
                    (if String.eqb (om_type mediaData) "document"
                     then "pdf" else "jpeg"));
            media_filename := None; media_sha256 := None;
            media_filesize := None;
            media_caption := Some (str_or (om_caption mediaData) "") |}.
Proof.
  unfold sendMediaMessage. intros H.
  apply bind_Ok in H as (resp & w1 & Hpost & H).
  apply bind_Ok in H as (id & w2 & Hid & H).
  apply bind_Ok in H as (t & w3 & Hnow & H).
  apply createMediaMessage_ok in H as (Ht & Hm & Hty & Hst & Hmedia).
  apply perform_ok in Hpost as (Ht1 & _ & Hm1 & _).
  apply first_message_id_ok in Hid as ->.
  apply Date_now_ok in Hnow as [-> _].
  rewrite Ht, Hm, Ht1, Hm1. rewrite <- app_assoc.
  repeat split; assumption.
Qed.

End Media.

(** C9.  [Message.createMediaMessage] stores the row with type "media"
    whatever type the data carries; so a media reply sent through
    [sendMediaMessage], which passes type "bot_answer", is recorded with
    type "media", which is none of the message kinds of the data model and
    in particular not "bot_answer". *)
Theorem createMediaMessage_records_type_media (R : Remote) (env : Env) :
  (forall data mediaData w m w',
     createMediaMessage R data mediaData w = (Ok m, w') ->
     msg_type m = "media" /\ messages w' = messages w ++ [m]) /\
  (forall to mediaData phoneNumberId conversationId w m w',
     sendMediaMessage R env to mediaData phoneNumberId conversationId w
       = (Ok m, w') ->
     messages w' = messages w ++ [m] /\
     msg_type m = "media" /\
     msg_type m <> "bot_answer" /\
     msg_type m ∉ message_kinds).
Proof.
  split.
  - intros data mediaData w m w' H.
    apply createMediaMessage_ok in H as (_ & Hm & Hty & _). by split.
  - intros to mediaData pn cid w m w' H.
    apply sendMediaMessage_ok in H as (_ & Hm & Hty & _).
    rewrite Hty. repeat split; [exact Hm | done |].
    unfold message_kinds. rewrite !elem_of_cons, elem_of_nil.
    intros Hin. repeat (destruct Hin as [Hin | Hin]; [discriminate Hin |]).
    exact Hin.
Qed.

Lemma createMediaMessage_records_type_media_witness :
  exists m w',
    sendMediaMessage sample_remote sample_env (Some "5511") sample_video
      (Some "p1") (Some "c1") sample_world = (Ok m, w') /\
    messages w' = messages sample_world ++ [m] /\
    msg_type m = "media" /\
    msg_type m <> "bot_answer" /\
    msg_type m ∉ message_kinds.
Proof.
  destruct (sendMediaMessage sample_remote sample_env (Some "5511")
              sample_video (Some "p1") (Some "c1") sample_world)
    as [[m | e |] w'] eqn:Hrun; try (vm_compute in Hrun; discriminate Hrun).
  exists m, w'. split; [reflexivity |].
  exact (proj2 (createMediaMessage_records_type_media sample_remote sample_env)
           _ _ _ _ _ _ _ Hrun).
Defined.

(** C8 as stated fails: a video sent without caption is stored with the
    MIME type "video/jpeg", not "image/jpeg". *)
Lemma sendMediaMessage_video_mime_is_not_image_jpeg :
  exists m w',
    sendMediaMessage sample_remote sample_env (Some "5511") sample_video
      (Some "p1") (Some "c1") sample_world = (Ok m, w') /\
    mime_of m = Some "video/jpeg" /\
    mime_of m <> Some "image/jpeg".
Proof.
  destruct (sendMediaMessage sample_remote sample_env (Some "5511")
              sample_video (Some "p1") (Some "c1") sample_world)
    as [[m | e |] w'] eqn:Hrun; try (vm_compute in Hrun; discriminate Hrun).
  exists m, w'. split; [reflexivity |].
  apply sendMediaMessage_ok in Hrun as (_ & _ & _ & _ & Hmedia).
  unfold mime_of. rewrite Hmedia. simpl. split; [reflexivity | discriminate].
Qed.

(** C8, amended.  For every [sendMediaMessage] call with type "video" and
    no caption, the POST that is issued carries the empty string as
    caption, and the stored media record has the empty caption and the
    MIME type "video/jpeg": the media type followed by the subtype "jpeg",
    the default of every type but "document". *)
Theorem sendMediaMessage_video_without_caption (R : Remote) (env : Env)
    (to url phoneNumberId conversationId : option string) (w : World) :
  let mediaData :=
    {| om_type := "video"; om_url := url; om_caption := None |} in
  let run :=
    sendMediaMessage R env to mediaData phoneNumberId conversationId w in
  (exists rest,
     trace (snd run) = trace w ++
       AxiosPost (api_url env (render phoneNumberId +:+ "/messages"))
         (MediaPayload to "video" url "") :: rest) /\
  (forall m w', run = (Ok m, w') ->
     messages w' = messages w ++ [m] /\
     mime_of m = Some "video/jpeg" /\
     msg_media m =
       Some {| media_url := url; media_mime_type := Some "video/jpeg";
               media_filename := None; media_sha256 := None;
               media_filesize := None; media_caption := Some "" |}).
Proof.
  intros mediaData run. split.
  - subst run. unfold sendMediaMessage. simpl.
    unfold bind at 1. unfold perform at 1.
    set (post := AxiosPost _ _).
    destruct (of_reply (axios_post R (trace w ++ [post]))) as [resp | e |];
      simpl; [| by exists [] | by exists []].
    unfold bind at 1.
    destruct (first_message_id resp _) as [[id | e |] w2] eqn:Hid.
    + apply first_message_id_ok in Hid as ->. unfold bind at 1. simpl.
      match goal with
      | |- context [createMediaMessage R ?d ?md ?w0] =>
          destruct (createMediaMessage R d md w0) as [r w3] eqn:Hcreate
      end.
      revert Hcreate.
      unfold createMediaMessage, Message_createMediaMessage, new_Message,
        Message_create, bind, uuid, Date_now, ret, getConnection, execute,
        perform.
      simpl.
      repeat match goal with
             | |- context [of_reply ?x] => destruct x; simpl
             end;
        intros [= <- <-]; simpl; rewrite <- ?app_assoc; simpl; eauto.
    + unfold first_message_id, ret, throw in Hid.
      destruct (resp_message_ids resp) as [[| ? ?] |];
        injection Hid as _ <-; by exists [].
    + unfold first_message_id, ret, throw in Hid.
      destruct (resp_message_ids resp) as [[| ? ?] |]; discriminate Hid.
  - intros m w' Hrun. subst run.
    apply sendMediaMessage_ok in Hrun as (_ & Hm & _ & _ & Hmedia).
    unfold mime_of. rewrite Hmedia. by simpl.
Qed.

Lemma sendMediaMessage_video_without_caption_witness :
  exists m w',
    sendMediaMessage sample_remote sample_env (Some "5511") sample_video
      (Some "p1") (Some "c1") sample_world = (Ok m, w') /\
    messages w' = messages sample_world ++ [m] /\
    mime_of m = Some "video/jpeg".
Proof.
  destruct (sendMediaMessage sample_remote sample_env (Some "5511")
              sample_video (Some "p1") (Some "c1") sample_world)
    as [[m | e |] w'] eqn:Hrun; try (vm_compute in Hrun; discriminate Hrun).
  exists m, w'. split; [reflexivity |].
  destruct (proj2 (sendMediaMessage_video_without_caption sample_remote
                     sample_env (Some "5511") (Some "https://cdn.example/v.mp4")
                     (Some "p1") (Some "c1") sample_world) m w' Hrun)
    as (Hm & Hmime & _).
  by split.
Defined.

(** ** Webhook ingestion *)

Section Ingestion.

Context (R : Remote).

Lemma getConnection_ok w u w' :
  getConnection R w = (Ok u, w') ->
  trace w' = trace w ++ [GetConnection] /\
  conversations w' = conversations w /\ messages w' = messages w.
Proof.
  unfold getConnection. intros H.
  apply perform_ok in H as (Ht & Hc & Hm & _). by repeat split.
Qed.

Lemma execute_ok what sql w u w' :
  execute R what sql w = (Ok u, w') ->
  trace w' = trace w ++ [Execute sql] /\
  conversations w' = conversations (apply_sql sql w) /\
  messages w' = messages (apply_sql sql w).
Proof.
  unfold execute, perform. intros H. answer H.
  injection H as <- <-. destruct sql; by simpl.
Qed.

Lemma new_Conversation_ok data w c w' :
  new_Conversation R data w = (Ok c, w') ->
  trace w' = trace w /\ conversations w' = conversations w /\
  messages w' = messages w /\
  conv_wa_id c = cd_wa_id data /\
  conv_config c = default ∅ (cd_config data) /\
  (forall id, cd_id data = Some id -> id <> "" -> conv_id c = id).
Proof.
  unfold new_Conversation, bind, uuid, Date_now, ret.
  destruct (str_or_null (cd_id data)) eqn:Hid; simpl; intros [= <- <-];
    simpl; repeat split; try reflexivity.
  - intros id Hd Hne. rewrite Hd in Hid. simpl in Hid.
    destruct (String.eqb_spec id ""); congruence.
  - intros id Hd Hne. rewrite Hd in Hid. simpl in Hid.
    destruct (String.eqb_spec id ""); congruence.
Qed.

Lemma findConversationByWaId_ok waId w r w' :
  findConversationByWaId R waId w = (Ok r, w') ->
  trace w' = trace w ++
    [GetConnection; Execute (SelectConversationByWaId waId)] /\
  conversations w' = conversations w /\ messages w' = messages w.
Proof.
  unfold findConversationByWaId, Conversation_findByWaId. intros H.
  apply bind_Ok in H as (u1 & w1 & H1 & H).
  apply bind_Ok in H as (u2 & w2 & H2 & H).
  apply bind_Ok in H as (w3 & w4 & H3 & H).
  apply getConnection_ok in H1 as (Ht1 & Hc1 & Hm1).
  apply execute_ok in H2 as (Ht2 & Hc2 & Hm2). simpl in Hc2, Hm2.
  unfold get in H3. injection H3 as <- <-.
  assert (Hsame : trace w' = trace w2 /\ conversations w' = conversations w2 /\
                  messages w' = messages w2).
  { destruct (select_conversation_by_wa_id waId w2).
    - apply bind_Ok in H as (c1 & w5 & Hnew & Hret).
      apply new_Conversation_ok in Hnew as (? & ? & ? & _).
      unfold ret in Hret. injection Hret as _ <-. by repeat split.
    - unfold ret in H. injection H as _ <-. by repeat split. }
  destruct Hsame as (-> & -> & ->).
  rewrite Ht2, Ht1, Hc2, Hc1, Hm2, Hm1, <- app_assoc. by repeat split.
Qed.

Lemma createConversation_ok data w c w' :
  createConversation R data w = (Ok c, w') ->
  trace w' = trace w ++ [GetConnection; Execute (InsertConversation c)] /\
  conversations w' = conversations w ++ [c] /\ messages w' = messages w.
Proof.
  unfold createConversation, Conversation_create. intros H.
  apply bind_Ok in H as (c0 & w0 & Hnew & H).
  apply bind_Ok in H as (u1 & w1 & H1 & H).
  apply bind_Ok in H as (u2 & w2 & H2 & H).
  unfold ret in H. injection H as -> <-.
  apply new_Conversation_ok in Hnew as (Ht0 & Hc0 & Hm0 & _).
  apply getConnection_ok in H1 as (Ht1 & Hc1 & Hm1).
  apply execute_ok in H2 as (Ht2 & Hc2 & Hm2). simpl in Hc2, Hm2.
  rewrite Ht2, Ht1, Ht0, Hc2, Hc1, Hc0, Hm2, Hm1, Hm0, <- app_assoc.
  by repeat split.
Qed.

Lemma toISOString_ok seconds w t w' :
  toISOString seconds w = (Ok t, w') -> w' = w.
Proof.
  unfold toISOString, ret, throw.
  destruct seconds as [s |]; [| discriminate].
  destruct (Z.abs (s * 1000) <=? 8640000000000000)%Z; congruence.
Qed.

Lemma getMediaInfo_ok env media w info w' :
  getMediaInfo R env media w = (Ok info, w') ->
  conversations w' = conversations w /\ messages w' = messages w.
Proof.
  unfold getMediaInfo, throw.
  destruct media as [[[id |]] |]; try discriminate.
  destruct (String.eqb id ""); [discriminate |].
  intros H. apply perform_ok in H as (_ & Hc & Hm & _). by split.
Qed.

Lemma processTextMessage_ok c message phone raw w m w' :
  processTextMessage R c message phone raw w = (Ok m, w') ->
  stores_received c w m w' /\ msg_type m = "text".
Proof.
  unfold processTextMessage. intros H.
  apply bind_Ok in H as (t & w1 & Ht & H). apply toISOString_ok in Ht as ->.
  apply bind_Ok in H as (txt & w2 & Htxt & H).
  assert (w2 = w) as ->
    by (destruct (wa_text message); unfold ret, throw in Htxt; congruence).
  apply createMessage_ok in H as (_ & Hc & Hm & Hid & Hty & Hst & _).
  by repeat split.
Qed.

Lemma processMediaMessage_ok env c message phone raw w m w' :
  processMediaMessage R env c message phone raw w = (Ok m, w') ->
  stores_received c w m w'.
Proof.
  unfold processMediaMessage. intros H.
  apply bind_Ok in H as (info & w1 & Hinfo & H).
  apply getMediaInfo_ok in Hinfo as (Hc1 & Hm1).
  apply bind_Ok in H as (t & w2 & Ht & H). apply toISOString_ok in Ht as ->.
  apply createMessage_ok in H as (_ & Hc & Hm & Hid & Hty & Hst & _).
  unfold stores_received. rewrite Hc, Hm, Hc1, Hm1. by repeat split.
Qed.

Lemma processLocationMessage_ok c message phone raw w m w' :
  processLocationMessage R c message phone raw w = (Ok m, w') ->
  stores_received c w m w'.
Proof.
  unfold processLocationMessage. intros H.
  apply bind_Ok in H as (t & w1 & Ht & H). apply toISOString_ok in Ht as ->.
  apply createMessage_ok in H as (_ & Hc & Hm & Hid & Hty & Hst & _).
  by repeat split.
Qed.

Lemma processContactMessage_ok c message phone raw w m w' :
  processContactMessage R c message phone raw w = (Ok m, w') ->
  stores_received c w m w'.
Proof.
  unfold processContactMessage. intros H.
  apply bind_Ok in H as (t & w1 & Ht & H). apply toISOString_ok in Ht as ->.
  apply createMessage_ok in H as (_ & Hc & Hm & Hid & Hty & Hst & _).
  by repeat split.
Qed.

End Ingestion.

Section Pipeline.

Context (R : Remote) (env : Env).

(** When [handleMessageEvent] returns, it has stored exactly the rows
    counted by [units_of_event], each with status "received". *)
Lemma handleMessageEvent_ok messageEvent w u w' :
  handleMessageEvent R env messageEvent w = (Ok u, w') ->
  exists rows,
    messages w' = messages w ++ rows /\
    length rows = units_of_event messageEvent /\
    Forall (fun r => msg_status r = "received") rows.
Proof.
  unfold handleMessageEvent, units_of_event.
  assert (Hnone : forall v : unit,
            ret v w = (Ok u, w') ->
            exists rows, messages w' = messages w ++ rows /\
              length rows = 0 /\
              Forall (fun r => msg_status r = "received") rows).
  { intros v [= _ <-]. exists []. by rewrite app_nil_r. }
  destruct messageEvent as [ev |]; [| apply Hnone].
  destruct (ev_messages ev) as [[| message rest] |]; try apply Hnone.
  clear Hnone. intros H.
  apply bind_Ok in H as (found & w1 & Hfind & H).
  apply findConversationByWaId_ok in Hfind as (_ & _ & Hm1).
  apply bind_Ok in H as (c & w2 & Hconv & H).
  assert (Hm2 : messages w2 = messages w).
  { destruct found.
    - unfold ret in Hconv. injection Hconv as _ <-. exact Hm1.
    - apply createConversation_ok in Hconv as (_ & _ & ->). exact Hm1. }
  assert (Hstore : forall m w3 (mu : M World unit),
            stores_received c w2 m w3 -> mu w3 = (Ok u, w') -> mu = ret tt ->
            exists rows, messages w' = messages w ++ rows /\
              length rows = 1 /\
              Forall (fun r => msg_status r = "received") rows).
  { intros m w3 mu (_ & Hm & Hst & _) Hmu ->. injection Hmu as _ <-.
    exists [m]. rewrite Hm, Hm2. repeat split. by constructor. }
  unfold supported, is_media_type in *.
  destruct (wa_msg_type message) as [ty |];
    [| injection H as _ <-; exists []; by rewrite app_nil_r, Hm2].
  destruct (String.eqb ty "text").
  { apply bind_Ok in H as (m & w3 & Hp & H).
    apply processTextMessage_ok in Hp as [Hp _]. eapply Hstore; eauto. }
  destruct (String.eqb ty "image" || String.eqb ty "document" ||
            String.eqb ty "audio" || String.eqb ty "video") eqn:Hmedia.
  { apply bind_Ok in H as (m & w3 & Hp & H).
    apply processMediaMessage_ok in Hp. simpl. eapply Hstore; eauto. }
  destruct (String.eqb ty "location").
  { apply bind_Ok in H as (m & w3 & Hp & H).
    apply processLocationMessage_ok in Hp. simpl. eapply Hstore; eauto. }
  destruct (String.eqb ty "contacts").
  { apply bind_Ok in H as (m & w3 & Hp & H).
    apply processContactMessage_ok in Hp. simpl. eapply Hstore; eauto. }
  injection H as _ <-. exists []. by rewrite app_nil_r, Hm2.
Qed.

Lemma handleChange_ok c w u w' :
  handleChange R env c w = (Ok u, w') ->
  exists rows,
    messages w' = messages w ++ rows /\
    length rows = units_of_change c /\
    Forall (fun r => msg_status r = "received") rows.
Proof.
  unfold handleChange, units_of_change.
  destruct (bool_decide (field c = Some "messages")).
  - apply handleMessageEvent_ok.
  - intros [= _ <-]. exists []. by rewrite app_nil_r.
Qed.

Lemma for_of_rows {A} (body : A -> M World unit) (units : A -> nat) :
  (forall x w u w', body x w = (Ok u, w') ->
     exists rows, messages w' = messages w ++ rows /\
       length rows = units x /\
       Forall (fun r => msg_status r = "received") rows) ->
  forall l w u w', for_of l body w = (Ok u, w') ->
    exists rows, messages w' = messages w ++ rows /\
      length rows = sum_list (map units l) /\
      Forall (fun r => msg_status r = "received") rows.
Proof.
  intros Hbody. induction l as [| x l IH]; intros w u w' H; simpl in *.
  - injection H as _ <-. exists []. by rewrite app_nil_r.
  - apply bind_Ok in H as (u1 & w1 & Hx & H).
    apply Hbody in Hx as (rows1 & Hm1 & Hl1 & Hf1).
    apply IH in H as (rows2 & Hm2 & Hl2 & Hf2).
    exists (rows1 ++ rows2). rewrite Hm2, Hm1, <- app_assoc.
    rewrite length_app, Hl1, Hl2. repeat split. by apply Forall_app.
Qed.

Lemma handleEntry_ok e w u w' :
  handleEntry R env e w = (Ok u, w') ->
  exists rows,
    messages w' = messages w ++ rows /\
    length rows = units_of_entry e /\
    Forall (fun r => msg_status r = "received") rows.
Proof.
  unfold handleEntry, units_of_entry.
  destruct (changes e) as [cs |]; [| discriminate]. simpl.
  apply for_of_rows. apply handleChange_ok.
Qed.

End Pipeline.

(** C10.  A message event whose [messages] field is absent or the empty
    list makes [handleMessageEvent] return normally and leaves the world
    as it was: no call is issued, no conversation is created and no message
    row is written. *)
Theorem handleMessageEvent_without_messages (R : Remote) (env : Env)
    (ev : MessageEvent) (w : World) :
  ev_messages ev = None \/ ev_messages ev = Some [] ->
  handleMessageEvent R env (Some ev) w = (Ok tt, w).
Proof.
  intros [H | H]; unfold handleMessageEvent; rewrite H; reflexivity.
Qed.

Lemma handleMessageEvent_without_messages_witness :
  handleMessageEvent sample_remote sample_env
    (Some {| ev_messages := Some []; ev_metadata := None |}) sample_world
  = (Ok tt, sample_world).
Proof.
  apply handleMessageEvent_without_messages. right. reflexivity.
Defined.

(** C7.  An envelope without entry list makes [processWebhook] return the
    failure value, not throw.  When the handling of a change throws, after
    the entries and changes before it were handled, [processWebhook] throws
    that error and stops in the world of the throw: the changes and entries
    after it are not processed and do not matter. *)
Theorem processWebhook_failure_policy (R : Remote) (env : Env) :
  (forall data w,
     entry data = None ->
     processWebhook R env (Some data) w =
       (Ok {| success := false; error := Some "Invalid webhook data" |}, w)) /\
  (forall entries_before e entries_after changes_before c changes_after
          w w1 w2 err w3,
     changes e = Some (changes_before ++ c :: changes_after) ->
     for_of entries_before (handleEntry R env) w = (Ok tt, w1) ->
     for_of changes_before (handleChange R env) w1 = (Ok tt, w2) ->
     handleChange R env c w2 = (Throw err, w3) ->
     processWebhook R env
       (Some {| entry := Some (entries_before ++ e :: entries_after) |}) w
     = (Throw err, w3)).
Proof.
  split.
  - intros data w H. unfold processWebhook. rewrite H. reflexivity.
  - intros eb e ea cb c ca w w1 w2 err w3 He Heb Hcb Hc.
    unfold processWebhook. simpl. apply bind_Throw.
    eapply for_of_first_throw; [exact Heb |].
    unfold handleEntry. rewrite He.
    eapply for_of_first_throw; eassumption.
Qed.

Lemma processWebhook_failure_policy_witness :
  processWebhook sample_remote sample_env (Some {| entry := None |})
    sample_world
  = (Ok {| success := false; error := Some "Invalid webhook data" |},
     sample_world) /\
  exists w3,
    processWebhook sample_remote sample_env (Some failing_envelope)
      sample_world = (Throw (Error "Invalid media data"), w3) /\
    length (messages w3) = 2.
Proof.
  split.
  - apply (proj1 (processWebhook_failure_policy sample_remote sample_env)).
    reflexivity.
  - destruct (handleChange sample_remote sample_env
                (sample_change (Some [sample_text "wamid.a" "first"]))
                sample_world) as [r2 w2] eqn:H2.
    destruct (handleChange sample_remote sample_env
                (sample_change (Some [sample_broken_image])) w2)
      as [r3 w3] eqn:H3.
    assert (Hr2 : r2 = Ok tt) by (vm_compute in H2; congruence).
    assert (Hr3 : r3 = Throw (Error "Invalid media data")).
    { vm_compute in H2. injection H2 as _ <-. vm_compute in H3. congruence. }
    subst r2 r3. exists w3. split.
    + apply (proj2 (processWebhook_failure_policy sample_remote sample_env)
               [] failing_entry [later_entry]
               [sample_change (Some [sample_text "wamid.a" "first"])]
               (sample_change (Some [sample_broken_image]))
               [sample_change (Some [sample_text "wamid.c" "third"])]
               sample_world sample_world w2 _ w3).
      * reflexivity.
      * reflexivity.
      * simpl. rewrite (bind_step _ _ _ _ _ H2). reflexivity.
      * exact H3.
    + vm_compute in H2. injection H2 as <-. vm_compute in H3.
      injection H3 as <-. reflexivity.
Defined.

(** C2 as stated fails: a change that carries two supported messages is
    stored as one row. *)
Lemma processWebhook_two_messages_one_row :
  exists res w',
    processWebhook sample_remote sample_env (Some two_message_envelope)
      sample_world = (Ok res, w') /\
    supported_units (default [] (entry two_message_envelope)) = 2 /\
    length (messages w') = length (messages sample_world) + 1.
Proof.
  destruct (processWebhook sample_remote sample_env
              (Some two_message_envelope) sample_world)
    as [[res | e |] w'] eqn:Hrun; try (vm_compute in Hrun; discriminate Hrun).
  exists res, w'. split; [reflexivity |]. split; [reflexivity |].
  vm_compute in Hrun. injection Hrun as _ <-. reflexivity.
Qed.

(** C2, amended.  Of each 'messages' change the pipeline processes the
    first message only.  When [processWebhook] returns, the rows it has
    appended to the message table number one per 'messages' change whose
    first message is of a supported type, whatever further messages the
    change carries, and each of them has status "received". *)
Theorem processWebhook_rows_per_change (R : Remote) (env : Env)
    (entries : list Entry) (w : World) (res : WebhookResult) (w' : World) :
  processWebhook R env (Some {| entry := Some entries |}) w = (Ok res, w') ->
  exists rows,
    messages w' = messages w ++ rows /\
    length rows = units_of_envelope entries /\
    Forall (fun r => msg_status r = "received") rows.
Proof.
  unfold processWebhook. simpl. intros H.
  apply bind_Ok in H as (u & w1 & Hloop & Hret).
  unfold ret in Hret. injection Hret as _ <-.
  revert Hloop. apply for_of_rows. apply handleEntry_ok.
Qed.

Lemma processWebhook_rows_per_change_witness :
  exists res w' rows,
    processWebhook sample_remote sample_env (Some two_message_envelope)
      sample_world = (Ok res, w') /\
    messages w' = messages sample_world ++ rows /\
    length rows = 1 /\
    Forall (fun r => msg_status r = "received") rows.
Proof.
  destruct (processWebhook sample_remote sample_env
              (Some two_message_envelope) sample_world)
    as [[res | e |] w'] eqn:Hrun; try (vm_compute in Hrun; discriminate Hrun).
  destruct (processWebhook_rows_per_change sample_remote sample_env _ _ _ _
              Hrun) as (rows & Hm & Hl & Hf).
  exists res, w', rows. repeat split; assumption.
Defined.

(** ** Config merge *)



Lemma spread_singleton (cfg : gmap string JsVal) k v :
  spread cfg {[ k := v ]} = <[ k := v ]> cfg.
Proof. unfold spread. symmetry. apply insert_union_singleton_l. Qed.

Lemma updated_rows cfg t id (rows : list Conversation) row :
  row ∈ update_rows id cfg t rows ->
  conv_id row = id -> conv_config row = cfg.
Proof.
  unfold update_rows. rewrite list_elem_of_fmap. intros (r & -> & _).
  destruct (String.eqb_spec (conv_id r) id); simpl; [done | congruence].
Qed.

Section ConfigMerge.

Context (R : Remote).

Lemma updateConfig_ok p c w r c' w' :
  updateConfig R p (c, w) = (Ok r, (c', w')) ->
  exists t,
    r = c' /\
    c' = set_config c (spread (conv_config c) p) t /\
    trace w' = trace w ++
      [GetConnection;
       Execute (UpdateConversationConfig (spread (conv_config c) p) t
                  (conv_id c))] /\
    conversations w' =
      update_rows (conv_id c) (spread (conv_config c) p) t
        (conversations w) /\
    messages w' = messages w.
Proof.
  unfold updateConfig, bind, lift, this, set_this, getConnection, execute,
    perform, Date_now. simpl. intros H. do 2 answer H.
  injection H as <- <- <-. eexists. simpl. rewrite <- app_assoc.
  repeat split.
Qed.

End ConfigMerge.



(** ** Polling *)

Lemma poll_trace_S h threadId runId interval n :
  poll_trace h threadId runId interval (S n) =
  poll_trace h threadId runId interval n ++
    [SetTimeout interval; RunsRetrieve threadId runId].
Proof. unfold poll_trace. simpl. by rewrite app_comm_cons, app_assoc. Qed.

Lemma count_app kind l1 l2 :
  count kind (l1 ++ l2) = count kind l1 + count kind l2.
Proof. unfold count. by rewrite List.filter_app, length_app. Qed.

Lemma count_cons kind c l :
  count kind (c :: l) = (if kind c then 1 else 0) + count kind l.
Proof. unfold count. simpl. by destruct (kind c). Qed.

Lemma count_polls kind threadId runId interval n :
  kind (SetTimeout interval) = false ->
  kind (RunsRetrieve threadId runId) = false ->
  count kind (polls threadId runId interval n) = 0.
Proof.
  intros H1 H2. induction n as [| n IH]; [reflexivity |].
  simpl. rewrite count_app, IH. unfold count. simpl. by rewrite H1, H2.
Qed.

Lemma calls_since_app w w' calls :
  trace w' = trace w ++ calls -> calls_since w w' = calls.
Proof. unfold calls_since. intros ->. by rewrite drop_app_length. Qed.

Section Polling.

Context (R : Remote) (threadId : JsVal) (runId : string).
Context (interval timeout startTime : Z).

Local Notation "'loop' fuel" :=
  (waitForRun_loop R fuel threadId runId interval timeout startTime)
  (at level 10, fuel at level 9, only parsing).
Lemma timer_delay_pos ms : (1 <= timer_delay ms)%Z.
Proof.
  unfold timer_delay.
  destruct (1 <=? ms)%Z eqn:H1; destruct (ms <=? 2147483647)%Z; simpl; lia.
Qed.

(** The loop that returns stopped at the first retrieval answered with a
    status outside the set. *)
Lemma waitForRun_loop_ok h fuel : forall j run w run' w',
  loop fuel run w = (Ok run', w') ->
  trace w = poll_trace h threadId runId interval j ->
  runs_retrieve R (trace w) = Answer run ->
  (forall i, i < j -> in_progress_at R threadId runId interval h i) ->
  exists k,
    trace w' = poll_trace h threadId runId interval k /\
    conversations w' = conversations w /\ messages w' = messages w /\
    runs_retrieve R (trace w') = Answer run' /\
    in_progress (run_status run') = false /\
    (forall i, i < k -> in_progress_at R threadId runId interval h i).
Proof.
  induction fuel as [| fuel IH]; intros j run w run' w' H Ht Hans Hbefore;
    simpl in H; destruct (in_progress (run_status run)) eqn:Hrun;
    try discriminate H;
    try (injection H as <- <-; exists j; by repeat split).
  apply bind_Ok in H as (t & w1 & Hnow & H).
  apply Date_now_ok in Hnow as [-> ->].
  destruct (now w - startTime >? timeout)%Z; [discriminate H |].
  apply bind_Ok in H as (u & w2 & Hsleep & H).
  apply perform_ok in Hsleep as (Ht2 & Hc2 & Hm2 & _).
  apply bind_Ok in H as (run2 & w3 & Hget & H).
  apply perform_ok in Hget as (Ht3 & Hc3 & Hm3 & Hans3).
  assert (Htrace : trace w3 = poll_trace h threadId runId interval (S j)).
  { rewrite poll_trace_S, <- Ht, Ht3, Ht2, <- app_assoc. reflexivity. }
  destruct (IH (S j) run2 w3 run' w' H Htrace) as (k & Hk).
  - rewrite Ht3. exact Hans3.
  - intros i Hi. destruct (decide (i = j)) as [-> | Hne].
    + exists run. rewrite <- Ht. by split.
    + apply Hbefore. lia.
  - exists k. destruct Hk as (Htk & Hc & Hm & Hansk & Hrunk & Hbeforek).
    rewrite Hc, Hm, Hc3, Hm3, Hc2, Hm2. by repeat split.
Qed.


(** The bound on the rounds of the loop is never used up. *)
Lemma waitForRun_loop_fuel fuel : forall run w,
  (Z.of_nat fuel > Z.max 0 (timeout - (now w - startTime) + 1))%Z ->
  fst (loop fuel run w) <> OutOfFuel.
Proof.
  induction fuel as [| fuel IH]; intros run w Hfuel; [lia |].
  simpl. destruct (in_progress (run_status run)); [| done].
  unfold bind at 1. unfold Date_now at 1.
  destruct (Z.gtb_spec (now w - startTime) timeout) as [Hover | Hin];
    [done |].
  destruct (perform_run R (SetTimeout interval) (fun _ => Answer tt) w)
    as (w2 & Hsleep & Ht2 & Hc2 & Hm2 & Hn2).
  unfold sleep. rewrite (bind_step _ _ _ _ _ Hsleep).
  destruct (perform_run R (RunsRetrieve threadId runId) (runs_retrieve R) w2)
    as (w3 & Hget & Ht3 & Hc3 & Hm3 & Hn3).
  unfold getRunStatus, bind at 1. rewrite Hget.
  destruct (runs_retrieve R _) as [run2 | e]; simpl; [| done].
  apply IH. rewrite Hn3, Hn2. simpl.
  pose proof (timer_delay_pos interval). lia.
Qed.

End Polling.

Section WaitForRun.

Context (R : Remote) (threadId : JsVal) (runId : string).
Context (interval timeout : Z).

Lemma poll_bound_enough (elapsed : Z) :
  (0 <= elapsed)%Z ->
  (Z.of_nat (poll_bound timeout) > Z.max 0 (timeout - elapsed + 1))%Z.
Proof. unfold poll_bound. lia. Qed.

(** [waitForRun] returns the first run whose status is outside
    {queued, in_progress, cancelling}: every retrieval before the last was
    answered in the set, the last one was not. *)
Lemma waitForRun_ok w run w' :
  waitForRun R threadId runId interval timeout w = (Ok run, w') ->
  exists k,
    trace w' = poll_trace (trace w) threadId runId interval k /\
    conversations w' = conversations w /\ messages w' = messages w /\
    runs_retrieve R (trace w') = Answer run /\
    in_progress (run_status run) = false /\
    (forall i, i < k ->
       in_progress_at R threadId runId interval (trace w) i).
Proof.
  unfold waitForRun. intros H.
  apply bind_Ok in H as (t & w0 & Hnow & H).
  apply Date_now_ok in Hnow as [-> ->].
  apply bind_Ok in H as (run0 & w1 & Hget & H).
  apply perform_ok in Hget as (Ht1 & Hc1 & Hm1 & Hans1).
  destruct (waitForRun_loop_ok R threadId runId interval timeout (now w)
              (trace w) _ 0 run0 w1 run w' H) as (k & Hk).
  - rewrite Ht1. reflexivity.
  - rewrite Ht1. exact Hans1.
  - intros i Hi. lia.
  - exists k. destruct Hk as (Htk & Hc & Hm & Hansk & Hrunk & Hbefore).
    rewrite Hc, Hm, Hc1, Hm1. by repeat split.
Qed.


Lemma waitForRun_never_out_of_fuel w :
  fst (waitForRun R threadId runId interval timeout w) <> OutOfFuel.
Proof.
  unfold waitForRun. unfold bind at 1. unfold Date_now at 1.
  destruct (perform_run R (RunsRetrieve threadId runId) (runs_retrieve R) w)
    as (w1 & Hget & Ht1 & Hc1 & Hm1 & Hn1).
  unfold getRunStatus, bind at 1. rewrite Hget.
  destruct (runs_retrieve R _) as [run0 | e]; simpl; [| done].
  apply waitForRun_loop_fuel, poll_bound_enough.
  rewrite Hn1. simpl. lia.
Qed.

End WaitForRun.

(** ** Assistant orchestration *)

Lemma lift_Ok {A} (m : M World A) c w a c' w' :
  lift m (c, w) = (Ok a, (c', w')) -> c' = c /\ m w = (Ok a, w').
Proof.
  unfold lift. simpl. destruct (m w) as [r w1]. by intros [= -> <- <-].
Qed.

Lemma lift_eq {A} (m : M World A) c w :
  lift m (c, w) = (fst (m w), (c, snd (m w))).
Proof. unfold lift. simpl. by destruct (m w). Qed.

Lemma set_config_id c cfg t : conv_id (set_config c cfg t) = conv_id c.
Proof. reflexivity. Qed.

Section Orchestrate.

Context (R : Remote) (env : Env).

Lemma processConversation_phases message s :
  processConversation R env message s =
  bind (beginRun R env message)
    (fun tr =>
       lift (waitForRun R (fst tr) (run_id (snd tr)) 1000 120000) >>
       lift (getLastAssistantMessage R (fst tr))) s.
Proof.
  unfold processConversation, beginRun. symmetry.
  rewrite bind_assoc. apply bind_ext. intros conversation s1.
  rewrite bind_assoc. apply bind_ext. intros threadId s2.
  rewrite bind_assoc. apply bind_ext. intros u s3.
  rewrite bind_assoc. apply bind_ext. intros run s4.
  rewrite bind_assoc. apply bind_ext. intros c5 s5.
  reflexivity.
Qed.

End Orchestrate.

Section BeginRun.

Context (R : Remote) (env : Env).

(** What [beginRun] has done when it returns: with a thread at hand, the
    calls of [run_calls]; without, those of [thread_calls] first.  The run
    id is merged last, in the object and in the table. *)
Lemma beginRun_ok message c w threadId run c1 w1 :
  beginRun R env message (c, w) = (Ok (threadId, run), (c1, w1)) ->
  exists calls0 c0 rows0 t2,
    (js_or (conv_config c !! "thread_id") None = Some threadId /\
     calls0 = [] /\ c0 = c /\ rows0 = conversations w
     \/
     js_or (conv_config c !! "thread_id") None = None /\
     exists thread t1,
       threads_create R (trace w ++ [ThreadsCreate]) = Answer thread /\
       threadId = JStr (thread_id thread) /\
       calls0 = thread_calls c threadId t1 /\
       c0 = set_config c (<[ "thread_id" := threadId ]> (conv_config c)) t1 /\
       rows0 = update_rows (conv_id c)
                 (<[ "thread_id" := threadId ]> (conv_config c)) t1
                 (conversations w)) /\
    trace w1 = trace w ++ calls0 ++ run_calls env c c0 threadId message run t2 /\
    c1 = set_config c0 (<[ "run_id" := JStr (run_id run) ]> (conv_config c0))
           t2 /\
    conversations w1 =
      update_rows (conv_id c)
        (<[ "run_id" := JStr (run_id run) ]> (conv_config c0)) t2 rows0 /\
    messages w1 = messages w.
Proof.
  unfold beginRun. intros H.
  apply bind_Ok in H as (conversation & [ca wa] & Hthis & H).
  unfold this in Hthis. simpl in Hthis. injection Hthis as <- <- <-.
  apply bind_Ok in H as (tid & [c0 w0] & Hthread & H).
  apply bind_Ok in H as (u & [cb wb] & Happend & H).
  apply lift_Ok in Happend as [-> Happend].
  apply perform_ok in Happend as (Htb & Hcb & Hmb & _).
  apply bind_Ok in H as (run0 & [cc wc] & Hrun & H).
  apply lift_Ok in Hrun as [-> Hrun].
  apply perform_ok in Hrun as (Htc & Hcc & Hmc & _).
  apply bind_Ok in H as (c5 & [cd wd] & Hupd & H).
  unfold ret in H. injection H as <- <- <- <-.
  apply updateConfig_ok in Hupd as (t2 & _ & Hc1 & Htd & Hcd & Hmd).
  rewrite spread_singleton in Hc1, Htd, Hcd.
  assert (Hfirst :
    conv_id c0 = conv_id c /\ messages w0 = messages w /\
    exists calls0,
      trace w0 = trace w ++ calls0 /\
      (js_or (conv_config c !! "thread_id") None = Some tid /\
       calls0 = [] /\ c0 = c /\ conversations w0 = conversations w
       \/
       js_or (conv_config c !! "thread_id") None = None /\
       exists thread t1,
         threads_create R (trace w ++ [ThreadsCreate]) = Answer thread /\
         tid = JStr (thread_id thread) /\
         calls0 = thread_calls c tid t1 /\
         c0 = set_config c (<[ "thread_id" := tid ]> (conv_config c)) t1 /\
         conversations w0 =
           update_rows (conv_id c)
             (<[ "thread_id" := tid ]> (conv_config c)) t1
             (conversations w))).
  { destruct (js_or (conv_config c !! "thread_id") None) as [tid0 |] eqn:Hcfg.
    - unfold ret in Hthread. injection Hthread as <- <- <-.
      repeat split. exists []. rewrite app_nil_r. split; [done |].
      left. by repeat split.
    - apply bind_Ok in Hthread as (thread & [ce we] & Hcreate & Hthread).
      apply lift_Ok in Hcreate as [-> Hcreate].
      apply perform_ok in Hcreate as (Hte & Hce & Hme & Hans).
      apply bind_Ok in Hthread as (u1 & [cf wf] & Hset & Hthread).
      unfold set_this in Hset. simpl in Hset. injection Hset as <- <- <-.
      apply bind_Ok in Hthread as (c6 & [cg wg] & Hupd1 & Hthread).
      unfold ret in Hthread. injection Hthread as <- <- <-.
      apply updateConfig_ok in Hupd1 as (t1 & _ & Hc0 & Htg & Hcg & Hmg).
      rewrite spread_singleton in Hc0, Htg, Hcg.
      unfold assign_config in Hc0, Htg, Hcg. simpl in Hc0, Htg, Hcg.
      rewrite insert_insert_eq in Hc0, Htg, Hcg.
      repeat split.
      + rewrite Hc0. reflexivity.
      + rewrite Hmg, Hme. reflexivity.
      + exists (thread_calls c (JStr (thread_id thread)) t1). split.
        * rewrite Htg, Hte, <- app_assoc. reflexivity.
        * right. split; [reflexivity |]. exists thread, t1.
          rewrite Hcg, Hce. by repeat split. }
  destruct Hfirst as (Hid & Hm0 & calls0 & Ht0 & Hcases).
  exists calls0, c0, (conversations w0), t2.
  split; [| split; [| split; [| split]]].
  - destruct Hcases as [(? & ? & ? & ?) | (? & thread & t1 & ? & ? & ? & ? & ?)];
      [left | right]; repeat split; try assumption.
    exists thread, t1. by repeat split.
  - rewrite Htd, Htc, Htb, Ht0, Hid, <- !app_assoc. reflexivity.
  - exact Hc1.
  - rewrite Hcd, Hcc, Hcb, Hid. reflexivity.
  - rewrite Hmd, Hmc, Hmb, Hm0. reflexivity.
Qed.

End BeginRun.

Section Reply.

Context (R : Remote) (env : Env).

(** When [processConversation] returns: the run was begun, the poll
    stopped at the first retrieval answered outside the set, the messages
    of the thread were listed once, and the reply is the newest assistant
    message of that list. *)
Lemma processConversation_ok message c w resp c' w' :
  processConversation R env message (c, w) = (Ok resp, (c', w')) ->
  exists threadId run w1 k msgs,
    beginRun R env message (c, w) = (Ok (threadId, run), (c', w1)) /\
    trace w' = poll_trace (trace w1) threadId (run_id run) 1000 k ++
               [ThreadMessagesList threadId] /\
    conversations w' = conversations w1 /\ messages w' = messages w1 /\
    (forall i, i < k ->
       in_progress_at R threadId (run_id run) 1000 (trace w1) i) /\
    (exists final,
       runs_retrieve R (poll_trace (trace w1) threadId (run_id run) 1000 k)
         = Answer final /\
       in_progress (run_status final) = false) /\
    thread_messages_list R (trace w') = Answer msgs /\
    resp = lastAssistant msgs.
Proof.
  rewrite processConversation_phases. intros H.
  apply bind_Ok in H as ([threadId run] & [c1 w1] & Hbegin & H). simpl in H.
  apply bind_Ok in H as (final & [c2 w2] & Hwait & H).
  apply lift_Ok in Hwait as [-> Hwait].
  apply lift_Ok in H as [-> H].
  apply waitForRun_ok in Hwait as (k & Ht2 & Hc2 & Hm2 & Hans & Hfinal & Hbefore).
  unfold getLastAssistantMessage in H.
  apply bind_Ok in H as (msgs & w3 & Hlist & H).
  apply perform_ok in Hlist as (Ht3 & Hc3 & Hm3 & Hmsgs).
  unfold ret in H. injection H as <- <-.
  exists threadId, run, w1, k, msgs.
  split; [exact Hbegin |].
  split; [by rewrite Ht3, Ht2 |].
  split; [by rewrite Hc3, Hc2 |].
  split; [by rewrite Hm3, Hm2 |].
  split; [exact Hbefore |].
  split; [exists final; by rewrite <- Ht2 |].
  split; [by rewrite Ht3 | reflexivity].
Qed.



Lemma sendTextMessage_ok to text phoneNumberId conversationId w m w' :
  sendTextMessage R env to text phoneNumberId conversationId w = (Ok m, w') ->
  trace w' = trace w ++
    [AxiosPost (api_url env (render phoneNumberId +:+ "/messages"))
       (TextPayload to text);
     GetConnection; Execute (InsertMessage m)] /\
  conversations w' = conversations w /\
  messages w' = messages w ++ [m] /\
  msg_type m = "bot_answer" /\ msg_status m = "sent" /\
  msg_text m = str_or_null (Some text) /\
  msg_conversation_id m = conversationId.
Proof.
  unfold sendTextMessage. intros H.
  apply bind_Ok in H as (resp & w1 & Hpost & H).
  apply bind_Ok in H as (id & w2 & Hid & H).
  apply bind_Ok in H as (t & w3 & Hnow & H).
  apply perform_ok in Hpost as (Ht1 & Hc1 & Hm1 & _).
  apply first_message_id_ok in Hid as ->.
  apply Date_now_ok in Hnow as [-> _].
  unfold createBotMessage, Message_createBotMessage in H.
  apply bind_Ok in H as (m0 & w4 & Hnew & Hcreate).
  apply new_Message_ok in Hnew as (Ht4 & Hc4 & Hm4 & _ & Hcid & Hty & Hst & Htxt & _).
  apply Message_create_ok in Hcreate as (-> & Ht5 & Hc5 & Hm5).
  rewrite Ht5, Ht4, Ht1, Hc5, Hc4, Hc1, Hm5, Hm4, Hm1, <- app_assoc.
  by repeat split.
Qed.

Lemma findConversationById_ok id w found w' :
  findConversationById R id w = (Ok found, w') ->
  trace w' = trace w ++ [GetConnection; Execute (SelectConversationById id)] /\
  conversations w' = conversations w /\ messages w' = messages w /\
  forall c, found = Some c ->
    exists row, row ∈ conversations w /\ conv_id row = id /\
      conv_config c = conv_config row /\ conv_wa_id c = conv_wa_id row /\
      (id <> "" -> conv_id c = id).
Proof.
  unfold findConversationById, Conversation_findById. intros H.
  apply bind_Ok in H as (u1 & w1 & H1 & H).
  apply bind_Ok in H as (u2 & w2 & H2 & H).
  apply bind_Ok in H as (w3 & w4 & H3 & H).
  apply getConnection_ok in H1 as (Ht1 & Hc1 & Hm1).
  apply execute_ok in H2 as (Ht2 & Hc2 & Hm2). simpl in Hc2, Hm2.
  unfold get in H3. injection H3 as <- <-.
  unfold select_conversation_by_id in H.
  destruct (head (filter (fun r => conv_id r = id) (conversations w2)))
    as [row |] eqn:Hrow.
  - apply bind_Ok in H as (c1 & w5 & Hnew & Hret).
    apply new_Conversation_ok in Hnew as (Ht5 & Hc5 & Hm5 & Hwa & Hcfg & Hid).
    unfold ret in Hret. injection Hret as <- <-.
    rewrite Ht5, Ht2, Ht1, Hc5, Hc2, Hc1, Hm5, Hm2, Hm1, <- app_assoc.
    repeat split. intros c [= <-].
    apply head_Some_elem_of, list_elem_of_filter in Hrow as [Hrid Hin].
    exists row. rewrite <- Hc1, <- Hc2. repeat split; try assumption.
    intros Hne. apply Hid; [by rewrite <- Hrid | exact Hne].
  - unfold ret in H. injection H as <- <-.
    rewrite Ht2, Ht1, Hc2, Hc1, Hm2, Hm1, <- app_assoc. by repeat split.
Qed.

Lemma findMessageById_ok id w found w' :
  findMessageById R id w = (Ok found, w') ->
  trace w' = trace w ++ [GetConnection; Execute (SelectMessageById id)] /\
  conversations w' = conversations w /\ messages w' = messages w.
Proof.
  unfold findMessageById, Message_findById. intros H.
  apply bind_Ok in H as (u1 & w1 & H1 & H).
  apply bind_Ok in H as (u2 & w2 & H2 & H).
  apply bind_Ok in H as (w3 & w4 & H3 & H).
  apply getConnection_ok in H1 as (Ht1 & Hc1 & Hm1).
  apply execute_ok in H2 as (Ht2 & Hc2 & Hm2). simpl in Hc2, Hm2.
  unfold get in H3. injection H3 as <- <-.
  destruct (head (filter (fun r => msg_id r = id) (messages w2))) as [row |].
  - apply bind_Ok in H as (m1 & w5 & Hnew & Hret).
    apply new_Message_ok in Hnew as (Ht5 & Hc5 & Hm5 & _).
    unfold ret in Hret. injection Hret as _ <-.
    rewrite Ht5, Ht2, Ht1, Hc5, Hc2, Hc1, Hm5, Hm2, Hm1, <- app_assoc.
    by repeat split.
  - unfold ret in H. injection H as _ <-.
    rewrite Ht2, Ht1, Hc2, Hc1, Hm2, Hm1, <- app_assoc. by repeat split.
Qed.

End Reply.

Section Handler.

Context (R : Remote) (env : Env).



End Handler.

Lemma count_retrieve_polls threadId runId interval n :
  count is_run_retrieve (polls threadId runId interval n) = n.
Proof.
  induction n as [| n IH]; [reflexivity |].
  simpl. rewrite count_app, IH. unfold count. simpl. lia.
Qed.



(** ** Poll timeout *)


Lemma beginRun_quiet (R : Remote) (env : Env) message c w threadId run c1 w1 :
  beginRun R env message (c, w) = (Ok (threadId, run), (c1, w1)) ->
  exists calls,
    trace w1 = trace w ++ calls /\
    count is_post calls = 0 /\ count is_run_cancel calls = 0 /\
    count is_message_insert calls = 0 /\
    conv_config c1 !! "run_id" = Some (JStr (run_id run)) /\
    (forall row, row ∈ conversations w1 -> conv_id row = conv_id c ->
       conv_config row = conv_config c1) /\
    messages w1 = messages w.
Proof.
  intros H. apply beginRun_ok in H
    as (calls0 & c0 & rows0 & t2 & Hcases & Ht1 & -> & Hc1 & Hm1).
  exists (calls0 ++ run_calls env c c0 threadId message run t2).
  split; [exact Ht1 |]. rewrite !count_app.
  split; [| split; [| split; [| split; [| split]]]].
  - by destruct Hcases as [(_ & -> & _) | (_ & ? & ? & _ & _ & -> & _)].
  - by destruct Hcases as [(_ & -> & _) | (_ & ? & ? & _ & _ & -> & _)].
  - by destruct Hcases as [(_ & -> & _) | (_ & ? & ? & _ & _ & -> & _)].
  - simpl. apply lookup_insert_eq.
  - intros row Hrow Hid. rewrite Hc1 in Hrow. simpl.
    eapply updated_rows; eassumption.
  - exact Hm1.
Qed.



(** ** No loop bound is ever used up *)

Lemma returns_ret {S A} (a : A) : returns (@ret S A a).
Proof. by intros s. Qed.

Lemma returns_throw {S A} e : returns (@throw S A e).
Proof. by intros s. Qed.

Lemma returns_bind {S A B} (m : M S A) (k : A -> M S B) :
  returns m -> (forall a, returns (k a)) -> returns (bind m k).
Proof.
  intros Hm Hk s. unfold bind. specialize (Hm s).
  destruct (m s) as [[a | e |] s1]; simpl in *; [apply Hk | done | done].
Qed.

Lemma returns_lift {A} (m : M World A) : returns m -> returns (lift m).
Proof.
  intros Hm [c w]. rewrite lift_eq. simpl. apply Hm.
Qed.

Lemma returns_for_of {S A} (body : A -> M S unit) l :
  (forall x, returns (body x)) -> returns (for_of l body).
Proof.
  intros Hbody. induction l as [| x l IH]; simpl.
  - apply returns_ret.
  - apply returns_bind; [apply Hbody | intros _; exact IH].
Qed.

Section Returns.

Context (R : Remote) (env : Env).

Lemma returns_perform {A} c (answer : list Call -> Reply A) :
  returns (perform R c answer).
Proof. intros w. unfold perform. simpl. by destruct (answer _). Qed.

Lemma returns_execute what sql : returns (execute R what sql).
Proof.
  intros w. unfold execute, perform. by destruct (connection_execute R _).
Qed.

Lemma returns_waitForRun threadId runId interval timeout :
  returns (waitForRun R threadId runId interval timeout).
Proof. intros w. apply waitForRun_never_out_of_fuel. Qed.

Lemma returns_new_Message data : returns (new_Message R data).
Proof.
  unfold new_Message. apply returns_bind; [| done].
  destruct (str_or_null (md_id data)); done.
Qed.

Lemma returns_new_Conversation data : returns (new_Conversation R data).
Proof.
  unfold new_Conversation. apply returns_bind; [| done].
  destruct (str_or_null (cd_id data)); done.
Qed.

(** Apply the rule of the head of the action. *)
Ltac returns_step :=
  first
    [ apply returns_ret | apply returns_throw | apply returns_perform
    | apply returns_execute | apply returns_waitForRun
    | apply returns_new_Message | apply returns_new_Conversation
    | apply returns_lift
    | apply returns_bind; [| intros ?]
    | apply returns_for_of; intros ? ].

Lemma returns_Message_create m : returns (Message_create R m).
Proof. unfold Message_create, getConnection. repeat returns_step. Qed.

Lemma returns_updateConfig p : returns (updateConfig R p).
Proof.
  unfold updateConfig, getConnection. repeat returns_step; done.
Qed.

Lemma returns_processConversation message :
  returns (processConversation R env message).
Proof.
  unfold processConversation, createThread, OpenAI_createMessage,
    runAssistant, getLastAssistantMessage, getMessages.
  apply returns_bind; [done | intros conversation].
  apply returns_bind.
  { destruct (js_or _ None); [apply returns_ret |].
    apply returns_bind; [repeat returns_step | intros thread].
    apply returns_bind; [done | intros _].
    apply returns_bind; [apply returns_updateConfig | done]. }
  intros threadId.
  apply returns_bind; [repeat returns_step | intros _].
  apply returns_bind; [repeat returns_step | intros run].
  apply returns_bind; [apply returns_updateConfig | intros _].
  apply returns_bind; [repeat returns_step | intros _].
  repeat returns_step.
Qed.

Lemma returns_sendTextMessage to text phoneNumberId conversationId :
  returns (sendTextMessage R env to text phoneNumberId conversationId).
Proof.
  unfold sendTextMessage, createBotMessage, Message_createBotMessage.
  apply returns_bind; [apply returns_perform | intros response].
  apply returns_bind.
  { unfold first_message_id.
    destruct (resp_message_ids response) as [[| ? ?] |]; done. }
  intros wa_id. apply returns_bind; [done | intros t].
  apply returns_bind; [apply returns_new_Message | intros m].
  apply returns_Message_create.
Qed.

Lemma returns_responseText parts : forall acc, returns (responseText parts acc).
Proof.
  induction parts as [| p parts IH]; intros acc; simpl; [done |].
  destruct (String.eqb (part_type p) "text"); [| apply IH].
  destruct (part_text p); [apply IH | done].
Qed.

(** The handler always ends: with a reply sent or with an error for
    [next]. *)
Lemma returns_processMessageWithAI messageId conversationId phoneNumberId :
  returns (processMessageWithAI R env messageId conversationId phoneNumberId).
Proof.
  unfold processMessageWithAI.
  destruct (_ || _); [done |].
  unfold findConversationById, Conversation_findById, findMessageById,
    Message_findById, getConnection.
  apply returns_bind.
  { apply returns_bind; [apply returns_perform | intros _].
    apply returns_bind; [apply returns_execute | intros _].
    apply returns_bind; [done | intros w].
    destruct (select_conversation_by_id _ _); [| done].
    apply returns_bind; [apply returns_new_Conversation | done]. }
  intros [conversation |]; [| done].
  apply returns_bind.
  { apply returns_bind; [apply returns_perform | intros _].
    apply returns_bind; [apply returns_execute | intros _].
    apply returns_bind; [done | intros w].
    destruct (head _); [| done].
    apply returns_bind; [apply returns_new_Message | done]. }
  intros [message |]; [| done].
  apply returns_bind.
  { intros w. unfold on_object.
    pose proof (returns_processConversation (msg_text message)
                  (conversation, w)) as Hrun.
    by destruct (processConversation R env (msg_text message)
                   (conversation, w)) as [[a | e |] [c1 w1]]. }
  intros [[[tid role created [[| part parts] |]] |] c1]; simpl; try done.
  apply returns_bind; [apply (returns_responseText (part :: parts)) |].
  intros text. apply returns_bind; [apply returns_sendTextMessage | done].
Qed.

End Returns.

(** ** Reading the reply *)



(** * Further properties *)

(** ** Webhook endpoints *)

(** X1.  Without a configured verify token, or with an empty one, the
    handshake never answers 200: it answers 400 when mode or token is
    missing and 403 otherwise. *)
Theorem verifyWebhook_without_secret (env : Env)
    (mode token challenge : option string) :
  WHATSAPP_VERIFY_TOKEN env = None \/ WHATSAPP_VERIFY_TOKEN env = Some "" ->
  let res := verifyWebhook env mode token challenge in
  status res <> 200%Z /\
  (status res = 400%Z <-> missing mode \/ missing token) /\
  (status res = 403%Z <-> ~ missing mode /\ ~ missing token).
Proof.
  intros Hsecret. unfold verifyWebhook.
  destruct (str_truthy mode) eqn:Hm; destruct (str_truthy token) eqn:Ht;
    simpl.
  1: { apply str_truthy_true in Hm as Hm', Ht as Ht'.
       assert (Hno : bool_decide (token = WHATSAPP_VERIFY_TOKEN env) = false).
       { apply bool_decide_eq_false. intros ->.
         destruct Hsecret as [H | H]; rewrite H in Ht; discriminate Ht. }
       rewrite Hno, andb_false_r. simpl.
       repeat split; try discriminate; try tauto. }
  all: assert (Hmiss : missing mode \/ missing token)
         by (first [ left; apply str_truthy_false; assumption
                   | right; apply str_truthy_false; assumption ]);
       repeat split; try discriminate; tauto.
Qed.

Lemma verifyWebhook_without_secret_witness :
  status (verifyWebhook unconfigured_env (Some "subscribe") (Some "s3cret")
            (Some "XYZ")) = 403%Z.
Proof.
  destruct (verifyWebhook_without_secret unconfigured_env (Some "subscribe")
              (Some "s3cret") (Some "XYZ")) as (_ & _ & H403).
  - left. reflexivity.
  - apply H403. split; intros [H | H]; discriminate H.
Defined.

(** X2.  Changes of another field than 'messages' are skipped: an
    envelope that carries only such changes is answered with success and
    leaves the world as it was, no call issued. *)
Theorem processWebhook_skips_other_fields (R : Remote) (env : Env)
    (entries : list Entry) (w : World) :
  Forall (fun e => exists cs, changes e = Some cs /\
            Forall (fun c => field c <> Some "messages") cs) entries ->
  processWebhook R env (Some {| entry := Some entries |}) w =
    (Ok {| success := true; error := None |}, w).
Proof.
  intros Hall. unfold processWebhook. simpl.
  assert (Hloop : for_of entries (handleEntry R env) w = (Ok tt, w)).
  { induction Hall as [| e entries (cs & Hcs & Hfields) _ IH]; [done |].
    simpl. erewrite bind_step; [exact IH |].
    unfold handleEntry. rewrite Hcs. clear Hcs IH.
    induction Hfields as [| c cs Hc _ IHc]; [done |].
    simpl. erewrite bind_step; [exact IHc |].
    unfold handleChange. by rewrite bool_decide_eq_false_2. }
  by rewrite (bind_step _ _ _ _ _ Hloop).
Qed.

Lemma processWebhook_skips_other_fields_witness :
  processWebhook sample_remote sample_env (Some status_envelope) sample_world
  = (Ok {| success := true; error := None |}, sample_world).
Proof.
  apply processWebhook_skips_other_fields.
  repeat constructor. eexists. split; [reflexivity |].
  repeat constructor. discriminate.
Defined.

(** X3.  [handleWebhook] answers [{ success: true }] whenever
    [processWebhook] does not throw, whatever it returned; so a body
    without entry list is answered with success, no call issued.  An
    exception of [processWebhook] is handed on as it is. *)
Theorem handleWebhook_always_success (R : Remote) (env : Env) :
  (forall data w result w',
     processWebhook R env data w = (Ok result, w') ->
     WhatsAppController.handleWebhook R env data w =
       (Ok {| success := true; error := None |}, w')) /\
  (forall data w e w',
     processWebhook R env data w = (Throw e, w') ->
     WhatsAppController.handleWebhook R env data w = (Throw e, w')) /\
  (forall data w,
     data = None \/ (exists d, data = Some d /\ entry d = None) ->
     WhatsAppController.handleWebhook R env data w =
       (Ok {| success := true; error := None |}, w)).
Proof.
  unfold WhatsAppController.handleWebhook. split; [| split].
  - intros data w result w' H. by rewrite (bind_step _ _ _ _ _ H).
  - intros data w e w' H. by apply bind_Throw.
  - intros data w [-> | (d & -> & Hd)]; unfold processWebhook;
      rewrite ?Hd; reflexivity.
Qed.

Lemma handleWebhook_always_success_witness :
  WhatsAppController.handleWebhook sample_remote sample_env
    (Some {| entry := None |}) sample_world =
    (Ok {| success := true; error := None |}, sample_world).
Proof.
  apply (proj2 (proj2 (handleWebhook_always_success sample_remote sample_env))).
  right. eexists. split; reflexivity.
Defined.

(** ** Middleware *)



(** X5.  [apiKeyAuth] lets a request pass exactly when it carries a
    non-empty key equal to the configured one; with no key configured, or
    an empty one, no request passes. *)
Theorem apiKeyAuth_passes (INTERNAL_API_KEY apiKey : option string) :
  (InternalAccess.apiKeyAuth INTERNAL_API_KEY apiKey = InternalAccess.Next <->
     exists key, key <> "" /\ apiKey = Some key /\
       INTERNAL_API_KEY = Some key) /\
  (InternalAccess.apiKeyAuth INTERNAL_API_KEY apiKey <> InternalAccess.Next ->
     InternalAccess.apiKeyAuth INTERNAL_API_KEY apiKey =
     InternalAccess.NextError (ApiError 401 "Invalid API key")) /\
  (INTERNAL_API_KEY = None \/ INTERNAL_API_KEY = Some "" ->
     InternalAccess.apiKeyAuth INTERNAL_API_KEY apiKey <> InternalAccess.Next).
Proof.
  unfold InternalAccess.apiKeyAuth.
  destruct (str_truthy apiKey) eqn:Hkey; simpl.
  - apply str_truthy_true in Hkey as Hsupplied.
    destruct (bool_decide_reflect (apiKey = INTERNAL_API_KEY)) as [<- | Hne];
      simpl.
    + split; [| split].
      * split; [intros _ | done].
        destruct apiKey as [key |]; [| exfalso; apply Hsupplied; by left].
        exists key. repeat split. intros ->. apply Hsupplied. by right.
      * done.
      * intros [H | H]; rewrite H in Hkey; discriminate Hkey.
    + split; [| split]; try done.
      split; [done |]. intros (key & _ & -> & ->). by destruct Hne.
  - apply str_truthy_false in Hkey. split; [| split]; try done.
    split; [done |]. intros (key & Hne & -> & _).
    destruct Hkey as [H | [= H]]; [discriminate H | by destruct Hne].
Qed.

(** ** Error responses *)

(** X6.  Every exception of the services and handlers is answered by
    [errorHandler] with its own message, in every environment: an
    [ApiError] with its status, anything else with 500.  The stack is part
    of the body in development only, and [handleError] is not called. *)
Theorem errorHandler_of_exception (NODE_ENV : option string) (e : Exn)
    (stack : string) :
  exists res,
    Errors.errorHandler NODE_ENV (Errors.thrown_of e stack) = Answer res /\
    Errors.response_message res = exn_message e /\
    Errors.response_status res =
      match e with ApiError statusCode _ => statusCode | _ => 500%Z end /\
    Errors.handled_globally res = false /\
    (Errors.response_stack res = None <-> NODE_ENV <> Some "development").
Proof.
  destruct e; simpl; eexists; (split; [reflexivity |]); simpl;
    repeat split; try done;
    destruct (bool_decide_reflect (NODE_ENV = Some "development"));
    try done; try tauto.
Qed.

(** X7.  [convertToApiError] leaves an [ApiError] as it is, so converting
    twice is converting once; it answers a database error with 500
    "Database error occurred", hiding its message, the errors of the two
    remote APIs with 503, and a thrown value that is no [Error] with 500
    "Internal server error", marked as not operational.  Only [null] and
    [undefined] make it throw. *)
Theorem convertToApiError_classes (error : Errors.Thrown) :
  (error <> Errors.OfNullish ->
   exists converted,
     Errors.convertToApiError error = Answer converted /\
     Errors.convertToApiError (Errors.OfApiError converted)
       = Answer converted /\
     (forall original, error = Errors.OfApiError original ->
        converted = original) /\
     (forall message stack, error = Errors.OfDatabaseError message stack ->
        Errors.statusCode converted = 500%Z /\
        Errors.message converted = "Database error occurred") /\
     (forall message stack,
        error = Errors.OfWhatsAppError message stack \/
        error = Errors.OfOpenAIError message stack ->
        Errors.statusCode converted = 503%Z) /\
     (forall stack, error = Errors.OfValue stack ->
        Errors.statusCode converted = 500%Z /\
        Errors.message converted = "Internal server error" /\
        Errors.isOperational converted = false) /\
     (Errors.isOperational converted = false ->
        (exists stack, error = Errors.OfValue stack) \/
        exists original, error = Errors.OfApiError original)) /\
  (error = Errors.OfNullish ->
   exists e, Errors.convertToApiError error = Fail e).
Proof.
  split.
  - intros Hnot. destruct error; try done; simpl; eexists;
      (split; [reflexivity |]); (split; [reflexivity |]);
      repeat split; intros; try discriminate; try congruence;
      try (destruct_or?; discriminate); simpl in *; eauto.
  - intros ->. by eexists.
Qed.

Lemma convertToApiError_classes_witness :
  exists converted,
    Errors.convertToApiError (Errors.OfDatabaseError "ER_DUP_ENTRY" "at x")
      = Answer converted /\
    Errors.statusCode converted = 500%Z /\
    Errors.message converted = "Database error occurred".
Proof.
  destruct (proj1 (convertToApiError_classes
                     (Errors.OfDatabaseError "ER_DUP_ENTRY" "at x")))
    as (converted & Hc & _ & _ & Hdb & _); [discriminate |].
  exists converted. split; [exact Hc |]. by apply (Hdb "ER_DUP_ENTRY" "at x").
Defined.

Lemma apiKeyAuth_passes_witness :
  InternalAccess.apiKeyAuth None (Some "guess") <> InternalAccess.Next.
Proof.
  apply (proj2 (proj2 (apiKeyAuth_passes None (Some "guess")))).
  left. reflexivity.
Defined.

Lemma string_app_assoc (a b c : string) : (a +:+ b) +:+ c = a +:+ b +:+ c.
Proof.
  induction a as [| x a IH]; [done |].
  change (String x ((a +:+ b) +:+ c) = String x (a +:+ b +:+ c)).
  by rewrite IH.
Qed.

Lemma prefix_decided_sound p : forall s b rest,
  prefix_decided p s = Some b -> String.prefix p (s +:+ rest) = b.
Proof.
  induction p as [| a p IH]; intros s b rest; simpl.
  - intros [= <-]. by destruct (s +:+ rest).
  - destruct s as [| c s]; [discriminate |]. simpl.
    destruct (Ascii.eqb_spec a c) as [-> | Hne].
    + intros H. destruct (Ascii.ascii_dec c c); [by apply IH | done].
    + intros [= <-]. by destruct (Ascii.ascii_dec a c).
Qed.

Lemma eqb_decided_sound s : forall t b rest,
  eqb_decided s t = Some b -> String.eqb (s +:+ rest) t = b.
Proof.
  induction s as [| a s IH]; intros t b rest; simpl; [discriminate |].
  destruct t as [| c t]; [by intros [= <-] |].
  destruct (Ascii.eqb a c); simpl; [apply IH | by intros [= <-]].
Qed.

Lemma passes_decided_sound s b rest :
  passes_decided s = Some b ->
  InternalAccess.internalNetworkOnly (Some (s +:+ rest)) =
  if b then InternalAccess.Next
  else InternalAccess.NextError (ApiError 403 "Access denied: Internal API").
Proof.
  unfold passes_decided, InternalAccess.internalNetworkOnly.
  destruct (eqb_decided s "127.0.0.1") as [x |] eqn:H1; [| discriminate].
  destruct (eqb_decided s "::1") as [y |] eqn:H2; [| discriminate].
  rewrite (eqb_decided_sound _ _ _ rest H1), (eqb_decided_sound _ _ _ rest H2).
  generalize InternalAccess.internal_prefixes. intros prefixes.
  assert (Hex : forall c,
            foldr (fun p acc =>
                     match prefix_decided p s, acc with
                     | Some x, Some y => Some (x || y)
                     | _, _ => None
                     end) (Some false) prefixes = Some c ->
            existsb (fun p => String.prefix p (s +:+ rest)) prefixes = c).
  { induction prefixes as [| p prefixes IH]; simpl; [by intros c [= <-] |].
    intros c. destruct (prefix_decided p s) as [u |] eqn:Hp; [| discriminate].
    destruct (foldr _ _ prefixes) as [v |]; [| discriminate].
    intros [= <-]. by rewrite (prefix_decided_sound _ _ _ rest Hp), (IH v). }
  destruct (foldr _ _ prefixes) as [c |]; [| discriminate]. simpl.
  intros [= <-]. by rewrite (Hex c).
Qed.

Lemma internalNetworkOnly_second_octets :
  forallb
    (fun n : nat =>
       bool_decide
         (passes_decided ("172." +:+ pretty n +:+ ".") =
          Some ((16 <=? n) && (n <=? 31))%nat))
    (seq 0 256) = true.
Proof. vm_compute. reflexivity. Qed.

(** X8.  [internalNetworkOnly] lets pass every address that begins with
    "10." or "192.168.", and of the addresses that begin with "172." and a
    second octet exactly those whose second octet is in 16..31: the sixteen
    listed prefixes are the block 172.16.0.0/12. *)
Theorem internalNetworkOnly_private_blocks :
  (forall rest,
     InternalAccess.internalNetworkOnly (Some ("10." +:+ rest))
       = InternalAccess.Next) /\
  (forall rest,
     InternalAccess.internalNetworkOnly (Some ("192.168." +:+ rest))
       = InternalAccess.Next) /\
  (forall (n : nat) rest, n < 256 ->
     (InternalAccess.internalNetworkOnly
        (Some ("172." +:+ pretty n +:+ "." +:+ rest)) = InternalAccess.Next
      <-> 16 <= n <= 31)).
Proof.
  split; [| split].
  - intros rest. by apply (passes_decided_sound "10." true).
  - intros rest. by apply (passes_decided_sound "192.168." true).
  - intros n rest Hn.
    pose proof internalNetworkOnly_second_octets as Hall.
    rewrite forallb_forall in Hall.
    specialize (Hall n). rewrite bool_decide_eq_true in Hall.
    assert (Happ : "172." +:+ pretty n +:+ "." +:+ rest =
                   ("172." +:+ pretty n +:+ ".") +:+ rest)
      by (by rewrite !string_app_assoc).
    rewrite Happ.
    rewrite (passes_decided_sound _ _ rest (Hall ltac:(apply in_seq; lia))).
    destruct (Nat.leb_spec 16 n); destruct (Nat.leb_spec n 31); simpl;
      split; intros; try lia; try discriminate; reflexivity.
Qed.

Lemma internalNetworkOnly_private_blocks_witness :
  InternalAccess.internalNetworkOnly (Some "172.20.0.7") = InternalAccess.Next /\
  InternalAccess.internalNetworkOnly (Some "172.32.0.7") <> InternalAccess.Next.
Proof.
  pose proof internalNetworkOnly_private_blocks as (_ & _ & H172).
  split.
  - apply (H172 20 "0.7"); lia.
  - intros H. apply (H172 32 "0.7") in H; lia.
Defined.

(** ** Ingestion, whatever the outcome *)

Lemma always_ret {A} (P : World -> World -> Prop) (a : A) :
  Reflexive P -> always P (ret a).
Proof. intros HP w r w' [= _ <-]. reflexivity. Qed.

Lemma always_throw {A} (P : World -> World -> Prop) e :
  Reflexive P -> always P (@throw World A e).
Proof. intros HP w r w' [= _ <-]. reflexivity. Qed.

Lemma always_bind {A B} (P : World -> World -> Prop) (m : M World A)
    (k : A -> M World B) :
  Transitive P -> always P m -> (forall a, always P (k a)) ->
  always P (bind m k).
Proof.
  intros HP Hm Hk w r w'. unfold bind.
  destruct (m w) as [[a | e |] w1] eqn:Hrun.
  - intros H. etransitivity; [eapply Hm, Hrun | eapply Hk, H].
  - intros [= _ <-]. eapply Hm, Hrun.
  - intros [= _ <-]. eapply Hm, Hrun.
Qed.

Lemma always_for_of {A} (P : World -> World -> Prop) (body : A -> M World unit)
    l :
  Reflexive P -> Transitive P -> (forall x, always P (body x)) ->
  always P (for_of l body).
Proof.
  intros Hr Ht Hbody. induction l as [| x l IH]; simpl.
  - by apply always_ret.
  - apply always_bind; [done | apply Hbody | intros _; exact IH].
Qed.

Global Instance appended_refl : Reflexive appended.
Proof.
  intros w. split; [exists [] | exists []]; rewrite app_nil_r; by repeat split.
Qed.

Global Instance appended_trans : Transitive appended.
Proof.
  intros w1 w2 w3 [[cs1 Hc1] (rows1 & Hm1 & Hf1)] [[cs2 Hc2] (rows2 & Hm2 & Hf2)].
  split.
  - exists (cs1 ++ cs2). by rewrite Hc2, Hc1, app_assoc.
  - exists (rows1 ++ rows2). rewrite Hm2, Hm1, app_assoc. split; [done |].
    by apply Forall_app.
Qed.

Section Always.

Context (R : Remote) (env : Env).

Lemma perform_tables {A} c (answer : list Call -> Reply A) w r w' :
  perform R c answer w = (r, w') ->
  conversations w' = conversations w /\ messages w' = messages w.
Proof. unfold perform. by intros [= _ <-]. Qed.

Lemma execute_tables what sql w r w' :
  execute R what sql w = (r, w') ->
  (r = Ok tt /\ conversations w' = conversations (apply_sql sql w) /\
   messages w' = messages (apply_sql sql w)) \/
  ((forall u, r <> Ok u) /\ conversations w' = conversations w /\
   messages w' = messages w).
Proof.
  unfold execute, perform.
  destruct (connection_execute R _) as [u | e]; simpl; intros [= <- <-].
  - left. destruct sql; by repeat split.
  - right. by repeat split.
Qed.

Lemma uuid_tables w r w' :
  uuid R w = (r, w') ->
  conversations w' = conversations w /\ messages w' = messages w.
Proof. unfold uuid. by intros [= _ <-]. Qed.

Lemma new_Message_tables data w r w' :
  new_Message R data w = (r, w') ->
  conversations w' = conversations w /\ messages w' = messages w.
Proof.
  unfold new_Message, bind, Date_now, ret, uuid.
  destruct (str_or_null (md_id data)); simpl; by intros [= _ <-].
Qed.

Lemma new_Conversation_tables data w r w' :
  new_Conversation R data w = (r, w') ->
  conversations w' = conversations w /\ messages w' = messages w.
Proof.
  unfold new_Conversation, bind, Date_now, ret, uuid.
  destruct (str_or_null (cd_id data)); simpl; by intros [= _ <-].
Qed.

(** Looking a conversation up changes no table, whatever the outcome. *)
Lemma findConversationByWaId_tables waId w r w' :
  findConversationByWaId R waId w = (r, w') ->
  conversations w' = conversations w /\ messages w' = messages w.
Proof.
  unfold findConversationByWaId, Conversation_findByWaId, getConnection, bind.
  destruct (perform R GetConnection _ w) as [[u | e |] w1] eqn:H1;
    apply perform_tables in H1 as [Hc1 Hm1];
    try (intros [= _ <-]; by split).
  destruct (execute R _ _ w1) as [r2 w2] eqn:H2.
  apply execute_tables in H2
    as [(-> & Hc2 & Hm2) | (Hno & Hc2 & Hm2)]; simpl in Hc2, Hm2.
  - unfold get.
    destruct (select_conversation_by_wa_id waId w2).
    + destruct (new_Conversation R _ w2) as [[c3 | e |] w3] eqn:H3;
        apply new_Conversation_tables in H3 as [Hc3 Hm3];
        intros [= _ <-]; split; congruence.
    + intros [= _ <-]. split; congruence.
  - destruct r2 as [u2 | e |]; [by destruct (Hno u2) | |];
      intros [= _ <-]; split; congruence.
Qed.

(** Creating a conversation appends it, or changes nothing. *)
Lemma createConversation_tables data w r w' :
  createConversation R data w = (r, w') ->
  messages w' = messages w /\
  ((exists c, r = Ok c /\ conversations w' = conversations w ++ [c]) \/
   ((forall c, r <> Ok c) /\ conversations w' = conversations w)).
Proof.
  unfold createConversation, Conversation_create, getConnection, bind.
  destruct (new_Conversation R data w) as [[c | e |] w0] eqn:H0;
    apply new_Conversation_tables in H0 as [Hc0 Hm0];
    try (intros [= <- <-]; split; [done | right; by split]).
  destruct (perform R GetConnection _ w0) as [[u | e |] w1] eqn:H1;
    apply perform_tables in H1 as [Hc1 Hm1];
    try (intros [= <- <-]; split; [congruence | right; split; [done | congruence]]).
  destruct (execute R _ _ w1) as [r2 w2] eqn:H2.
  apply execute_tables in H2
    as [(-> & Hc2 & Hm2) | (Hno & Hc2 & Hm2)]; simpl in Hc2, Hm2.
  - unfold ret. intros [= <- <-]. split; [congruence |].
    left. exists c. split; [done | congruence].
  - destruct r2 as [u2 | e |]; [by destruct (Hno u2) | |];
      intros [= <- <-]; (split; [congruence | right; split; [done | congruence]]).
Qed.

(** Storing a message appends it, or changes nothing. *)
Lemma createMessage_tables data w r w' :
  createMessage R data w = (r, w') ->
  conversations w' = conversations w /\
  ((exists m, r = Ok m /\ messages w' = messages w ++ [m] /\
      msg_status m = str_or (md_status data) "pending") \/
   ((forall m, r <> Ok m) /\ messages w' = messages w)).
Proof.
  unfold createMessage, Message_create, getConnection, bind.
  destruct (new_Message R data w) as [[m | e0 |] w0] eqn:H0;
    pose proof (new_Message_tables _ _ _ _ H0) as [Hc0 Hm0];
    try (intros [= <- <-]; split; [done | right; by split]).
  apply new_Message_ok in H0 as (_ & _ & _ & _ & _ & _ & Hst & _).
  destruct (perform R GetConnection _ w0) as [[u | e1 |] w1] eqn:H1;
    apply perform_tables in H1 as [Hc1 Hm1];
    try (intros [= <- <-]; split;
         [congruence | right; split; [done | congruence]]).
  destruct (execute R _ _ w1) as [r2 w2] eqn:H2.
  apply execute_tables in H2
    as [(-> & Hc2 & Hm2) | (Hno & Hc2 & Hm2)]; simpl in Hc2, Hm2.
  - unfold ret. intros [= <- <-]. split; [congruence |].
    left. exists m. split; [done |]. split; [congruence | done].
  - destruct r2 as [u2 | e2 |]; [by destruct (Hno u2) | |];
      intros [= <- <-];
      (split; [congruence | right; split; [done | congruence]]).
Qed.

End Always.

Lemma latest_None rows : latest rows = None <-> rows = [].
Proof.
  destruct rows as [| r rows]; [done |]. simpl.
  destruct (latest rows) as [r' |]; [| done].
  by destruct (conv_created_at r <? conv_created_at r')%Z.
Qed.

Lemma latest_Some rows r :
  latest rows = Some r ->
  r ∈ rows /\
  forall r', r' ∈ rows -> (conv_created_at r' <= conv_created_at r)%Z.
Proof.
  revert r. induction rows as [| r0 rows IH]; intros r; [done |]. simpl.
  destruct (latest rows) as [r1 |] eqn:Hrest.
  - destruct (IH r1 eq_refl) as [Hin Hmax].
    destruct (Z.ltb_spec (conv_created_at r0) (conv_created_at r1));
      intros [= <-];
      (split; [apply elem_of_cons; first [by left | by right] |]);
      intros r' Hr';
      apply elem_of_cons in Hr' as [-> | Hr']; try lia;
      specialize (Hmax r' Hr'); lia.
  - apply latest_None in Hrest as ->. intros [= <-].
    split; [apply elem_of_cons; by left |]. intros r' Hr'.
    apply list_elem_of_singleton in Hr' as ->. lia.
Qed.

Section Resolve.

Context (R : Remote) (env : Env).

Lemma new_Conversation_of_row row w c w' :
  new_Conversation R (conversation_row_data row) w = (Ok c, w') ->
  conv_wa_id c = conv_wa_id row /\ conv_config c = conv_config row /\
  conv_created_at c = conv_created_at row /\
  (conv_id row <> "" -> conv_id c = conv_id row).
Proof.
  unfold new_Conversation, bind, uuid, Date_now, ret. simpl.
  destruct (String.eqb_spec (conv_id row) ""); simpl; intros [= <- <-];
    simpl; by repeat split.
Qed.

Lemma findConversationByWaId_found waId w found w' :
  findConversationByWaId R waId w = (Ok found, w') ->
  match found with
  | Some c =>
      exists row, select_conversation_by_wa_id waId w = Some row /\
        conv_wa_id c = conv_wa_id row /\ conv_config c = conv_config row /\
        conv_created_at c = conv_created_at row /\
        (conv_id row <> "" -> conv_id c = conv_id row)
  | None => select_conversation_by_wa_id waId w = None
  end.
Proof.
  unfold findConversationByWaId, Conversation_findByWaId. intros H.
  apply bind_Ok in H as (u1 & w1 & H1 & H).
  apply bind_Ok in H as (u2 & w2 & H2 & H).
  apply bind_Ok in H as (w3 & w4 & H3 & H).
  apply getConnection_ok in H1 as (_ & Hc1 & _).
  apply execute_ok in H2 as (_ & Hc2 & _). simpl in Hc2.
  unfold get in H3. injection H3 as <- <-.
  assert (Hsel : select_conversation_by_wa_id waId w2 =
                 select_conversation_by_wa_id waId w).
  { unfold select_conversation_by_wa_id. by rewrite Hc2, Hc1. }
  rewrite Hsel in H.
  destruct (select_conversation_by_wa_id waId w) as [row |].
  - apply bind_Ok in H as (c & w5 & Hnew & Hret).
    unfold ret in Hret. injection Hret as <- _.
    exists row. split; [done |]. by apply new_Conversation_of_row in Hnew.
  - unfold ret in H. by injection H as <- _.
Qed.

Lemma select_by_wa_id_None i w :
  select_conversation_by_wa_id (Some i) w = None <->
  forall r, r ∈ conversations w -> conv_wa_id r <> Some i.
Proof.
  unfold select_conversation_by_wa_id. rewrite latest_None. split.
  - intros Hnil r Hr Hwa.
    assert (Hin : r ∈ filter (fun r => conv_wa_id r = Some i) (conversations w))
      by (by apply list_elem_of_filter).
    rewrite Hnil in Hin. by apply elem_of_nil in Hin.
  - intros Hno.
    destruct (filter _ (conversations w)) as [| r rows] eqn:Hf; [done |].
    assert (Hin : r ∈ filter (fun r => conv_wa_id r = Some i) (conversations w))
      by (rewrite Hf; apply elem_of_cons; by left).
    apply list_elem_of_filter in Hin as [Hwa Hin]. by destruct (Hno r Hin).
Qed.

Lemma select_by_wa_id_Some i w row :
  select_conversation_by_wa_id (Some i) w = Some row ->
  row ∈ conversations w /\ conv_wa_id row = Some i /\
  forall r, r ∈ conversations w -> conv_wa_id r = Some i ->
    (conv_created_at r <= conv_created_at row)%Z.
Proof.
  unfold select_conversation_by_wa_id. intros H.
  apply latest_Some in H as [Hin Hmax].
  apply list_elem_of_filter in Hin as [Hwa Hin].
  repeat split; [done | done |].
  intros r Hr Hrwa. apply Hmax. by apply list_elem_of_filter.
Qed.

End Resolve.

(** X9.  [findConversationByWaId] answers null exactly when no stored
    conversation has the contact id; otherwise the conversation it builds
    is that of a stored row with the contact id whose [created_at] no
    other such row exceeds. *)
Theorem findConversationByWaId_most_recent (R : Remote) (i : string)
    (w : World) (found : option Conversation) (w' : World) :
  findConversationByWaId R (Some i) w = (Ok found, w') ->
  (found = None <->
     forall r, r ∈ conversations w -> conv_wa_id r <> Some i) /\
  (forall c, found = Some c ->
     exists row,
       row ∈ conversations w /\ conv_wa_id row = Some i /\
       conv_wa_id c = Some i /\ conv_config c = conv_config row /\
       conv_created_at c = conv_created_at row /\
       (conv_id row <> "" -> conv_id c = conv_id row) /\
       forall r, r ∈ conversations w -> conv_wa_id r = Some i ->
         (conv_created_at r <= conv_created_at row)%Z).
Proof.
  intros H. apply findConversationByWaId_found in H.
  destruct found as [c |].
  - destruct H as (row & Hsel & Hwa & Hcfg & Hat & Hid).
    pose proof (select_by_wa_id_Some _ _ _ Hsel) as (Hin & Hrow & Hmax).
    split.
    + split; [done |]. intros Hno. by destruct (Hno row Hin).
    + intros c' [= <-]. exists row. rewrite Hwa. by repeat split.
  - split; [| done]. split; [intros _ | done].
    by apply select_by_wa_id_None.
Qed.

Lemma findConversationByWaId_most_recent_witness :
  exists c w',
    findConversationByWaId sample_remote (Some "5511") sample_world
      = (Ok (Some c), w') /\
    conv_id c = "c1" /\ conv_wa_id c = Some "5511".
Proof.
  destruct (findConversationByWaId sample_remote (Some "5511") sample_world)
    as [[[c |] | e |] w'] eqn:Hrun;
    try (vm_compute in Hrun; discriminate Hrun).
  destruct (proj2 (findConversationByWaId_most_recent _ _ _ _ _ Hrun) c eq_refl)
    as (row & Hin & _ & Hwa & _ & _ & Hid & _).
  exists c, w'. split; [reflexivity |]. split; [| exact Hwa].
  apply list_elem_of_singleton in Hin as ->. by apply Hid.
Defined.

Section Events.

Context (R : Remote) (env : Env).

Lemma createMessage_wa_id data w m w' :
  createMessage R data w = (Ok m, w') ->
  msg_wa_id m = str_or (md_wa_id data) "".
Proof.
  unfold createMessage. intros H.
  apply bind_Ok in H as (m0 & w0 & Hnew & Hcreate).
  apply Message_create_ok in Hcreate as (-> & _).
  revert Hnew. unfold new_Message, bind, uuid, Date_now, ret.
  destruct (str_or_null (md_id data)); simpl; by intros [= <- _].
Qed.

(** The row a message is stored as. *)
Lemma process_row (conversation : Conversation) (message : WaMessage)
    (phone : option string) (ev : MessageEvent) (ty : string) w row w' :
  wa_msg_type message = Some ty ->
  (if String.eqb ty "text"
   then processTextMessage R conversation message phone ev
   else if is_media_type ty
   then processMediaMessage R env conversation message phone ev
   else if String.eqb ty "location"
   then processLocationMessage R conversation message phone ev
   else processContactMessage R conversation message phone ev) w
    = (Ok row, w') ->
  conversations w' = conversations w /\ messages w' = messages w ++ [row] /\
  msg_status row = "received" /\
  msg_conversation_id row = Some (conv_id conversation) /\
  msg_wa_id row = str_or (wa_msg_id message) "" /\
  msg_type row =
    (if String.eqb ty "text" then "text"
     else if is_media_type ty then ty
     else if String.eqb ty "location" then "location" else "contact").
Proof.
  intros Hty. destruct (String.eqb ty "text");
    [| destruct (is_media_type ty) eqn:Hmedia;
       [| destruct (String.eqb ty "location")]].
  - intros H. pose proof (processTextMessage_ok _ _ _ _ _ _ _ _ H)
      as [(Hc & Hm & Hst & Hid) Htype].
    unfold processTextMessage in H.
    apply bind_Ok in H as (t & w1 & _ & H).
    apply bind_Ok in H as (txt & w2 & _ & H).
    apply createMessage_wa_id in H. by repeat split.
  - intros H. pose proof (processMediaMessage_ok _ _ _ _ _ _ _ _ _ H)
      as (Hc & Hm & Hst & Hid).
    unfold processMediaMessage in H.
    apply bind_Ok in H as (info & w1 & _ & H).
    apply bind_Ok in H as (t & w2 & _ & H).
    pose proof (createMessage_ok _ _ _ _ _ H) as (_ & _ & _ & _ & Htype & _).
    apply createMessage_wa_id in H. repeat split; try done.
    rewrite Htype. simpl. rewrite Hty. simpl.
    destruct (String.eqb_spec ty "") as [-> | _]; [discriminate Hmedia | done].
  - intros H. pose proof (processLocationMessage_ok _ _ _ _ _ _ _ _ H)
      as (Hc & Hm & Hst & Hid).
    unfold processLocationMessage in H.
    apply bind_Ok in H as (t & w1 & _ & H).
    pose proof (createMessage_ok _ _ _ _ _ H) as (_ & _ & _ & _ & Htype & _).
    apply createMessage_wa_id in H. by repeat split.
  - intros H. pose proof (processContactMessage_ok _ _ _ _ _ _ _ _ H)
      as (Hc & Hm & Hst & Hid).
    unfold processContactMessage in H.
    apply bind_Ok in H as (t & w1 & _ & H).
    pose proof (createMessage_ok _ _ _ _ _ H) as (_ & _ & _ & _ & Htype & _).
    apply createMessage_wa_id in H. by repeat split.
Qed.

Lemma stored_type_branch ty :
  supported (Some ty) = true ->
  (if String.eqb ty "text" then "text"
   else if is_media_type ty then ty
   else if String.eqb ty "location" then "location" else "contact")
  = stored_type ty.
Proof.
  unfold supported, stored_type.
  destruct (String.eqb_spec ty "text") as [-> | _]; [done |].
  destruct (is_media_type ty) eqn:Hmedia.
  { intros _. destruct (String.eqb_spec ty "contacts") as [-> | _]; done. }
  destruct (String.eqb_spec ty "location") as [-> | _]; [done |].
  by destruct (String.eqb ty "contacts").
Qed.

(** What [handleMessageEvent] has done when it returns: the conversation
    of the sender was found or else created, and the first message stored
    in it if its type is supported. *)
Lemma handleMessageEvent_steps ev message rest w u w' :
  ev_messages ev = Some (message :: rest) ->
  handleMessageEvent R env (Some ev) w = (Ok u, w') ->
  exists found w1 conversation,
    findConversationByWaId R (wa_from message) w = (Ok found, w1) /\
    (found = Some conversation /\ conversations w' = conversations w
     \/
     found = None /\ conversations w' = conversations w ++ [conversation] /\
     conv_wa_id conversation = wa_from message /\
     conv_type conversation = "user_initiated" /\
     conv_status conversation = "new" /\ conv_config conversation = ∅) /\
    (if supported (wa_msg_type message)
     then exists row,
            messages w' = messages w ++ [row] /\
            msg_status row = "received" /\
            msg_conversation_id row = Some (conv_id conversation) /\
            msg_wa_id row = str_or (wa_msg_id message) "" /\
            msg_type row = stored_type (default "" (wa_msg_type message))
     else messages w' = messages w).
Proof.
  intros Hmsgs. unfold handleMessageEvent. rewrite Hmsgs. intros H.
  apply bind_Ok in H as (found & w1 & Hfind & H).
  pose proof (findConversationByWaId_ok _ _ _ _ _ Hfind) as (_ & Hc1 & Hm1).
  apply bind_Ok in H as (conversation & w2 & Hconv & H).
  exists found, w1, conversation. split; [exact Hfind |].
  assert (Hresolved :
    messages w2 = messages w /\
    (found = Some conversation /\ conversations w2 = conversations w
     \/
     found = None /\ conversations w2 = conversations w ++ [conversation] /\
     conv_wa_id conversation = wa_from message /\
     conv_type conversation = "user_initiated" /\
     conv_status conversation = "new" /\ conv_config conversation = ∅)).
  { destruct found as [c |].
    - unfold ret in Hconv. injection Hconv as <- <-. split; [done |].
      left. by split.
    - pose proof (createConversation_ok _ _ _ _ _ Hconv) as (_ & Hc2 & Hm2).
      split; [congruence |]. right. split; [done |].
      split; [congruence |].
      unfold createConversation in Hconv.
      apply bind_Ok in Hconv as (c0 & w0 & Hnew & Hcreate).
      unfold Conversation_create in Hcreate.
      apply bind_Ok in Hcreate as (? & ? & _ & Hcreate).
      apply bind_Ok in Hcreate as (? & ? & _ & Hcreate).
      unfold ret in Hcreate. injection Hcreate as -> _.
      revert Hnew. unfold new_Conversation, bind, uuid, Date_now, ret. simpl.
      by intros [= <- _]. }
  destruct Hresolved as (Hm2 & Hcases).
  assert (Hprocess :
    conversations w' = conversations w2 /\
    (if supported (wa_msg_type message)
     then exists row,
            messages w' = messages w ++ [row] /\
            msg_status row = "received" /\
            msg_conversation_id row = Some (conv_id conversation) /\
            msg_wa_id row = str_or (wa_msg_id message) "" /\
            msg_type row = stored_type (default "" (wa_msg_type message))
     else messages w' = messages w)).
  { unfold supported. destruct (wa_msg_type message) as [ty |] eqn:Hty;
      [| unfold ret in H; injection H as _ <-; by split].
    assert (Hstored : forall (act : M World Message),
      (forall row w3, act w2 = (Ok row, w3) ->
         conversations w3 = conversations w2 /\
         messages w3 = messages w2 ++ [row] /\
         msg_status row = "received" /\
         msg_conversation_id row = Some (conv_id conversation) /\
         msg_wa_id row = str_or (wa_msg_id message) "" /\
         msg_type row = stored_type ty) ->
      (act >> ret tt) w2 = (Ok u, w') ->
      conversations w' = conversations w2 /\
      exists row,
        messages w' = messages w ++ [row] /\
        msg_status row = "received" /\
        msg_conversation_id row = Some (conv_id conversation) /\
        msg_wa_id row = str_or (wa_msg_id message) "" /\
        msg_type row = stored_type ty).
    { intros act Hact Hrun.
      apply bind_Ok in Hrun as (row & w3 & Hrow & Hret).
      unfold ret in Hret. injection Hret as _ <-.
      apply Hact in Hrow as (Hc & Hm & Hrest).
      split; [done |]. exists row. by rewrite Hm, Hm2. }
    pose proof (process_row conversation message
                  (match ev_metadata ev with
                   | Some md => phone_number_id md
                   | None => None
                   end) ev ty w2) as Hrow.
    pose proof (stored_type_branch ty) as Htype. unfold supported in Htype.
    destruct (String.eqb ty "text") eqn:Htext; simpl in *.
    { eapply Hstored; [| exact H]. intros row w3 Hrun.
      destruct (Hrow row w3 Hty Hrun) as (? & ? & ? & ? & ? & ->).
      repeat split; try done. by apply Htype. }
    destruct (is_media_type ty) eqn:Hmedia; simpl in *.
    { eapply Hstored; [| exact H]. intros row w3 Hrun.
      destruct (Hrow row w3 Hty Hrun) as (? & ? & ? & ? & ? & ->).
      repeat split; try done. by apply Htype. }
    destruct (String.eqb ty "location") eqn:Hloc; simpl in *.
    { eapply Hstored; [| exact H]. intros row w3 Hrun.
      destruct (Hrow row w3 Hty Hrun) as (? & ? & ? & ? & ? & ->).
      repeat split; try done. by apply Htype. }
    destruct (String.eqb ty "contacts") eqn:Hcontacts; simpl in *.
    { eapply Hstored; [| exact H]. intros row w3 Hrun.
      destruct (Hrow row w3 Hty Hrun) as (? & ? & ? & ? & ? & ->).
      repeat split; try done. by apply Htype. }
    unfold ret in H. injection H as _ <-. by split. }
  destruct Hprocess as [Hc' Hrows]. split; [| exact Hrows].
  destruct Hcases as [[-> Hc] | (-> & Hc & Hrest)]; [left | right];
    (split; [done |]); rewrite Hc'; [done | by split].
Qed.

End Events.

(** ** What ingestion leaves in the tables *)

Lemma appended_of_tables w w' :
  conversations w' = conversations w -> messages w' = messages w ->
  appended w w'.
Proof.
  intros Hc Hm. split; [exists [] | exists []]; rewrite app_nil_r;
    by repeat split.
Qed.

Section Appends.

Context (R : Remote) (env : Env).

Lemma toISOString_tables s : always appended (toISOString s).
Proof.
  unfold toISOString. destruct s as [t |]; [| by apply always_throw, _].
  destruct (Z.abs (t * 1000) <=? 8640000000000000)%Z;
    [by apply always_ret, _ | by apply always_throw, _].
Qed.

Lemma getMediaInfo_tables media w r w' :
  getMediaInfo R env media w = (r, w') ->
  conversations w' = conversations w /\ messages w' = messages w.
Proof.
  unfold getMediaInfo. destruct media as [[[id |]] |];
    try (by intros [= _ <-]).
  destruct (String.eqb id ""); [by intros [= _ <-] |]. apply perform_tables.
Qed.

Lemma createMessage_received data :
  md_status data = Some "received" ->
  always appended (createMessage R data).
Proof.
  intros Hst w r w' H.
  apply createMessage_tables in H
    as [Hc [(m & _ & Hm & Hstatus) | [_ Hm]]];
    [| by apply appended_of_tables].
  split; [exists []; by rewrite app_nil_r |].
  exists [m]. split; [done |]. apply Forall_singleton.
  by rewrite Hstatus, Hst.
Qed.

Lemma handleMessageEvent_appends messageEvent :
  always appended (handleMessageEvent R env messageEvent).
Proof.
  unfold handleMessageEvent.
  destruct messageEvent as [ev |]; [| by apply always_ret, _].
  destruct (ev_messages ev) as [[| message rest] |];
    try (by apply always_ret, _).
  apply always_bind; [apply _ | |].
  { intros w r w' H. apply findConversationByWaId_tables in H as [Hc Hm].
    by apply appended_of_tables. }
  intros found. apply always_bind; [apply _ | |].
  { destruct found as [c |]; [by apply always_ret, _ |].
    intros w r w' H.
    apply createConversation_tables in H
      as [Hm [(c & _ & Hc) | [_ Hc]]]; [| by apply appended_of_tables].
    split; [by exists [c] |]. exists []. rewrite app_nil_r. by split. }
  intros conversation.
  assert (Hstored : forall (act : M World Message),
            always appended act -> always appended (act >> ret tt)).
  { intros act Hact. apply always_bind; [apply _ | done |].
    intros _. by apply always_ret, _. }
  destruct (wa_msg_type message) as [ty |]; [| by apply always_ret, _].
  destruct (String.eqb ty "text").
  { apply Hstored. unfold processTextMessage.
    apply always_bind; [apply _ | apply toISOString_tables |]. intros t.
    apply always_bind; [apply _ | |].
    { destruct (wa_text message);
        [by apply always_ret, _ | by apply always_throw, _]. }
    intros text. by apply createMessage_received. }
  destruct (is_media_type ty).
  { apply Hstored. unfold processMediaMessage.
    apply always_bind; [apply _ | |].
    { intros w r w' H. apply getMediaInfo_tables in H as [Hc Hm].
      by apply appended_of_tables. }
    intros info.
    apply always_bind; [apply _ | apply toISOString_tables |]. intros t.
    by apply createMessage_received. }
  destruct (String.eqb ty "location").
  { apply Hstored. unfold processLocationMessage.
    apply always_bind; [apply _ | apply toISOString_tables |]. intros t.
    by apply createMessage_received. }
  destruct (String.eqb ty "contacts").
  { apply Hstored. unfold processContactMessage.
    apply always_bind; [apply _ | apply toISOString_tables |]. intros t.
    by apply createMessage_received. }
  by apply always_ret, _.
Qed.

End Appends.

(** X10.  Whatever an envelope holds and however its processing ends, also
    by an exception, [processWebhook] only appends to the two tables: the
    rows that were there are still there, unchanged and in the same order,
    and every message row added has status "received". *)
Theorem processWebhook_append_only (R : Remote) (env : Env)
    (webhookData : option Webhook) (w : World)
    (r : Outcome WebhookResult) (w' : World) :
  processWebhook R env webhookData w = (r, w') ->
  (exists cs, conversations w' = conversations w ++ cs) /\
  exists rows, messages w' = messages w ++ rows /\
    Forall (fun row => msg_status row = "received") rows.
Proof.
  revert w r w'. change (always appended (processWebhook R env webhookData)).
  unfold processWebhook.
  destruct webhookData as [data |]; [| by apply always_ret, _].
  destruct (entry data) as [entries |]; [| by apply always_ret, _].
  apply always_bind; [apply _ | | intros _; by apply always_ret, _].
  apply always_for_of; [apply _ | apply _ |]. intros e. unfold handleEntry.
  destruct (changes e) as [cs |]; [| by apply always_throw, _].
  apply always_for_of; [apply _ | apply _ |]. intros c. unfold handleChange.
  case_bool_decide; [apply handleMessageEvent_appends | by apply always_ret, _].
Qed.

Lemma processWebhook_append_only_witness :
  exists r w',
    processWebhook sample_remote sample_env (Some failing_envelope) sample_world
      = (r, w') /\
    (exists cs, conversations w' = conversations sample_world ++ cs) /\
    exists rows, messages w' = messages sample_world ++ rows /\
      Forall (fun row => msg_status row = "received") rows.
Proof.
  destruct (processWebhook sample_remote sample_env (Some failing_envelope)
              sample_world) as [r w'] eqn:Hrun.
  exists r, w'. split; [reflexivity |].
  exact (processWebhook_append_only _ _ _ _ _ _ Hrun).
Defined.

(** ** The conversation of a sender *)

(** X11.  When [handleMessageEvent] completes for a message of sender [i],
    either a conversation of [i] was stored already and the conversations
    table is unchanged, or none was and exactly one conversation is
    appended: of [i], of type "user_initiated", status "new" and empty
    config. *)
Theorem handleMessageEvent_upserts_conversation (R : Remote) (env : Env)
    (ev : MessageEvent) (message : WaMessage) (rest : list WaMessage)
    (i : string) (w : World) (u : unit) (w' : World) :
  ev_messages ev = Some (message :: rest) ->
  wa_from message = Some i ->
  handleMessageEvent R env (Some ev) w = (Ok u, w') ->
  ((exists r, r ∈ conversations w /\ conv_wa_id r = Some i) /\
   conversations w' = conversations w)
  \/
  ((forall r, r ∈ conversations w -> conv_wa_id r <> Some i) /\
   exists c, conversations w' = conversations w ++ [c] /\
     conv_wa_id c = Some i /\ conv_type c = "user_initiated" /\
     conv_status c = "new" /\ conv_config c = ∅).
Proof.
  intros Hmsgs Hfrom H.
  destruct (handleMessageEvent_steps R env ev message rest w u w' Hmsgs H)
    as (found & w1 & c & Hfind & Hcases & _).
  rewrite Hfrom in Hfind, Hcases.
  apply findConversationByWaId_found in Hfind.
  destruct Hcases as [[-> Hc] | (-> & Hc & Hrest)].
  - left. split; [| exact Hc].
    destruct Hfind as (row & Hsel & _).
    apply select_by_wa_id_Some in Hsel as (Hin & Hwa & _). by exists row.
  - right. split; [by apply select_by_wa_id_None |]. by exists c.
Qed.

Lemma handleMessageEvent_upserts_conversation_witness :
  exists w' c,
    handleMessageEvent sample_remote sample_env
      (Some (sample_event (Some [sample_text "wamid.1" "hello"])))
      empty_world = (Ok tt, w') /\
    conversations w' = [c] /\ conv_status c = "new".
Proof.
  destruct (handleMessageEvent sample_remote sample_env
              (Some (sample_event (Some [sample_text "wamid.1" "hello"])))
              empty_world) as [[[] | e |] w'] eqn:Hrun;
    try (vm_compute in Hrun; discriminate Hrun).
  destruct (handleMessageEvent_upserts_conversation sample_remote sample_env
              (sample_event (Some [sample_text "wamid.1" "hello"]))
              (sample_text "wamid.1" "hello") [] "5511" _ _ _
              eq_refl eq_refl Hrun)
    as [[(r & Hin & _) _] | (_ & c & Hc & _ & _ & Hst & _)].
  - by apply elem_of_nil in Hin.
  - exists w', c. by repeat split.
Defined.

(** X12.  Processing is not idempotent: when the same event is handled
    twice, both times to completion, the second handling reuses the
    conversation of the sender and stores a second row with the same
    WhatsApp message id. *)
Theorem handleMessageEvent_redelivery_stores_twice (R : Remote) (env : Env)
    (ev : MessageEvent) (message : WaMessage) (rest : list WaMessage)
    (i : string) (w w1 w2 : World) (u1 u2 : unit) :
  ev_messages ev = Some (message :: rest) ->
  wa_from message = Some i ->
  supported (wa_msg_type message) = true ->
  handleMessageEvent R env (Some ev) w = (Ok u1, w1) ->
  handleMessageEvent R env (Some ev) w1 = (Ok u2, w2) ->
  conversations w2 = conversations w1 /\
  exists row1 row2,
    messages w2 = messages w ++ [row1; row2] /\
    msg_wa_id row1 = str_or (wa_msg_id message) "" /\
    msg_wa_id row2 = str_or (wa_msg_id message) "".
Proof.
  intros Hmsgs Hfrom Hsup H1 H2.
  destruct (handleMessageEvent_steps R env ev message rest w u1 w1 Hmsgs H1)
    as (found1 & wa & c1 & Hfind1 & Hcases1 & Hrows1).
  destruct (handleMessageEvent_steps R env ev message rest w1 u2 w2 Hmsgs H2)
    as (found2 & wb & c2 & Hfind2 & Hcases2 & Hrows2).
  rewrite Hsup in Hrows1, Hrows2. rewrite Hfrom in *.
  destruct Hrows1 as (row1 & Hm1 & _ & _ & Hwa1 & _).
  destruct Hrows2 as (row2 & Hm2 & _ & _ & Hwa2 & _).
  split.
  - destruct Hcases2 as [[_ Hc] | (-> & _)]; [exact Hc |].
    apply findConversationByWaId_found in Hfind2.
    pose proof (proj1 (select_by_wa_id_None i w1) Hfind2) as Hnone.
    apply findConversationByWaId_found in Hfind1.
    destruct Hcases1 as [[-> Hc] | (-> & Hc & Hwa & _)].
    + destruct Hfind1 as (row & Hsel & _).
      apply select_by_wa_id_Some in Hsel as (Hin & Hwa & _).
      rewrite <- Hc in Hin. by destruct (Hnone row Hin).
    + destruct (Hnone c1); [| done]. rewrite Hc. apply elem_of_app. right.
      apply elem_of_cons. by left.
  - exists row1, row2. rewrite Hm2, Hm1, <- app_assoc. by repeat split.
Qed.

Lemma handleMessageEvent_redelivery_stores_twice_witness :
  exists w1 w2,
    handleMessageEvent sample_remote sample_env
      (Some (sample_event (Some [sample_text "wamid.1" "hello"])))
      sample_world = (Ok tt, w1) /\
    handleMessageEvent sample_remote sample_env
      (Some (sample_event (Some [sample_text "wamid.1" "hello"])))
      w1 = (Ok tt, w2) /\
    length (messages w2) = S (S (length (messages sample_world))).
Proof.
  destruct (handleMessageEvent sample_remote sample_env
              (Some (sample_event (Some [sample_text "wamid.1" "hello"])))
              sample_world) as [[[] | e |] w1] eqn:Hrun1;
    try (vm_compute in Hrun1; discriminate Hrun1).
  destruct (handleMessageEvent sample_remote sample_env
              (Some (sample_event (Some [sample_text "wamid.1" "hello"])))
              w1) as [[[] | e |] w2] eqn:Hrun2;
    try (injection Hrun1 as <-; vm_compute in Hrun2; discriminate Hrun2).
  destruct (handleMessageEvent_redelivery_stores_twice sample_remote
              sample_env (sample_event (Some [sample_text "wamid.1" "hello"]))
              (sample_text "wamid.1" "hello") [] "5511" _ _ _ _ _
              eq_refl eq_refl eq_refl Hrun1 Hrun2)
    as (_ & row1 & row2 & Hm & _).
  exists w1, w2. split; [reflexivity |]. split; [exact Hrun2 |].
  rewrite Hm, length_app. simpl. lia.
Defined.

(** ** Messages that cannot be read *)

Section Malformed.

Context (R : Remote) (env : Env).

Lemma returns_findConversationByWaId waId :
  returns (findConversationByWaId R waId).
Proof.
  unfold findConversationByWaId, Conversation_findByWaId, getConnection.
  apply returns_bind; [apply returns_perform | intros _].
  apply returns_bind; [apply returns_execute | intros _].
  apply returns_bind; [done | intros w].
  destruct (select_conversation_by_wa_id waId w); [| done].
  apply returns_bind; [apply returns_new_Conversation | done].
Qed.

Lemma returns_createConversation data : returns (createConversation R data).
Proof.
  unfold createConversation, Conversation_create, getConnection.
  apply returns_bind; [apply returns_new_Conversation | intros c].
  apply returns_bind; [apply returns_perform | intros _].
  apply returns_bind; [apply returns_execute | done].
Qed.

Lemma toISOString_invalid s w :
  valid_timestamp s = false ->
  toISOString s w = (Throw (RangeError "Invalid time value"), w).
Proof.
  unfold valid_timestamp, toISOString. destruct s as [t |]; [| done].
  by intros ->.
Qed.

Lemma toISOString_valid s w :
  valid_timestamp s = true ->
  exists t, toISOString s w = (Ok t, w).
Proof.
  unfold valid_timestamp, toISOString. destruct s as [t |]; [| done].
  intros ->. by eexists.
Qed.

Lemma getMediaInfo_invalid media w :
  has_media_id media = false ->
  getMediaInfo R env media w = (Throw (Error "Invalid media data"), w).
Proof.
  unfold has_media_id, getMediaInfo. destruct media as [[[id |]] |]; try done.
  by destruct (String.eqb id "").
Qed.

Lemma returns_getMediaInfo media : returns (getMediaInfo R env media).
Proof.
  unfold getMediaInfo. destruct media as [[[id |]] |]; try done.
  destruct (String.eqb id ""); [done | apply returns_perform].
Qed.

(** The branch of a message that lacks what the branch reads throws, and
    leaves the tables as they are. *)
Lemma process_malformed (conversation : Conversation) (message : WaMessage)
    (phone : option string) (ev : MessageEvent) (ty : string) w r w' :
  wa_msg_type message = Some ty ->
  well_formed message = false ->
  (if String.eqb ty "text"
   then processTextMessage R conversation message phone ev
   else if is_media_type ty
   then processMediaMessage R env conversation message phone ev
   else if String.eqb ty "location"
   then processLocationMessage R conversation message phone ev
   else processContactMessage R conversation message phone ev) w = (r, w') ->
  (exists e, r = Throw e) /\
  conversations w' = conversations w /\ messages w' = messages w.
Proof.
  intros Hty. unfold well_formed. rewrite Hty.
  destruct (valid_timestamp (wa_timestamp message)) eqn:Hts; simpl.
  - destruct (toISOString_valid _ w Hts) as [t Ht].
    destruct (String.eqb ty "text").
    + intros Htext. apply bool_decide_eq_false in Htext.
      unfold processTextMessage, bind. rewrite Ht.
      destruct (wa_text message) as [txt |]; [by destruct Htext |].
      intros [= <- <-]. split; [by eexists | done].
    + destruct (is_media_type ty); [| done]. intros Hmedia.
      unfold processMediaMessage, bind. rewrite Hty. simpl.
      rewrite (getMediaInfo_invalid _ w Hmedia).
      intros [= <- <-]. split; [by eexists | done].
  - intros _.
    destruct (String.eqb ty "text");
      [| destruct (is_media_type ty); [| destruct (String.eqb ty "location")]].
    + unfold processTextMessage, bind.
      rewrite (toISOString_invalid _ w Hts).
      intros [= <- <-]. split; [by eexists | done].
    + unfold processMediaMessage, bind.
      destruct (getMediaInfo R env _ w) as [[info | e |] w1] eqn:Hinfo.
      * apply getMediaInfo_tables in Hinfo as [Hc Hm].
        rewrite (toISOString_invalid _ w1 Hts).
        intros [= <- <-]. split; [by eexists | done].
      * apply getMediaInfo_tables in Hinfo as [Hc Hm].
        intros [= <- <-]. split; [by eexists | done].
      * pose proof (returns_getMediaInfo
                      (wa_media message !! default "" (wa_msg_type message)) w)
          as Hret.
        rewrite Hinfo in Hret. by destruct Hret.
    + unfold processLocationMessage, bind.
      rewrite (toISOString_invalid _ w Hts).
      intros [= <- <-]. split; [by eexists | done].
    + unfold processContactMessage, bind.
      rewrite (toISOString_invalid _ w Hts).
      intros [= <- <-]. split; [by eexists | done].
Qed.

End Malformed.

(** X13.  A first message of a stored type that lacks what its branch
    reads (a timestamp that makes a valid date; for a text message the
    [text] object; for a media message the object of its type with a
    non-empty [id]) makes [handleMessageEvent] throw, and no message row
    is stored for it.  The conversation of the sender may have been created
    before the exception. *)
Theorem handleMessageEvent_malformed_not_stored (R : Remote) (env : Env)
    (ev : MessageEvent) (message : WaMessage) (rest : list WaMessage)
    (w : World) (r : Outcome unit) (w' : World) :
  ev_messages ev = Some (message :: rest) ->
  supported (wa_msg_type message) = true ->
  well_formed message = false ->
  handleMessageEvent R env (Some ev) w = (r, w') ->
  (exists e, r = Throw e) /\ messages w' = messages w /\
  (conversations w' = conversations w \/
   exists c, conversations w' = conversations w ++ [c] /\
     conv_wa_id c = wa_from message).
Proof.
  intros Hmsgs Hsup Hbad. unfold handleMessageEvent. rewrite Hmsgs.
  unfold bind at 1.
  destruct (findConversationByWaId R (wa_from message) w)
    as [[found | e |] w1] eqn:Hfind;
    pose proof (returns_findConversationByWaId R (wa_from message) w) as Hret1;
    rewrite Hfind in Hret1; [| | by destruct Hret1];
    apply findConversationByWaId_tables in Hfind as [Hc1 Hm1];
    [| intros [= <- <-]; split; [by eexists | by split; [| left]]].
  unfold bind at 1.
  set (resolve := match found with Some c => ret c | None => _ end).
  destruct (resolve w1) as [[conversation | e |] w2] eqn:Hconv.
  - assert (Hresolved : messages w2 = messages w /\
      (conversations w2 = conversations w \/
       exists c, conversations w2 = conversations w ++ [c] /\
         conv_wa_id c = wa_from message)).
    { subst resolve. destruct found as [c |].
      - unfold ret in Hconv. injection Hconv as _ <-.
        split; [done | by left].
      - pose proof (createConversation_tables _ _ _ _ _ Hconv)
          as [Hm [(c & [= <-] & Hc) | [Hno _]]];
          [| by destruct (Hno conversation)].
        split; [congruence |]. right. exists conversation.
        split; [congruence |].
        unfold createConversation in Hconv.
        apply bind_Ok in Hconv as (c0 & w0 & Hnew & Hcreate).
        unfold Conversation_create in Hcreate.
        apply bind_Ok in Hcreate as (? & ? & _ & Hcreate).
        apply bind_Ok in Hcreate as (? & ? & _ & Hcreate).
        unfold ret in Hcreate. injection Hcreate as -> _.
        revert Hnew. unfold new_Conversation, bind, uuid, Date_now, ret. simpl.
        by intros [= <- _]. }
    destruct Hresolved as [Hm2 Hc2].
    revert Hsup. unfold supported.
    destruct (wa_msg_type message) as [ty |] eqn:Hty; [| done]. intros Hsup.
    pose proof (process_malformed R env conversation message
                  (match ev_metadata ev with
                   | Some md => phone_number_id md
                   | None => None
                   end) ev ty w2) as Hbranch.
    assert (Hthrows : forall (act : M World Message),
      (forall r0 w3, act w2 = (r0, w3) ->
         (exists e, r0 = Throw e) /\
         conversations w3 = conversations w2 /\ messages w3 = messages w2) ->
      (act >> ret tt) w2 = (r, w') ->
      (exists e, r = Throw e) /\ messages w' = messages w /\
      (conversations w' = conversations w \/
       exists c, conversations w' = conversations w ++ [c] /\
         conv_wa_id c = wa_from message)).
    { intros act Hact. unfold bind.
      destruct (act w2) as [r0 w3] eqn:Hrun.
      destruct (Hact r0 w3 eq_refl) as ([e ->] & Hc3 & Hm3).
      intros [= <- <-]. split; [by eexists |]. split; [congruence |].
      by rewrite Hc3. }
    destruct (String.eqb ty "text") eqn:Htext; simpl in *.
    { apply Hthrows. intros r0 w3. by apply Hbranch. }
    destruct (is_media_type ty) eqn:Hmedia; simpl in *.
    { apply Hthrows. intros r0 w3. by apply Hbranch. }
    destruct (String.eqb ty "location") eqn:Hloc; simpl in *.
    { apply Hthrows. intros r0 w3. by apply Hbranch. }
    destruct (String.eqb ty "contacts") eqn:Hcontacts; [| done].
    apply Hthrows. intros r0 w3. by apply Hbranch.
  - intros [= <- <-]. split; [by eexists |].
    subst resolve. destruct found as [c |]; [done |].
    apply createConversation_tables in Hconv
      as [Hm [(c & [=] & _) | [_ Hc]]].
    split; [congruence |]. left. congruence.
  - subst resolve. destruct found as [c |]; [done |].
    pose proof (returns_createConversation R
      {| cd_id := None; cd_wa_id := wa_from message; cd_user_id := None;
         cd_patient_id := None; cd_type := Some "user_initiated";
         cd_status := Some "new"; cd_config := None;
         cd_created_at := None; cd_updated_at := None |} w1) as Hret.
    rewrite Hconv in Hret. by destruct Hret.
Qed.

Lemma handleMessageEvent_malformed_not_stored_witness :
  exists e w',
    handleMessageEvent sample_remote sample_env
      (Some (sample_event (Some [sample_broken_image]))) empty_world
      = (Throw e, w') /\
    messages w' = [] /\ length (conversations w') = 1%nat.
Proof.
  destruct (handleMessageEvent sample_remote sample_env
              (Some (sample_event (Some [sample_broken_image]))) empty_world)
    as [r w'] eqn:Hrun.
  destruct (handleMessageEvent_malformed_not_stored sample_remote sample_env
              (sample_event (Some [sample_broken_image]))
              sample_broken_image [] _ _ _ eq_refl eq_refl eq_refl Hrun)
    as ([e ->] & Hm & Hc).
  exists e, w'. split; [reflexivity |]. split; [exact Hm |].
  destruct Hc as [Hc | (c & Hc & _)]; [| by rewrite Hc].
  vm_compute in Hrun. injection Hrun as _ <-. discriminate Hc.
Defined.

(** X14.  When [handleMessageEvent] completes, a first message of type
    text, image, document, audio, video or location is stored as one row
    of that type, and one of type "contacts" as a row of type "contact";
    the row has status "received" and the WhatsApp id of the message.  For
    a first message of any other type, or without type, no row is
    stored. *)
Theorem handleMessageEvent_stored_type (R : Remote) (env : Env)
    (ev : MessageEvent) (message : WaMessage) (rest : list WaMessage)
    (w : World) (u : unit) (w' : World) :
  ev_messages ev = Some (message :: rest) ->
  handleMessageEvent R env (Some ev) w = (Ok u, w') ->
  (forall ty,
     wa_msg_type message = Some ty -> supported (Some ty) = true ->
     exists row,
       messages w' = messages w ++ [row] /\
       msg_type row = stored_type ty /\ msg_status row = "received" /\
       msg_wa_id row = str_or (wa_msg_id message) "") /\
  (supported (wa_msg_type message) = false -> messages w' = messages w).
Proof.
  intros Hmsgs H.
  destruct (handleMessageEvent_steps R env ev message rest w u w' Hmsgs H)
    as (found & w1 & c & _ & _ & Hrows).
  split.
  - intros ty Hty Hsup. rewrite Hty, Hsup in Hrows.
    destruct Hrows as (row & Hm & Hst & _ & Hwa & Htype).
    exists row. by repeat split.
  - intros Hsup. by rewrite Hsup in Hrows.
Qed.

Lemma handleMessageEvent_stored_type_witness :
  exists w' row,
    handleMessageEvent sample_remote sample_env
      (Some (sample_event (Some [sample_contacts]))) sample_world
      = (Ok tt, w') /\
    messages w' = messages sample_world ++ [row] /\
    msg_type row = "contact".
Proof.
  destruct (handleMessageEvent sample_remote sample_env
              (Some (sample_event (Some [sample_contacts]))) sample_world)
    as [[[] | e |] w'] eqn:Hrun;
    try (vm_compute in Hrun; discriminate Hrun).
  destruct (proj1 (handleMessageEvent_stored_type sample_remote sample_env
                     (sample_event (Some [sample_contacts])) sample_contacts
                     [] _ _ _ eq_refl Hrun) "contacts" eq_refl eq_refl)
    as (row & Hm & Hty & _).
  exists w', row. by repeat split.
Defined.

(** ** The budget of a poll *)

Section Budget.

Context (R : Remote) (threadId : JsVal) (runId : string).
Context (interval timeout : Z).

(** However the loop ends, it has only added rounds of one timer and one
    retrieval, and every round but the last began within the timeout. *)
Lemma waitForRun_loop_budget startTime h fuel : forall j run w r w',
  waitForRun_loop R fuel threadId runId interval timeout startTime run w
    = (r, w') ->
  trace w = poll_trace h threadId runId interval j ->
  exists k,
    trace w' = poll_trace h threadId runId interval (j + k) /\
    (k = 0 \/
     (now w - startTime + (Z.of_nat k - 1) * timer_delay interval
      <= timeout)%Z).
Proof.
  induction fuel as [| fuel IH]; intros j run w r w' H Ht; simpl in H;
    destruct (in_progress (run_status run));
    try (injection H as _ <-; exists 0; rewrite Nat.add_0_r; by split; [| left]).
  revert H. unfold bind at 1. unfold Date_now at 1.
  destruct (Z.gtb_spec (now w - startTime) timeout) as [Hover | Hin].
  { intros [= _ <-]. exists 0. rewrite Nat.add_0_r. by split; [| left]. }
  destruct (perform_run R (SetTimeout interval) (fun _ => Answer tt) w)
    as (w2 & Hsleep & Ht2 & _ & _ & Hn2).
  unfold sleep. rewrite (bind_step _ _ _ _ _ Hsleep).
  destruct (perform_run R (RunsRetrieve threadId runId) (runs_retrieve R) w2)
    as (w3 & Hget & Ht3 & _ & _ & Hn3).
  assert (Htrace : trace w3 = poll_trace h threadId runId interval (S j)).
  { rewrite poll_trace_S, <- Ht, Ht3, Ht2, <- app_assoc. reflexivity. }
  unfold getRunStatus, bind at 1. rewrite Hget.
  destruct (runs_retrieve R _) as [run2 | e]; simpl.
  - intros H. destruct (IH (S j) run2 w3 r w' H Htrace) as (k & Hk & Hbound).
    exists (S k). split; [by rewrite Nat.add_succ_r |]. right.
    pose proof (timer_delay_pos interval) as Hpos.
    simpl in Hn3, Hn2.
    destruct Hbound as [-> | Hbound]; [simpl; lia |].
    rewrite Hn3, Hn2 in Hbound. nia.
  - intros [= _ <-]. exists 1. split; [by rewrite Nat.add_1_r |]. right.
    simpl. lia.
Qed.

End Budget.

(** X15.  However [waitForRun] ends (with a run, with the timeout error or
    with an error of a retrieval), it has issued one retrieval, then rounds
    of one timer and one retrieval, and nothing else; every round but the
    last began within the timeout, so there are at most
    [max(0, timeout / delay) + 2] retrievals, where [delay] is the delay the
    timer takes for [interval]. *)
Theorem waitForRun_poll_budget (R : Remote) (threadId : JsVal)
    (runId : string) (interval timeout : Z) (w : World) (r : Outcome Run)
    (w' : World) :
  waitForRun R threadId runId interval timeout w = (r, w') ->
  exists k,
    trace w' = poll_trace (trace w) threadId runId interval k /\
    count is_run_retrieve (calls_since w w') = S k /\
    (k = 0 \/ ((Z.of_nat k - 1) * timer_delay interval <= timeout)%Z) /\
    (Z.of_nat (S k) <= Z.max 0 (timeout / timer_delay interval) + 2)%Z.
Proof.
  unfold waitForRun, bind at 1, Date_now at 1.
  destruct (perform_run R (RunsRetrieve threadId runId) (runs_retrieve R) w)
    as (w1 & Hget & Ht1 & _ & _ & Hn1).
  unfold getRunStatus, bind at 1. rewrite Hget.
  assert (Hcount : forall k,
    trace w' = poll_trace (trace w) threadId runId interval k ->
    count is_run_retrieve (calls_since w w') = S k).
  { intros k Hk. rewrite (calls_since_app _ _ _ Hk), count_cons. simpl.
    by rewrite count_retrieve_polls. }
  pose proof (timer_delay_pos interval) as Hpos.
  assert (Hdiv : forall k,
    (k = 0 \/ ((Z.of_nat k - 1) * timer_delay interval <= timeout)%Z) ->
    (Z.of_nat (S k) <= Z.max 0 (timeout / timer_delay interval) + 2)%Z).
  { intros k [-> | Hk]; [lia |].
    assert (Z.of_nat k - 1 <= timeout / timer_delay interval)%Z; [| lia].
    apply Z.div_le_lower_bound; lia. }
  destruct (runs_retrieve R _) as [run | e]; simpl.
  - intros H.
    destruct (waitForRun_loop_budget R threadId runId interval timeout (now w)
                (trace w) _ 0 run w1 r w' H) as (k & Hk & Hbound).
    { by rewrite Ht1. }
    simpl in Hk. exists k. split; [exact Hk |]. split; [by apply Hcount |].
    assert (Hk' : k = 0 \/
                  ((Z.of_nat k - 1) * timer_delay interval <= timeout)%Z).
    { destruct Hbound as [-> | Hbound]; [by left | right].
      rewrite Hn1 in Hbound. simpl in Hbound. lia. }
    split; [exact Hk' | by apply Hdiv].
  - intros [= _ <-]. exists 0.
    split; [by rewrite Ht1 |]. split; [apply Hcount; by rewrite Ht1 |].
    split; [by left | apply Hdiv; by left].
Qed.

Lemma waitForRun_poll_budget_witness :
  exists r w',
    waitForRun stuck_remote (JStr "thread_1") "run_1" 1000 3000 sample_world
      = (r, w') /\
    count is_run_retrieve (calls_since sample_world w') <= 5.
Proof.
  destruct (waitForRun stuck_remote (JStr "thread_1") "run_1" 1000 3000
              sample_world) as [r w'] eqn:Hrun.
  destruct (waitForRun_poll_budget _ _ _ _ _ _ _ _ Hrun)
    as (k & _ & Hcount & _ & Hmax).
  exists r, w'. split; [reflexivity |]. rewrite Hcount.
  change (3000 / timer_delay 1000)%Z with 3%Z in Hmax. lia.
Defined.

(** ** Failures of the store and of the send *)

(** X16.  When [updateConfig] throws, the table is as it was.  Either no
    connection could be got: the error is that of [getConnection] and the
    object is unchanged; or the UPDATE failed: the error is a new [Error]
    "Failed to update conversation config: <message>", and the object
    already holds the merged config, which the table does not. *)
Theorem updateConfig_failure (R : Remote) (p : gmap string JsVal)
    (c : Conversation) (w : World) (e : Exn) (c' : Conversation)
    (w' : World) :
  updateConfig R p (c, w) = (Throw e, (c', w')) ->
  conversations w' = conversations w /\ messages w' = messages w /\
  ((get_connection R (trace w ++ [GetConnection]) = Fail e /\
    trace w' = trace w ++ [GetConnection] /\ c' = c)
   \/
   (exists t cause,
      let cfg := spread (conv_config c) p in
      trace w' = trace w ++
        [GetConnection; Execute (UpdateConversationConfig cfg t (conv_id c))] /\
      connection_execute R (trace w') = Fail cause /\
      e = Error ("Failed to update conversation config: " +:+
                 exn_message cause) /\
      c' = set_config c cfg t)).
Proof.
  unfold updateConfig, getConnection, bind at 1. rewrite lift_eq.
  destruct (perform_run R GetConnection (get_connection R) w)
    as (w1 & Hconn & Ht1 & Hc1 & Hm1 & _).
  rewrite Hconn. simpl.
  destruct (get_connection R _) as [u | e1] eqn:Hans; simpl.
  - unfold bind at 1, this at 1. simpl.
    unfold bind at 1. rewrite lift_eq. unfold Date_now at 1. simpl.
    unfold bind at 1, set_this at 1. simpl.
    unfold bind at 1. rewrite lift_eq. simpl.
    unfold execute.
    destruct (perform_run R
                (Execute (UpdateConversationConfig
                            (spread (conv_config c) p) (now w1) (conv_id c)))
                (connection_execute R) w1)
      as (w2 & Hexec & Ht2 & Hc2 & Hm2 & _).
    rewrite Hexec.
    destruct (connection_execute R _) as [u2 | cause] eqn:Hans2; simpl;
      [discriminate |].
    intros [= <- <- <-].
    split; [congruence |]. split; [congruence |]. right.
    exists (now w1), cause. simpl.
    assert (Htrace : trace w2 = trace w ++
      [GetConnection;
       Execute (UpdateConversationConfig (spread (conv_config c) p) (now w1)
                  (conv_id c))]).
    { by rewrite Ht2, Ht1, <- app_assoc. }
    split; [exact Htrace |]. split; [| done].
    by rewrite Htrace, <- Hans2, Ht1, <- app_assoc.
  - intros [= <- <- <-]. split; [done |]. split; [done |]. left. by repeat split.
Qed.

Lemma updateConfig_failure_witness :
  exists e c' w',
    updateConfig readonly_remote {[ "k" := JStr "v" ]}
      (sample_conversation, sample_world) = (Throw e, (c', w')) /\
    conv_config c' !! "k" = Some (JStr "v") /\
    conversations w' = conversations sample_world.
Proof.
  destruct (updateConfig readonly_remote {[ "k" := JStr "v" ]}
              (sample_conversation, sample_world))
    as [[r | e |] [c' w']] eqn:Hrun;
    try (vm_compute in Hrun; discriminate Hrun).
  destruct (updateConfig_failure _ _ _ _ _ _ _ Hrun)
    as (Hc & _ & [(Hans & _) | (t & cause & _ & _ & _ & ->)]).
  - vm_compute in Hans. discriminate Hans.
  - exists e, (set_config sample_conversation
                 (spread (conv_config sample_conversation)
                    {[ "k" := JStr "v" ]}) t), w'.
    split; [reflexivity |]. split; [reflexivity | exact Hc].
Defined.

Section Send.

Context (R : Remote) (env : Env).

(** X17.  [sendTextMessage] stores the row of a message only once the
    WhatsApp API has accepted it: when the POST fails, its error is thrown
    as it is and the database is not called; and whatever happens, a row is
    appended exactly when the function returns. *)
Theorem sendTextMessage_send_failure (to : option string) (text : string)
    (phoneNumberId conversationId : option string) (w : World)
    (r : Outcome Message) (w' : World) :
  sendTextMessage R env to text phoneNumberId conversationId w = (r, w') ->
  let post := AxiosPost (api_url env (render phoneNumberId +:+ "/messages"))
                (TextPayload to text) in
  conversations w' = conversations w /\
  (forall e, axios_post R (trace w ++ [post]) = Fail e ->
     r = Throw e /\ trace w' = trace w ++ [post] /\
     messages w' = messages w) /\
  ((exists m, r = Ok m /\ messages w' = messages w ++ [m] /\
      msg_status m = "sent")
   \/ ((forall m, r <> Ok m) /\ messages w' = messages w)).
Proof.
  unfold sendTextMessage, bind at 1.
  destruct (perform_run R
              (AxiosPost (api_url env (render phoneNumberId +:+ "/messages"))
                 (TextPayload to text)) (axios_post R) w)
    as (w1 & Hpost & Ht1 & Hc1 & Hm1 & _).
  rewrite Hpost. simpl.
  destruct (axios_post R _) as [response | e0] eqn:Hans; simpl.
  - unfold bind at 1, first_message_id.
    destruct (resp_message_ids response) as [[| id ids] |]; simpl;
      try (intros [= <- <-]; split; [done |]; split; [done |]; right;
           by split).
    unfold bind at 1, Date_now at 1. simpl.
    change (createBotMessage R ?data)
      with (createMessage R (with_status (with_type data "bot_answer") "sent")).
    intros H. apply createMessage_tables in H
      as [Hc [(m & -> & Hm & Hst) | [Hno Hm]]].
    + split; [congruence |]. split; [done |]. left. exists m.
      split; [done |]. split; [congruence | done].
    + split; [congruence |]. split; [done |]. right. split; [done | congruence].
  - intros [= <- <-]. split; [done |]. split.
    + intros e [= ->]. by repeat split.
    + right. by split.
Qed.

End Send.

Lemma sendTextMessage_send_failure_witness :
  exists w',
    sendTextMessage offline_remote sample_env (Some "5511") "hello"
      (Some "p1") (Some "c1") sample_world
      = (Throw (Error "Request failed with status code 401"), w') /\
    messages w' = messages sample_world.
Proof.
  destruct (sendTextMessage offline_remote sample_env (Some "5511") "hello"
              (Some "p1") (Some "c1") sample_world) as [r w'] eqn:Hrun.
  destruct (sendTextMessage_send_failure _ _ _ _ _ _ _ _ _ Hrun)
    as (_ & Hfail & _).
  destruct (Hfail (Error "Request failed with status code 401") eq_refl)
    as (-> & _ & Hm).
  exists w'. by split.
Defined.

(** ** A conversation that has a thread *)

Section Thread.

Context (R : Remote) (env : Env).

(** X18.  For a conversation whose config holds a truthy thread id,
    a call of [processConversation] that returns has created no thread:
    the message is appended to the thread of the config and the run is
    created in it; the config is stored once, for the run id, and keeps
    its thread id. *)
Theorem processConversation_reuses_thread (message : option string)
    (c : Conversation) (w : World) (threadId : JsVal)
    (resp : option ThreadMessage) (c' : Conversation) (w' : World) :
  js_or (conv_config c !! "thread_id") None = Some threadId ->
  processConversation R env message (c, w) = (Ok resp, (c', w')) ->
  exists run t k,
    trace w' =
      poll_trace (trace w ++ run_calls env c c threadId message run t)
        threadId (run_id run) 1000 k ++ [ThreadMessagesList threadId] /\
    count is_thread_create (calls_since w w') = 0 /\
    count is_message_append (calls_since w w') = 1 /\
    count is_run_create (calls_since w w') = 1 /\
    count is_config_update (calls_since w w') = 1 /\
    conv_config c' = <[ "run_id" := JStr (run_id run) ]> (conv_config c) /\
    conv_config c' !! "thread_id" = conv_config c !! "thread_id".
Proof.
  intros Hthread H.
  apply processConversation_ok in H
    as (threadId' & run & w1 & k & msgs & Hbegin & Ht & _).
  apply beginRun_ok in Hbegin
    as (calls0 & c0 & rows0 & t2 & Hcases & Ht1 & Hc1 & _).
  destruct Hcases as [(Hsome & -> & -> & _) | (Hnone & _)];
    [| congruence].
  assert (threadId' = threadId) as -> by congruence.
  exists run, t2, k. simpl in Ht1. rewrite Ht1 in Ht.
  split; [exact Ht |].
  assert (Hcalls : calls_since w w' =
            run_calls env c c threadId message run t2 ++
            RunsRetrieve threadId (run_id run) ::
            polls threadId (run_id run) 1000 k ++
            [ThreadMessagesList threadId]).
  { apply calls_since_app. rewrite Ht. unfold poll_trace.
    by rewrite <- !app_assoc. }
  rewrite Hcalls.
  repeat (split;
    [rewrite count_app, count_cons, count_app,
       (count_polls _ _ _ _ _ eq_refl eq_refl); reflexivity |]).
  subst c'. simpl. split; [reflexivity |].
  by rewrite lookup_insert_ne.
Qed.


(** X20.  When [processConversation] returns no assistant message, or one
    whose content is missing or empty, the handler [processMessageWithAI]
    hands on an [ApiError] 500 "No response from AI" and does nothing
    more: no POST to WhatsApp is made and no message row is stored. *)
Theorem processMessageWithAI_without_reply
    (messageId conversationId phoneNumberId : option string) (w : World)
    (c : Conversation) (wa : World) (m : Message) (wb : World)
    (resp : option ThreadMessage) (c' : Conversation) (w2 : World) :
  str_truthy messageId = true -> str_truthy conversationId = true ->
  str_truthy phoneNumberId = true ->
  findConversationById R (default "" conversationId) w = (Ok (Some c), wa) ->
  findMessageById R (default "" messageId) wa = (Ok (Some m), wb) ->
  processConversation R env (msg_text m) (c, wb) = (Ok resp, (c', w2)) ->
  no_reply resp ->
  processMessageWithAI R env messageId conversationId phoneNumberId w
    = (Throw (ApiError 500 "No response from AI"), w2) /\
  count is_post (calls_since w w2) = 0 /\
  messages w2 = messages w.
Proof.
  intros Hmid Hcid Hpn Hfind Hfindm Hconv Hnone. split.
  - unfold processMessageWithAI. rewrite Hmid, Hcid, Hpn. simpl.
    rewrite (bind_step _ _ _ _ _ Hfind), (bind_step _ _ _ _ _ Hfindm).
    unfold bind at 1, on_object. rewrite Hconv. simpl.
    destruct resp as [[? ? ? [[| part parts] |]] |]; done.
  - apply findConversationById_ok in Hfind as (Hta & _ & Hma & _).
    apply findMessageById_ok in Hfindm as (Htb & _ & Hmb).
    apply processConversation_ok in Hconv
      as (threadId & run & w1 & k & msgs & Hbegin & Ht2 & _ & Hm2 & _).
    apply beginRun_quiet in Hbegin
      as (calls & Ht1 & Hpost & _ & _ & _ & _ & Hm1).
    split; [| congruence].
    rewrite (calls_since_app w w2
               ([GetConnection;
                 Execute (SelectConversationById (default "" conversationId));
                 GetConnection;
                 Execute (SelectMessageById (default "" messageId))] ++
                calls ++ RunsRetrieve threadId (run_id run) ::
                polls threadId (run_id run) 1000 k ++
                [ThreadMessagesList threadId])).
    + rewrite count_app, count_app, Hpost,
        (count_cons _ (RunsRetrieve _ _)), count_app,
        (count_polls _ _ _ _ _ eq_refl eq_refl). reflexivity.
    + rewrite Ht2. unfold poll_trace. rewrite Ht1, Htb, Hta.
      by rewrite <- !app_assoc.
Qed.

End Thread.

Lemma processConversation_reuses_thread_witness :
  exists resp c' w',
    processConversation sample_remote sample_env (Some "hi")
      (threaded_conversation, sample_world) = (Ok resp, (c', w')) /\
    count is_thread_create (calls_since sample_world w') = 0 /\
    conv_config c' !! "thread_id" = Some (JStr "thread_0").
Proof.
  destruct (processConversation sample_remote sample_env (Some "hi")
              (threaded_conversation, sample_world))
    as [[resp | e |] [c' w']] eqn:Hrun;
    try (vm_compute in Hrun; discriminate Hrun).
  destruct (processConversation_reuses_thread sample_remote sample_env
              (Some "hi") threaded_conversation sample_world
              (JStr "thread_0") resp c' w' eq_refl Hrun)
    as (run & t & k & _ & Hcreate & _ & _ & _ & _ & Hthread).
  exists resp, c', w'. split; [reflexivity |]. split; [exact Hcreate |].
  rewrite Hthread. reflexivity.
Defined.


Lemma processMessageWithAI_without_reply_witness :
  exists w2,
    processMessageWithAI silent_remote sample_env (Some "m1") (Some "c1")
      (Some "p1") sample_world
      = (Throw (ApiError 500 "No response from AI"), w2) /\
    count is_post (calls_since sample_world w2) = 0 /\
    messages w2 = messages sample_world.
Proof.
  destruct (findConversationById silent_remote (default "" (Some "c1"))
              sample_world) as [[[c |] | e |] wa] eqn:Hfind;
    try (vm_compute in Hfind; discriminate Hfind).
  destruct (findMessageById silent_remote (default "" (Some "m1")) wa)
    as [[[m |] | e |] wb] eqn:Hfindm;
    try (vm_compute in Hfind; injection Hfind as _ <-;
         vm_compute in Hfindm; discriminate Hfindm).
  destruct (processConversation silent_remote sample_env (msg_text m) (c, wb))
    as [[resp | e |] [c' w2]] eqn:Hconv;
    try (vm_compute in Hfind; injection Hfind as <- <-;
         vm_compute in Hfindm; injection Hfindm as <- <-;
         vm_compute in Hconv; discriminate Hconv).
  assert (Hnone : no_reply resp).
  { vm_compute in Hfind; injection Hfind as <- <-.
    vm_compute in Hfindm; injection Hfindm as <- <-.
    vm_compute in Hconv. injection Hconv as <- _ _. exact I. }
  exists w2.
  exact (processMessageWithAI_without_reply silent_remote sample_env
           (Some "m1") (Some "c1") (Some "p1") sample_world c wa m wb resp
           c' w2 eq_refl eq_refl eq_refl Hfind Hfindm Hconv Hnone).
Defined.

(** ** Looking a conversation up before acting on it *)

Lemma count_lookup kind calls :
  Forall (fun c => is_lookup c = true) calls ->
  (forall c, is_lookup c = true -> kind c = false) ->
  count kind calls = 0.
Proof.
  intros Hdb Hkind. induction Hdb as [| c calls Hc _ IH]; [reflexivity |].
  by rewrite count_cons, (Hkind c Hc), IH.
Qed.

Lemma on_object_Ok {A} (c : Conversation) (m : M Obj A) w a c' w' :
  on_object c m w = (Ok (a, c'), w') -> m (c, w) = (Ok a, (c', w')).
Proof.
  unfold on_object. destruct (m (c, w)) as [[a0 | e |] [c0 w0]];
    by intros [= <- <- <-].
Qed.

Section Lookup.

Context (R : Remote).

Lemma returns_findConversationById id : returns (findConversationById R id).
Proof.
  unfold findConversationById, Conversation_findById, getConnection.
  apply returns_bind; [apply returns_perform | intros _].
  apply returns_bind; [apply returns_execute | intros _].
  apply returns_bind; [done | intros w].
  destruct (select_conversation_by_id id w); [| done].
  apply returns_bind; [apply returns_new_Conversation | done].
Qed.

(** However the lookup of a conversation ends, it has only read the
    database and changed no table; it does not answer a conversation when
    no row has the id. *)
Lemma findConversationById_any id w r w' :
  findConversationById R id w = (r, w') ->
  conversations w' = conversations w /\ messages w' = messages w /\
  (exists calls, trace w' = trace w ++ calls /\
     Forall (fun c => is_lookup c = true) calls) /\
  (r = Ok None \/ (exists e, r = Throw e) \/
   exists c row, r = Ok (Some c) /\ row ∈ conversations w /\ conv_id row = id).
Proof.
  intros H. destruct r as [found | e |].
  - apply findConversationById_ok in H as (Ht & Hc & Hm & Hfound).
    split; [done |]. split; [done |]. split.
    + eexists. split; [exact Ht |]. by repeat constructor.
    + destruct found as [c |]; [| by left]. right. right.
      destruct (Hfound c eq_refl) as (row & Hin & Hid & _).
      by exists c, row.
  - revert H.
    unfold findConversationById, Conversation_findById, getConnection.
    unfold bind at 1.
    destruct (perform_run R GetConnection (get_connection R) w)
      as (w1 & Hconn & Ht1 & Hc1 & Hm1 & _).
    rewrite Hconn. destruct (get_connection R _) as [u | e1]; simpl.
    + unfold bind at 1, execute.
      destruct (perform_run R (Execute (SelectConversationById id))
                  (connection_execute R) w1)
        as (w2 & Hexec & Ht2 & Hc2 & Hm2 & _).
      rewrite Hexec. destruct (connection_execute R _) as [u2 | e2]; simpl.
      * unfold bind at 1, get. simpl.
        destruct (select_conversation_by_id id w2) as [row |]; [| done].
        unfold bind.
        destruct (new_Conversation R (conversation_row_data row) w2)
          as [[c | e3 |] w3] eqn:Hnew; [done | | done].
        pose proof (new_Conversation_tables _ _ _ _ _ Hnew) as [Hc3 Hm3].
        revert Hnew. unfold new_Conversation, bind, uuid, Date_now, ret.
        by destruct (str_or_null (cd_id (conversation_row_data row))).
      * intros [= _ <-]. split; [congruence |]. split; [congruence |].
        split; [| right; left; by eexists].
        exists [GetConnection; Execute (SelectConversationById id)].
        split; [by rewrite Ht2, Ht1, <- app_assoc | by repeat constructor].
    + intros [= _ <-]. split; [done |]. split; [done |].
      split; [| right; left; by eexists].
      exists [GetConnection]. split; [done | by repeat constructor].
  - pose proof (returns_findConversationById id w) as Hret.
    rewrite H in Hret. by destruct Hret.
Qed.

(** X21.  [updateConversationConfig] merges into the config that is
    stored: when it returns, a row had the id, the conversation returned
    holds the merge of that row's config with the given map, and so does
    every row of the id.  When no row has the id it throws, having issued
    no UPDATE; the error is "Conversation with ID <id> not found" when the
    lookup itself succeeded. *)
Theorem updateConversationConfig_merges_stored (id : string)
    (p : gmap string JsVal) (w : World) :
  (forall c w',
     id <> "" ->
     updateConversationConfig R id p w = (Ok c, w') ->
     exists row,
       row ∈ conversations w /\ conv_id row = id /\ conv_id c = id /\
       conv_config c = spread (conv_config row) p /\
       (forall row', row' ∈ conversations w' -> conv_id row' = id ->
          conv_config row' = conv_config c) /\
       messages w' = messages w) /\
  (forall r w',
     (forall row, row ∈ conversations w -> conv_id row <> id) ->
     updateConversationConfig R id p w = (r, w') ->
     (exists e, r = Throw e) /\
     conversations w' = conversations w /\
     count is_config_update (calls_since w w') = 0 /\
     (forall w1, findConversationById R id w = (Ok None, w1) ->
        r = Throw (Error ("Conversation with ID " +:+ id +:+ " not found")))).
Proof.
  split.
  - intros c w' Hid H. unfold updateConversationConfig in H.
    apply bind_Ok in H as (found & w1 & Hfind & H).
    apply findConversationById_ok in Hfind as (_ & Hc1 & Hm1 & Hfound).
    destruct found as [conversation |]; [| discriminate H].
    destruct (Hfound conversation eq_refl)
      as (row & Hin & Hrid & Hcfg & _ & Hcid).
    specialize (Hcid Hid).
    apply bind_Ok in H as ([a c'] & w2 & Hupd & Hret).
    unfold ret in Hret. injection Hret as <- <-. simpl.
    apply on_object_Ok, updateConfig_ok in Hupd
      as (t & -> & -> & _ & Hc2 & Hm2).
    exists row. rewrite Hcid in Hc2. simpl. rewrite <- Hcfg.
    repeat split; try done; [| congruence].
    intros row' Hin' Hid'. rewrite Hc2 in Hin'.
    eapply updated_rows; eassumption.
  - intros r w' Hnone. unfold updateConversationConfig, bind.
    destruct (findConversationById R id w) as [r1 w1] eqn:Hfind.
    destruct (findConversationById_any _ _ _ _ Hfind)
      as (Hc1 & _ & (calls & Ht1 & Hdb) &
          [-> | [[e ->] | (c & row & -> & Hin & Hid)]]);
      [| | by destruct (Hnone row Hin)];
      intros [= <- <-];
      (split; [by eexists |]); (split; [done |]);
      (split; [rewrite (calls_since_app _ _ _ Ht1);
               apply count_lookup; [done |];
               intros call Hcall; destruct call; try done;
               by destruct sql |]).
    + by intros w2 [= _].
    + by intros w2.
Qed.

End Lookup.

Lemma updateConversationConfig_merges_stored_witness :
  exists c w',
    updateConversationConfig sample_remote "c1" {[ "k" := JStr "v" ]}
      sample_world = (Ok c, w') /\
    conv_config c = spread {[ "lang" := JStr "pt" ]} {[ "k" := JStr "v" ]}.
Proof.
  destruct (updateConversationConfig sample_remote "c1" {[ "k" := JStr "v" ]}
              sample_world) as [[c | e |] w'] eqn:Hrun;
    try (vm_compute in Hrun; discriminate Hrun).
  destruct (proj1 (updateConversationConfig_merges_stored sample_remote "c1"
                     {[ "k" := JStr "v" ]} sample_world) c w')
    as (row & Hin & _ & _ & Hcfg & _); [done | exact Hrun |].
  exists c, w'. split; [reflexivity |].
  apply list_elem_of_singleton in Hin as ->. exact Hcfg.
Defined.

(** ** The handlers of the assistant routes *)

Section AssistantRoutes.

Context (R : Remote).

(** X22.  The handler [createThread] creates a thread whether or not the
    conversation has one: when it answers, exactly one thread was created
    and every stored row of the conversation holds its id under
    "thread_id", in place of an earlier id, with the other keys kept.  For
    a conversation that is not stored it creates no thread. *)
Theorem createThread_replaces_thread (w : World) :
  (forall conversationId tid w',
     OpenAIController.createThread R conversationId w = (Ok tid, w') ->
     exists cid row,
       conversationId = Some cid /\ cid <> "" /\
       row ∈ conversations w /\ conv_id row = cid /\
       count is_thread_create (calls_since w w') = 1 /\
       (forall row', row' ∈ conversations w' -> conv_id row' = cid ->
          conv_config row' = <[ "thread_id" := JStr tid ]> (conv_config row))) /\
  (forall cid r w',
     (forall row, row ∈ conversations w -> conv_id row <> cid) ->
     OpenAIController.createThread R (Some cid) w = (r, w') ->
     (exists e, r = Throw e) /\
     count is_thread_create (calls_since w w') = 0).
Proof.
  split.
  - intros conversationId tid w'. unfold OpenAIController.createThread.
    destruct (str_truthy conversationId) eqn:Hcid; [| discriminate].
    apply str_truthy_true in Hcid. simpl. intros H.
    destruct conversationId as [cid |]; [| by destruct Hcid; left].
    assert (Hne : cid <> "") by (intros ->; destruct Hcid; by right).
    simpl in H.
    apply bind_Ok in H as (found & w1 & Hfind & H).
    apply findConversationById_ok in Hfind as (Ht1 & Hc1 & _ & Hfound).
    destruct found as [conversation |]; [| discriminate H].
    destruct (Hfound conversation eq_refl)
      as (row & Hin & Hrid & Hcfg & _ & Hid).
    specialize (Hid Hne).
    apply bind_Ok in H as (thread & w2 & Hthread & H).
    apply perform_ok in Hthread as (Ht2 & Hc2 & _ & _).
    apply bind_Ok in H as ([a c'] & w3 & Hupd & Hret).
    unfold ret in Hret. injection Hret as <- <-.
    apply on_object_Ok, updateConfig_ok in Hupd
      as (t & _ & _ & Ht3 & Hc3 & _).
    exists cid, row. repeat split; try done.
    + rewrite (calls_since_app w w3
                 [GetConnection; Execute (SelectConversationById cid);
                  ThreadsCreate; GetConnection;
                  Execute (UpdateConversationConfig
                             (spread (conv_config conversation)
                                {[ "thread_id" := JStr (thread_id thread) ]})
                             t (conv_id conversation))]); [reflexivity |].
      rewrite Ht3, Ht2, Ht1, <- !app_assoc. reflexivity.
    + intros row' Hin' Hid'. rewrite Hc3, Hid in Hin'.
      rewrite <- Hcfg, <- spread_singleton.
      eapply updated_rows; eassumption.
  - intros cid r w' Hnone. unfold OpenAIController.createThread.
    destruct (str_truthy (Some cid)); simpl.
    + unfold bind at 1.
      destruct (findConversationById R cid w) as [r1 w1] eqn:Hfind.
      destruct (findConversationById_any _ _ _ _ _ Hfind)
        as (_ & _ & (calls & Ht1 & Hdb) &
            [-> | [[e ->] | (c & row & -> & Hin & Hid)]]);
        [| | by destruct (Hnone row Hin)];
        intros [= <- <-]; (split; [by eexists |]);
        rewrite (calls_since_app _ _ _ Ht1);
        (apply count_lookup; [done |]);
        intros call Hcall; by destruct call.
    + intros [= <- <-]. split; [by eexists |].
      by rewrite (calls_since_app w w [] (eq_sym (app_nil_r _))).
Qed.


End AssistantRoutes.

Lemma createThread_replaces_thread_witness :
  exists tid w',
    OpenAIController.createThread sample_remote (Some "c1")
      {| now := 0; trace := []; drawn := 0;
         conversations := [threaded_conversation]; messages := [] |}
      = (Ok tid, w') /\
    forall row', row' ∈ conversations w' -> conv_id row' = "c1" ->
      conv_config row' !! "thread_id" = Some (JStr tid).
Proof.
  destruct (OpenAIController.createThread sample_remote (Some "c1")
              {| now := 0; trace := []; drawn := 0;
                 conversations := [threaded_conversation]; messages := [] |})
    as [[tid | e |] w'] eqn:Hrun;
    try (vm_compute in Hrun; discriminate Hrun).
  destruct (proj1 (createThread_replaces_thread sample_remote _) _ _ _ Hrun)
    as (cid & row & [= <-] & _ & _ & _ & _ & Hrows).
  exists tid, w'. split; [reflexivity |].
  intros row' Hin Hid. rewrite (Hrows row' Hin Hid).
  apply lookup_insert_eq.
Defined.


(** ** Sending on request *)

Section SendRoute.

Context (R : Remote) (env : Env).

(** X24.  The handler [sendMessage] answers only for four non-empty
    parameters and a stored conversation: it has then looked the
    conversation up, made one POST of the text to the recipient given in
    the request, and appended one row of type "bot_answer" and status
    "sent" for the conversation, whose id it answers.  For a conversation
    that is not stored it hands on an error, sends nothing and stores
    nothing. *)
Theorem sendMessage_answers (to message conversationId
    phoneNumberId : option string) (w : World) :
  (forall id w',
     WhatsAppController.sendMessage R env to message conversationId
       phoneNumberId w = (Ok id, w') ->
     exists cid text row,
       conversationId = Some cid /\ cid <> "" /\
       message = Some text /\ text <> "" /\
       ~ missing to /\ ~ missing phoneNumberId /\
       (exists stored, stored ∈ conversations w /\ conv_id stored = cid) /\
       calls_since w w' =
         [GetConnection; Execute (SelectConversationById cid);
          AxiosPost (api_url env (render phoneNumberId +:+ "/messages"))
            (TextPayload to text);
          GetConnection; Execute (InsertMessage row)] /\
       conversations w' = conversations w /\
       messages w' = messages w ++ [row] /\
       msg_id row = id /\ msg_conversation_id row = Some cid /\
       msg_text row = Some text /\
       msg_type row = "bot_answer" /\ msg_status row = "sent") /\
  (forall cid r w',
     conversationId = Some cid ->
     (forall row, row ∈ conversations w -> conv_id row <> cid) ->
     WhatsAppController.sendMessage R env to message conversationId
       phoneNumberId w = (r, w') ->
     (exists e, r = Throw e) /\
     count is_post (calls_since w w') = 0 /\
     messages w' = messages w).
Proof.
  split.
  - intros id w'. unfold WhatsAppController.sendMessage.
    destruct (str_truthy to) eqn:Hto; [| discriminate].
    destruct (str_truthy message) eqn:Hmsg; [| discriminate].
    destruct (str_truthy conversationId) eqn:Hcid; [| discriminate].
    destruct (str_truthy phoneNumberId) eqn:Hpn; [| discriminate].
    simpl. intros H.
    apply str_truthy_true in Hto, Hmsg, Hcid, Hpn.
    destruct conversationId as [cid |]; [| by destruct Hcid; left].
    destruct message as [text |]; [| by destruct Hmsg; left].
    assert (Hcne : cid <> "") by (intros ->; destruct Hcid; by right).
    assert (Htne : text <> "") by (intros ->; destruct Hmsg; by right).
    simpl in H.
    apply bind_Ok in H as (found & w1 & Hfind & H).
    apply findConversationById_ok in Hfind as (Ht1 & Hc1 & Hm1 & Hfound).
    destruct found as [conversation |]; [| discriminate H].
    destruct (Hfound conversation eq_refl) as (stored & Hin & Hsid & _).
    apply bind_Ok in H as (row & w2 & Hsend & Hret).
    unfold ret in Hret. injection Hret as <- <-.
    apply sendTextMessage_ok in Hsend
      as (Ht2 & Hc2 & Hm2 & Hty & Hst & Htext & Hconv).
    exists cid, text, row.
    repeat (split; [done |]).
    split; [by exists stored |].
    split; [apply calls_since_app; by rewrite Ht2, Ht1, <- app_assoc |].
    split; [congruence |]. split; [congruence |].
    repeat (split; [done |]). split; [| done].
    rewrite Htext. simpl. by destruct (String.eqb_spec text "").
  - intros cid r w' -> Hnone. unfold WhatsAppController.sendMessage.
    destruct (negb (str_truthy to) || negb (str_truthy message) ||
              negb (str_truthy (Some cid)) || negb (str_truthy phoneNumberId)).
    + intros [= <- <-]. split; [by eexists |]. split; [| done].
      by rewrite (calls_since_app w w [] (eq_sym (app_nil_r _))).
    + simpl. unfold bind at 1.
      destruct (findConversationById R cid w) as [r1 w1] eqn:Hfind.
      destruct (findConversationById_any _ _ _ _ _ Hfind)
        as (_ & Hm1 & (calls & Ht1 & Hdb) &
            [-> | [[e ->] | (c & row & -> & Hin & Hid)]]);
        [| | by destruct (Hnone row Hin)];
        intros [= <- <-]; (split; [by eexists |]); (split; [| done]);
        rewrite (calls_since_app _ _ _ Ht1);
        (apply count_lookup; [done |]);
        intros call Hcall; by destruct call.
Qed.

End SendRoute.

Lemma sendMessage_answers_witness :
  exists id w',
    WhatsAppController.sendMessage sample_remote sample_env (Some "5522")
      (Some "hello") (Some "c1") (Some "p1") sample_world = (Ok id, w') /\
    count is_post (calls_since sample_world w') = 1.
Proof.
  destruct (WhatsAppController.sendMessage sample_remote sample_env
              (Some "5522") (Some "hello") (Some "c1") (Some "p1")
              sample_world) as [[id | e |] w'] eqn:Hrun;
    try (vm_compute in Hrun; discriminate Hrun).
  destruct (proj1 (sendMessage_answers sample_remote sample_env _ _ _ _ _)
              _ _ Hrun)
    as (cid & text & row & _ & _ & _ & _ & _ & _ & _ & Hcalls & _).
  exists id, w'. split; [reflexivity |]. by rewrite Hcalls.
Defined.

(** ** Reading back what was stored *)

Lemma str_or_idem s d : d <> "" -> str_or (Some (str_or s d)) d = str_or s d.
Proof.
  intros Hd. unfold str_or at 1.
  destruct (String.eqb_spec (str_or s d) "") as [Hempty | _]; [| done].
  revert Hempty. unfold str_or. destruct s as [x |]; [| done].
  by destruct (String.eqb_spec x "").
Qed.

Lemma str_or_null_idem s : str_or_null (str_or_null s) = str_or_null s.
Proof.
  destruct s as [x |]; [| done]. simpl.
  destruct (String.eqb x "") eqn:Hx; [done |]. simpl. by rewrite Hx.
Qed.

Section RoundTrip.

Context (R : Remote).

(** A message built by the constructor is a fixed point of the
    constructor. *)
Lemma new_Message_again data w m w0 w1 :
  new_Message R data w = (Ok m, w0) ->
  msg_id m <> "" ->
  new_Message R (message_row_data m) w1 = (Ok m, w1).
Proof.
  unfold new_Message at 1. unfold bind, uuid, Date_now, ret.
  intros H Hid.
  assert (Hm : exists i t,
    m = {| msg_id := i;
           msg_conversation_id := md_conversation_id data;
           msg_type := str_or (md_type data) "text";
           msg_wa_id := str_or (md_wa_id data) "";
           msg_timestamp := default t (md_timestamp data);
           msg_replying_to_mesage_id :=
             str_or_null (md_replying_to_mesage_id data);
           msg_business_phone_number_id :=
             str_or_null (md_business_phone_number_id data);
           msg_webhook_data := md_webhook_data data;
           msg_text := str_or_null (md_text data);
           msg_media := md_media data;
           msg_location := md_location data;
           msg_contact := md_contact data;
           msg_emoji := md_emoji data;
           msg_status := str_or (md_status data) "pending";
           msg_created_at := default t (md_created_at data);
           msg_updated_at := default t (md_updated_at data) |}).
  { destruct (str_or_null (md_id data)); simpl in H; injection H as <- _;
      by eexists _, _. }
  destruct Hm as (i & t & ->). simpl in Hid.
  unfold new_Message, message_row_data, bind, uuid, Date_now, ret.
  cbn -[str_or str_or_null].
  assert (Hi : str_or_null (Some i) = Some i).
  { simpl. by destruct (String.eqb_spec i ""). }
  rewrite Hi, (str_or_idem _ "text"), (str_or_idem _ "pending") by done.
  rewrite !str_or_null_idem.
  assert (Hwa : str_or (Some (str_or (md_wa_id data) "")) ""
                = str_or (md_wa_id data) "").
  { simpl. by destruct (String.eqb (str_or (md_wa_id data) "") "") eqn:Hx;
      [apply String.eqb_eq in Hx |]. }
  rewrite Hwa. reflexivity.
Qed.

(** X25.  A message stored by [createMessage] under an id that is not
    empty and that no earlier row has is read back by [findMessageById]
    as it was stored, field by field, for a database that returns its rows
    as they were inserted. *)
Theorem createMessage_then_findMessageById (data : MessageData)
    (w : World) (m : Message) (w1 : World) (found : option Message)
    (w2 : World) :
  createMessage R data w = (Ok m, w1) ->
  msg_id m <> "" ->
  (forall r, r ∈ messages w -> msg_id r <> msg_id m) ->
  findMessageById R (msg_id m) w1 = (Ok found, w2) ->
  found = Some m.
Proof.
  intros Hcreate Hid Hfresh Hfind.
  pose proof (createMessage_ok _ _ _ _ _ Hcreate) as (_ & _ & Hm1 & _).
  unfold createMessage in Hcreate.
  apply bind_Ok in Hcreate as (m0 & w0 & Hnew & Hins).
  apply Message_create_ok in Hins as (-> & _).
  revert Hfind. unfold findMessageById, Message_findById. intros H.
  apply bind_Ok in H as (u1 & wa & H1 & H).
  apply bind_Ok in H as (u2 & wb & H2 & H).
  apply bind_Ok in H as (w3 & w4 & H3 & H).
  apply getConnection_ok in H1 as (_ & _ & Hma).
  apply execute_ok in H2 as (_ & _ & Hmb). simpl in Hmb.
  unfold get in H3. injection H3 as <- <-.
  assert (Hrows : filter (fun r => msg_id r = msg_id m0) (messages wb) = [m0]).
  { rewrite Hmb, Hma, Hm1, filter_app.
    replace (filter (fun r => msg_id r = msg_id m0) (messages w)) with
      (@nil Message).
    - simpl. rewrite filter_cons_True by done. reflexivity.
    - symmetry. clear -Hfresh.
      induction (messages w) as [| r rows IH]; [done |].
      rewrite filter_cons_False.
      + apply IH. intros r' Hr'. apply Hfresh, elem_of_cons. by right.
      + apply Hfresh, elem_of_cons. by left. }
  rewrite Hrows in H. simpl in H.
  rewrite (bind_step _ _ _ _ _ (new_Message_again _ _ _ _ wb Hnew Hid)) in H.
  unfold ret in H. by injection H as <- _.
Qed.

(** X26.  [createTextMessage] stores a row of type "text" and
    [createBotMessage] one of type "bot_answer" and status "sent",
    whatever type and status the data name; either appends the row it
    returns, for the conversation of the data. *)
Theorem createTextMessage_createBotMessage_types (data : MessageData)
    (w : World) (m : Message) (w' : World) :
  (createTextMessage R data w = (Ok m, w') ->
   msg_type m = "text" /\
   msg_status m = str_or (md_status data) "pending" /\
   msg_conversation_id m = md_conversation_id data /\
   messages w' = messages w ++ [m]) /\
  (createBotMessage R data w = (Ok m, w') ->
   msg_type m = "bot_answer" /\ msg_status m = "sent" /\
   msg_conversation_id m = md_conversation_id data /\
   messages w' = messages w ++ [m]).
Proof.
  split; intros H.
  - change (createMessage R (with_type data "text") w = (Ok m, w')) in H.
    apply createMessage_ok in H as (_ & _ & Hm & Hconv & Hty & Hst & _).
    by repeat split.
  - change (createMessage R (with_status (with_type data "bot_answer") "sent")
              w = (Ok m, w')) in H.
    apply createMessage_ok in H as (_ & _ & Hm & Hconv & Hty & Hst & _).
    by repeat split.
Qed.

End RoundTrip.

Lemma createMessage_then_findMessageById_witness :
  exists m w1 w2,
    createMessage sample_remote (with_type no_data "note") sample_world
      = (Ok m, w1) /\
    findMessageById sample_remote (msg_id m) w1 = (Ok (Some m), w2).
Proof.
  destruct (createMessage sample_remote (with_type no_data "note")
              sample_world) as [[m | e |] w1] eqn:Hcreate;
    try (vm_compute in Hcreate; discriminate Hcreate).
  assert (Hid : msg_id m = "uuid-0").
  { vm_compute in Hcreate. by injection Hcreate as <- _. }
  destruct (findMessageById sample_remote (msg_id m) w1)
    as [[found | e |] w2] eqn:Hfind;
    try (vm_compute in Hcreate; injection Hcreate as <- <-;
         vm_compute in Hfind; discriminate Hfind).
  assert (Hfound : found = Some m).
  { apply (createMessage_then_findMessageById sample_remote _ _ _ _ found w2
             Hcreate); [by rewrite Hid | | exact Hfind].
    intros r Hr. apply list_elem_of_singleton in Hr as ->. by rewrite Hid. }
  exists m, w1, w2. split; [reflexivity |]. rewrite <- Hfound. exact Hfind.
Defined.

Lemma createTextMessage_createBotMessage_types_witness :
  exists m w',
    createTextMessage sample_remote (with_type no_data "image") sample_world
      = (Ok m, w') /\
    msg_type m = "text".
Proof.
  destruct (createTextMessage sample_remote (with_type no_data "image")
              sample_world) as [[m | e |] w'] eqn:Hrun;
    try (vm_compute in Hrun; discriminate Hrun).
  exists m, w'. split; [reflexivity |].
  exact (proj1 (proj1 (createTextMessage_createBotMessage_types sample_remote
                         _ _ _ _) Hrun)).
Defined.
